(** * NEAR intents with Zcash: the quote / commit / submit pipeline

    A shallow embedding of [near_zcash_intents.py] (asset registry, amount
    codec, request builder, quote fetcher, quote selector, commitment builder,
    publisher, swap orchestrator) and of the agent of [zec_agent.py]
    (balances, portfolio and its analysis, privacy preferences, the two
    swaps), with the properties the specification states about them and
    further properties of the code.

    Conventions of the embedding.
    - A Python [float] is an IEEE 754 binary64 value: [spec_float] with
      precision 53 and maximal exponent 1024, rounded to nearest even.
    - A Python [int] is a [Z]; [str] of an [int] is its decimal numeral.
    - A raising call returns [inl e]; a returning call [inr v].
    - A Python dict read only by key is a [gmap]. A dict whose order
      matters is an ordered association list: the [diff] of an intent, whose
      insertion order reaches [json.dumps], and a portfolio, whose balances
      are summed in order.
    - [logging] calls have no effect on results and are left out. *)

From Stdlib Require Import ZArith QArith Qabs String Ascii List Lia.
From Stdlib Require Import Floats.SpecFloat.
From Stdlib Require Import Decimal DecimalString DecimalPos.
From stdpp Require Import base option list gmap strings.

#[local] Open Scope string_scope.
#[local] Open Scope Z_scope.

(** ** Constants *)

Definition MAX_GAS : Z := 300 * 10 ^ 12.
Definition SOLVER_BUS_URL : string := "https://solver-relay-v2.chaindefuser.com/rpc".

(** ** Python exceptions and results *)

Inductive Exn : Type :=
| ValueError (msg : string)
| KeyError (key : string)
| OverflowError (msg : string)
| ZeroDivisionError
| RequestException (detail : string).

Definition Result (A : Type) : Type := (Exn + A)%type.

Definition raise {A : Type} (e : Exn) : Result A := inl e.
Definition ok {A : Type} (a : A) : Result A := inr a.

Definition rbind {A B : Type} (c : Result A) (k : A -> Result B) : Result B :=
  match c with
  | inl e => inl e
  | inr a => k a
  end.

(** [f] over a list, up to the first call that raises. *)
Fixpoint rmap {A B : Type} (f : A -> Result B) (l : list A) : Result (list B) :=
  match l with
  | [] => inr []
  | a :: l' =>
      match f a with
      | inl e => inl e
      | inr b =>
          match rmap f l' with
          | inl e => inl e
          | inr bs => inr (b :: bs)
          end
      end
  end.

Declare Scope result_scope.
Delimit Scope result_scope with result.
Notation "'let?' x ':=' c 'in' k" := (rbind c (fun x => k))
  (at level 10, x name, c at level 100, k at level 200) : result_scope.
#[local] Open Scope result_scope.

(** ** Python floats *)

Module PyFloat.

Definition float : Type := spec_float.

Definition prec : Z := 53.
Definition emax : Z := 1024.

Definition zero : float := S754_zero false.

Definition mul : float -> float -> float := SFmul prec emax.
Definition div : float -> float -> float := SFdiv prec emax.
Definition add : float -> float -> float := SFadd prec emax.

(** The double nearest to the integer [n] (ties to even); an integer too
    large for a double comes out as an infinity. *)
Definition nearest (n : Z) : float := binary_normalize prec emax n 0 false.

(** [float(n)] for an [int], as in [x * 10 ** d] and [x / 10 ** d]: the
    conversion raises when the integer exceeds the largest double. *)
Definition of_int (n : Z) : Result float :=
  match nearest n with
  | S754_infinity _ => raise (OverflowError "int too large to convert to float")
  | x => ok x
  end.

(** [int(x)]: truncation toward zero. *)
Definition to_int (x : float) : Result Z :=
  match x with
  | S754_zero _ => ok 0
  | S754_finite s m e =>
      let a := match e with
               | Z0 => Zpos m
               | Zpos _ => Z.shiftl (Zpos m) e
               | Zneg _ => Z.shiftr (Zpos m) (- e)
               end in
      ok (if s then - a else a)
  | S754_infinity _ => raise (OverflowError "cannot convert float infinity to integer")
  | S754_nan => raise (ValueError "cannot convert float NaN to integer")
  end.

Definition is_zero (x : float) : bool :=
  match x with
  | S754_zero _ => true
  | _ => false
  end.

(** [x / y] on floats. *)
Definition truediv (x y : float) : Result float :=
  if is_zero y then raise ZeroDivisionError else ok (div x y).

(** [x * n] and [x / n] for a float [x] and an int [n]. *)
Definition mul_int (x : float) (n : Z) : Result float :=
  let? y := of_int n in ok (mul x y).

Definition truediv_int (x : float) (n : Z) : Result float :=
  let? y := of_int n in truediv x y.

Definition gtb (x y : float) : bool := SFltb y x.
Definition leb (x y : float) : bool := SFleb x y.
Definition eqb (x y : float) : bool := SFeqb x y.

(** Decimal digits. *)
Definition digit_of_ascii (c : ascii) : option Z :=
  let n := Z.of_N (N_of_ascii c) in
  if (48 <=? n) && (n <=? 57) then Some (n - 48) else None.

Fixpoint parse_digits (s : string) (acc : Z) : option Z :=
  match s with
  | EmptyString => Some acc
  | String c s' =>
      match digit_of_ascii c with
      | Some d => parse_digits s' (10 * acc + d)
      | None => None
      end
  end.

(** Sign and magnitude of a decimal integer numeral [[+-]?[0-9]+]. *)
Definition parse_integer (s : string) : option (bool * Z) :=
  match s with
  | EmptyString => None
  | String c rest =>
      if Ascii.eqb c "-"%char then
        match rest with
        | EmptyString => None
        | _ => option_map (pair true) (parse_digits rest 0)
        end
      else if Ascii.eqb c "+"%char then
        match rest with
        | EmptyString => None
        | _ => option_map (pair false) (parse_digits rest 0)
        end
      else option_map (pair false) (parse_digits s 0)
  end.

(** [float(s)] for a string [s]. On-chain amounts are decimal integer
    numerals, and on those [float] is the correctly rounded double.
    Python's [float] also reads fractions, exponents, blanks, [inf] and
    [nan]; those shapes are outside this embedding, which rejects them,
    and every statement below is about strings that parse here. *)
Definition of_str (s : string) : Result float :=
  match parse_integer s with
  | Some (sg, n) => ok (binary_normalize prec emax (if sg then - n else n) 0 sg)
  | None => raise (ValueError ("could not convert string to float: " +:+ s))
  end.

(** [str(n)] for an [int]. *)
Definition str (n : Z) : string := NilZero.string_of_int (Z.to_int n).

(** The exact rational value of a finite float. *)
Definition to_Q (x : float) : Q :=
  match x with
  | S754_finite s m e =>
      let v := match e with
               | Zneg p => Qmake (Zpos m) (2 ^ p)%positive
               | _ => inject_Z (Zpos m * 2 ^ e)
               end in
      if s then Qopp v else v
  | _ => 0%Q
  end.

Definition is_nan (x : float) : bool :=
  match x with
  | S754_nan => true
  | _ => false
  end.

(** A balance or an amount that is not negative: [+0.0], a positive
    finite float or [+inf]. *)
Definition nonneg (x : float) : bool :=
  match x with
  | S754_zero false | S754_finite false _ _ | S754_infinity false => true
  | _ => false
  end.

End PyFloat.

Abbreviation float := PyFloat.float.

(** ** Ordered dictionaries

    [d[k] = v] on a Python dict: an existing key keeps its position and
    takes the new value, a new key goes last. *)

Fixpoint dict_set {V : Type} (k : string) (v : V) (d : list (string * V)) : list (string * V) :=
  match d with
  | [] => [(k, v)]
  | (k', v') :: d' =>
      if String.eqb k' k then (k, v) :: d' else (k', v') :: dict_set k v d'
  end.

(** [d.get(k, default)]. *)
Fixpoint dict_get {V : Type} (k : string) (default : V) (d : list (string * V)) : V :=
  match d with
  | [] => default
  | (k', v') :: d' => if String.eqb k' k then v' else dict_get k default d'
  end.

(** [d[k]] on a dict read by key only. *)
Definition getitem {V : Type} (d : gmap string V) (k : string) : Result V :=
  match d !! k with
  | Some v => ok v
  | None => raise (KeyError k)
  end.

(** ** Asset registry *)

Record Asset : Type := {
  token_id : string;
  omft : option string;
  decimals : N;
  shielded : bool   (* the ['shielded'] flag; an entry without it is not flagged *)
}.

Definition ASSET_MAP : gmap string Asset :=
  <["USDC" := {| token_id := "a0b86991c6218b36c1d19d4a2e9eb0ce3606eb48.factory.bridge.near";
                 omft := Some "eth-0xa0b86991c6218b36c1d19d4a2e9eb0ce3606eb48.omft.near";
                 decimals := 6;
                 shielded := false |}]>
  (<["NEAR" := {| token_id := "wrap.near";
                  omft := None;
                  decimals := 24;
                  shielded := false |}]>
  (<["ZEC" := {| token_id := "zcash.factory.bridge.near";
                 omft := Some "zcash-token.omft.near";
                 decimals := 8;
                 shielded := true |}]> ∅)).

(** The symbols of the registry: [ASSET_MAP.keys()]. *)
Definition ASSET_SYMBOLS : list string := elements (dom ASSET_MAP).

(** An asset is privacy-capable when the registry flags it as shielded. *)
Definition privacy_capable (token : string) : bool :=
  match ASSET_MAP !! token with
  | Some a => shielded a
  | None => false
  end.

Definition get_asset_id (token : string) : Result string :=
  if String.eqb token "NEAR" then ok "near"
  else if String.eqb token "ZEC" then
    let? a := getitem ASSET_MAP token in ok ("nep141:" +:+ token_id a)
  else if String.eqb token "USDC" then
    ok "nep141:a0b86991c6218b36c1d19d4a2e9eb0ce3606eb48.factory.bridge.near"
  else
    let? a := getitem ASSET_MAP token in ok ("nep141:" +:+ token_id a).

(** ** Amount codec *)

Definition to_decimals (amount : float) (decimals : N) : Result string :=
  let? scaled := PyFloat.mul_int amount (10 ^ Z.of_N decimals) in
  let? units := PyFloat.to_int scaled in
  ok (PyFloat.str units).

Definition from_decimals (amount : string) (decimals : N) : Result float :=
  let? x := PyFloat.of_str amount in
  PyFloat.truediv_int x (10 ^ Z.of_N decimals).

(** ** Data model *)

Record Intent : Type := {
  intent : string;
  diff : list (string * string)
}.

Record Quote : Type := {
  nonce : string;
  signer_id : string;
  verifying_contract : string;
  deadline : string;
  intents : list Intent
}.

Record ShieldingOptions : Type := {
  enabled : bool;
  memo : option string;
  viewing_key : option string
}.

(** The [shield_params] dict of a commitment. *)
Record ShieldParams : Type := {
  sp_shielded : bool;
  sp_memo : option string;
  sp_viewing_key : option string
}.

Record ZcashCommitment : Type := {
  standard : string;
  payload : string;
  signature : string;
  public_key : string;
  shield_params : option ShieldParams
}.

(** ** Collaborators

    The account with its signer, the library encoders, and the two values a
    commitment draws from its surroundings: the 256 random bits of the nonce
    and the clock, already as [int(time.time() * 1000)]. *)

Record Signer : Type := {
  sign : string -> string;
  signer_public_key : string
}.

Record Account : Type := {
  account_id : string;
  signer : Signer
}.

Record Libs : Type := {
  json_dumps : Quote -> string;
  b58encode : string -> string;
  b64encode : string -> string
}.

Record Ambient : Type := {
  getrandbits_256 : N;
  time_ms : Z
}.

(** [n.to_bytes(len, byteorder='big')], for [n] below [256 ^ len]. *)
Fixpoint to_bytes (len : nat) (n : N) : string :=
  match len with
  | O => EmptyString
  | S len' => to_bytes len' (n / 256) +:+ String (ascii_of_N (n mod 256)) EmptyString
  end.

(** ** Swap request builder *)

Record IntentRequest : Type := {
  request : gmap string string;
  min_deadline_ms : Z
}.

(** [IntentRequest(request, thread, min_deadline_ms)]: [request or {}]. The
    [thread] attribute is stored and never read. *)
Definition IntentRequest_init (request : option (gmap string string)) (min_deadline_ms : Z)
  : IntentRequest :=
  {| request := default ∅ request; min_deadline_ms := min_deadline_ms |}.

(** [IntentRequest()]. *)
Definition IntentRequest_new : IntentRequest := IntentRequest_init None 120000.

Definition with_request (self : IntentRequest) (r : gmap string string) : IntentRequest :=
  {| request := r; min_deadline_ms := min_deadline_ms self |}.

Definition unsupported_asset (asset_name : string) : Exn :=
  ValueError ("Unsupported asset: " +:+ asset_name).

(** A method that mutates [self] returns the object as the call leaves it,
    also when it raises, and the outcome of the call. *)
Definition set_asset_in (self : IntentRequest) (asset_name : string) (amount : float)
  : IntentRequest * Result unit :=
  match ASSET_MAP !! asset_name with
  | None => (self, raise (unsupported_asset asset_name))
  | Some a =>
      match get_asset_id asset_name with
      | inl e => (self, inl e)
      | inr id =>
          let self1 := with_request self (<["assetIn" := id]> (request self)) in
          match to_decimals amount (decimals a) with
          | inl e => (self1, inl e)
          | inr units =>
              (with_request self1 (<["amountIn" := units]> (request self1)), ok tt)
          end
      end
  end.

Definition set_asset_out (self : IntentRequest) (asset_name : string) (amount : option float)
  : IntentRequest * Result unit :=
  match ASSET_MAP !! asset_name with
  | None => (self, raise (unsupported_asset asset_name))
  | Some a =>
      match get_asset_id asset_name with
      | inl e => (self, inl e)
      | inr id =>
          let self1 := with_request self (<["assetOut" := id]> (request self)) in
          match amount with
          | None => (self1, ok tt)
          | Some x =>
              match to_decimals x (decimals a) with
              | inl e => (self1, inl e)
              | inr units =>
                  (with_request self1 (<["amountOut" := units]> (request self1)), ok tt)
              end
          end
      end
  end.

Record SerializedRequest : Type := {
  assets_in : string;
  assets_out : string;
  amounts_in : string;
  amounts_out : option string;
  deadline_type : string;
  deadline_ms : Z;
  slippage : option string
}.

Definition serialize (self : IntentRequest) : Result SerializedRequest :=
  let? a_in := getitem (request self) "assetIn" in
  let? a_out := getitem (request self) "assetOut" in
  let? amt_in := getitem (request self) "amountIn" in
  ok {| assets_in := a_in;
        assets_out := a_out;
        amounts_in := amt_in;
        amounts_out := request self !! "amountOut";
        deadline_type := "relative";
        deadline_ms := min_deadline_ms self;
        slippage := request self !! "slippage" |}.

(** ** The relay and the effects of a swap

    [requests.post] either raises (a transport error) or returns a response
    object. The response is modelled by what its two uses yield:
    [raise_for_status()], which raises on a non-success status, and
    [json()["result"]], which raises when the body is not JSON or carries no
    result (the envelope of a relay-reported error). *)

Record Response (R : Type) : Type := {
  raise_for_status : option Exn;
  json_result : Result R
}.
Arguments raise_for_status {R} _.
Arguments json_result {R} _.

Inductive PostOutcome (R : Type) : Type :=
| PostRaises (e : Exn)
| PostReturns (r : Response R).
Arguments PostRaises {R} e.
Arguments PostReturns {R} r.

Inductive RpcCall : Type :=
| intents_getQuotes (params : SerializedRequest)
| intents_publishIntent (signed_data : ZcashCommitment).

Record Relay : Type := {
  getQuotes : SerializedRequest -> PostOutcome (list (gmap string string));
  publishIntent : ZcashCommitment -> PostOutcome (gmap string string)
}.

(** What a swap does to the outside: posts to the relay and signatures. *)
Inductive Event : Type :=
| EvPost (call : RpcCall)
| EvSign (data : string).

(** A computation that may raise and that appends to the log of events;
    the events stay in the log when it raises. *)
Definition M (A : Type) : Type := list Event -> Result A * list Event.

Definition mret {A : Type} (a : A) : M A := fun log => (ok a, log).

Definition mraise {A : Type} (e : Exn) : M A := fun log => (raise e, log).

Definition mbind {A B : Type} (c : M A) (k : A -> M B) : M B :=
  fun log =>
    match c log with
    | (inl e, log') => (inl e, log')
    | (inr a, log') => k a log'
    end.

Definition lift {A : Type} (r : Result A) : M A := fun log => (r, log).

Definition emit (ev : Event) : M unit := fun log => (ok tt, (log ++ [ev])%list).

(** [try: c except Exception as e: h e]. *)
Definition try_except {A : Type} (c : M A) (h : Exn -> M A) : M A :=
  fun log =>
    match c log with
    | (inl e, log') => h e log'
    | (inr a, log') => (inr a, log')
    end.

Declare Scope m_scope.
Delimit Scope m_scope with m.
Notation "'let*' x ':=' c 'in' k" := (mbind c (fun x => k))
  (at level 10, x name, c at level 100, k at level 200) : m_scope.
Notation "c ';;' k" := (mbind c (fun _ => k))
  (at level 100, k at level 200, right associativity) : m_scope.
#[local] Open Scope m_scope.

(** [response.raise_for_status()]. *)
Definition check_status {R : Type} (r : Response R) : Result unit :=
  match raise_for_status r with
  | Some e => raise e
  | None => ok tt
  end.

(** [requests.post(SOLVER_BUS_URL, json={"method": ..., "params": ..., "id": 1})]. *)
Definition post_getQuotes (relay : Relay) (params : SerializedRequest)
  : M (Response (list (gmap string string))) :=
  emit (EvPost (intents_getQuotes params));;
  match getQuotes relay params with
  | PostRaises e => mraise e
  | PostReturns r => mret r
  end.

Definition post_publishIntent (relay : Relay) (signed_data : ZcashCommitment)
  : M (Response (gmap string string)) :=
  emit (EvPost (intents_publishIntent signed_data));;
  match publishIntent relay signed_data with
  | PostRaises e => mraise e
  | PostReturns r => mret r
  end.

(** ** Commitment builder *)

Definition default_shield_options (token_in token_out : string)
  (shield_options : option ShieldingOptions) : ShieldingOptions :=
  match shield_options with
  | Some o => o
  | None =>
      if String.eqb token_in "ZEC" || String.eqb token_out "ZEC"
      then {| enabled := true; memo := None; viewing_key := None |}
      else {| enabled := false; memo := None; viewing_key := None |}
  end.

(** The [quote] that [create_shielded_token_diff_quote] builds and signs. *)
Definition token_diff_quote (lib : Libs) (amb : Ambient) (account : Account)
  (token_in : string) (amount_in : float) (token_out : string) (amount_out : float)
  : Result Quote :=
  let nonce := b64encode lib (to_bytes 32 (getrandbits_256 amb)) in
  let? id_in := get_asset_id token_in in
  let? a_in := getitem ASSET_MAP token_in in
  let? units_in := to_decimals amount_in (decimals a_in) in
  let? id_out := get_asset_id token_out in
  let? a_out := getitem ASSET_MAP token_out in
  let? units_out := to_decimals amount_out (decimals a_out) in
  ok {| nonce := nonce;
        signer_id := account_id account;
        verifying_contract := "intents.near";
        deadline := PyFloat.str (time_ms amb + 120000);
        intents :=
          [ {| intent := "token_diff";
               diff := dict_set id_out units_out
                         (dict_set id_in ("-" +:+ units_in) []) |} ] |}.

Definition create_shielded_token_diff_quote (lib : Libs) (amb : Ambient) (account : Account)
  (token_in : string) (amount_in : float) (token_out : string) (amount_out : float)
  (shield_options : option ShieldingOptions) : M ZcashCommitment :=
  let shield_options := default_shield_options token_in token_out shield_options in
  let* quote := lift (token_diff_quote lib amb account token_in amount_in token_out amount_out) in
  let quote_data := json_dumps lib quote in
  emit (EvSign quote_data);;
  let signature := "ed25519:" +:+ b58encode lib (sign (signer account) quote_data) in
  let public_key := "ed25519:" +:+ b58encode lib (signer_public_key (signer account)) in
  if enabled shield_options then
    mret {| standard := "raw_ed25519";
            payload := json_dumps lib quote;
            signature := signature;
            public_key := public_key;
            shield_params :=
              Some {| sp_shielded := true;
                      sp_memo := memo shield_options;
                      sp_viewing_key := viewing_key shield_options |} |}
  else
    mret {| standard := "raw_ed25519";
            payload := json_dumps lib quote;
            signature := signature;
            public_key := public_key;
            shield_params := None |}.

(** ** Publisher *)

Definition publish_shielded_intent (relay : Relay) (signed_intent : ZcashCommitment)
  : M (gmap string string) :=
  try_except
    (let* response := post_publishIntent relay signed_intent in
     lift (check_status response);;
     lift (json_result response))
    (fun e => mraise e).

(** ** Quote fetcher *)

Definition fetch_options (relay : Relay) (request : IntentRequest)
  : M (list (gmap string string)) :=
  try_except
    (let* params := lift (serialize request) in
     let* response := post_getQuotes relay params in
     lift (check_status response);;
     lift (json_result response))
    (fun _ => mret []).

(** ** Quote selector *)

(** The key of [max]: [float(x["amount_out"])]. *)
Definition amount_out_key (x : gmap string string) : Result float :=
  let? s := getitem x "amount_out" in PyFloat.of_str s.

(** The loop of [max(iterable, key=...)]: an item replaces the current
    maximum only when its key is strictly greater. *)
Fixpoint max_loop (maxitem : gmap string string) (maxval : float)
  (rest : list (gmap string string)) : Result (gmap string string) :=
  match rest with
  | [] => ok maxitem
  | item :: rest' =>
      let? val := amount_out_key item in
      if PyFloat.gtb val maxval then max_loop item val rest'
      else max_loop maxitem maxval rest'
  end.

Definition select_best_option (options : list (gmap string string))
  : Result (gmap string string) :=
  match options with
  | [] => raise (ValueError "No options provided")
  | first :: rest =>
      let? maxval := amount_out_key first in
      max_loop first maxval rest
  end.

(** ** Swap orchestrator *)

Definition no_swap_options (token_in token_out : string) : Exn :=
  ValueError ("No swap options available for " +:+ token_in +:+ " to " +:+ token_out).

(** [IntentRequest().set_asset_in(token_in, amount_in).set_asset_out(token_out)]. *)
Definition build_request (token_in : string) (amount_in : float) (token_out : string)
  : Result IntentRequest :=
  let '(r1, o1) := set_asset_in IntentRequest_new token_in amount_in in
  let? _ := o1 in
  let '(r2, o2) := set_asset_out r1 token_out None in
  let? _ := o2 in
  ok r2.

Definition intent_swap_zec (lib : Libs) (relay : Relay) (amb : Ambient) (account : Account)
  (token_in : string) (amount_in : float) (token_out : string) (privacy_level : string)
  : M (gmap string string) :=
  let* request := lift (build_request token_in amount_in token_out) in
  let* options := fetch_options relay request in
  match options with
  | [] => mraise (no_swap_options token_in token_out)
  | _ =>
      let* best_option := lift (select_best_option options) in
      let shield_options :=
        if String.eqb privacy_level "shielded"
           && (String.eqb token_in "ZEC" || String.eqb token_out "ZEC")
        then {| enabled := true;
                memo := Some ("Swap " +:+ token_in +:+ " to " +:+ token_out);
                viewing_key := None |}
        else {| enabled := false; memo := None; viewing_key := None |} in
      let* amount_out := lift (amount_out_key best_option) in
      let* signed_intent :=
        create_shielded_token_diff_quote lib amb account token_in amount_in
          token_out amount_out (Some shield_options) in
      publish_shielded_intent relay signed_intent
  end.

(** ** Portfolio view: the privacy ratio *)

(** [sum(values)]: from the integer [0], left to right, as the language
    defines it. (CPython from 3.12 on carries a compensation term through a
    sum of floats; that refinement of the low-order bits is not modelled.) *)
Definition py_sum (values : list float) : float :=
  fold_left PyFloat.add values PyFloat.zero.

Definition _calculate_privacy_ratio (portfolio : list (string * float)) : Result float :=
  let total_value := py_sum (map snd portfolio) in
  if PyFloat.leb total_value PyFloat.zero then ok PyFloat.zero
  else
    let privacy_value := dict_get "ZEC" PyFloat.zero portfolio in
    let? ratio := PyFloat.truediv privacy_value total_value in
    PyFloat.mul_int ratio 100.

(** [0.25], the rate of USDC in [analyze_portfolio]. *)
Definition quarter : float := PyFloat.div (PyFloat.nearest 1) (PyFloat.nearest 4).

(** The value in NEAR of a balance, at the fixed rates of
    [analyze_portfolio]; a token without a rate is worth [0]. *)
Definition value_near (token : string) (balance : float) : Result float :=
  if String.eqb token "NEAR" then ok balance
  else if String.eqb token "ZEC" then PyFloat.mul_int balance 10
  else if String.eqb token "USDC" then ok (PyFloat.mul balance quarter)
  else ok PyFloat.zero.

(** The loop that fills [distributions]. *)
Fixpoint distribute (total_value_near : float) (items : list (string * float))
  (distributions : list (string * float)) : Result (list (string * float)) :=
  match items with
  | [] => ok distributions
  | (token, balance) :: items' =>
      let? value := value_near token balance in
      let? share := PyFloat.truediv value total_value_near in
      let? percent := PyFloat.mul_int share 100 in
      distribute total_value_near items' (dict_set token percent distributions)
  end.

Record Analysis : Type := {
  analysis_portfolio : list (string * float);
  total_value_near : float;
  distributions : list (string * float);
  privacy_ratio : float
}.

(** [analyze_portfolio], on the portfolio that [get_portfolio] returned. *)
Definition analyze_portfolio (portfolio : list (string * float)) : Result Analysis :=
  let near := dict_get "NEAR" PyFloat.zero portfolio in
  let? zec_value_near := PyFloat.mul_int (dict_get "ZEC" PyFloat.zero portfolio) 10 in
  let usdc_value_near := PyFloat.mul (dict_get "USDC" PyFloat.zero portfolio) quarter in
  let total := PyFloat.add near (PyFloat.add zec_value_near usdc_value_near) in
  let? dist :=
    if PyFloat.gtb total PyFloat.zero then distribute total portfolio [] else ok [] in
  let? ratio := _calculate_privacy_ratio portfolio in
  ok {| analysis_portfolio := portfolio;
        total_value_near := total;
        distributions := dist;
        privacy_ratio := ratio |}.

(** The privacy ratio in the specification's words: the value held in the
    privacy-capable assets of the registry over the total value of the
    portfolio, times 100, and [0] for a total of [0]. The value of an asset
    is the one the analysis gives it, at its fixed rates. *)
Definition privacy_capable_value_near (portfolio : list (string * float)) : Result float :=
  let? values :=
    rmap (fun token => value_near token (dict_get token PyFloat.zero portfolio))
         (filter (fun token => privacy_capable token = true) ASSET_SYMBOLS) in
  ok (py_sum values).

Definition privacy_ratio_by_value (a : Analysis) : Result float :=
  if PyFloat.eqb (total_value_near a) PyFloat.zero then ok PyFloat.zero
  else
    let? privacy_value := privacy_capable_value_near (analysis_portfolio a) in
    ok (PyFloat.mul (PyFloat.div privacy_value (total_value_near a)) (PyFloat.nearest 100)).

(** What the function computes: the share of the privacy-capable balances
    in the sum of all balances, whatever the tokens are worth. *)
Definition privacy_capable_balance (portfolio : list (string * float)) : float :=
  py_sum (map (fun token => dict_get token PyFloat.zero portfolio)
              (filter (fun token => privacy_capable token = true) ASSET_SYMBOLS)).

Definition total_balance (portfolio : list (string * float)) : float :=
  py_sum (map snd portfolio).

Definition balance_share (portfolio : list (string * float)) : float :=
  if PyFloat.eqb (total_balance portfolio) PyFloat.zero then PyFloat.zero
  else PyFloat.mul
         (PyFloat.div (privacy_capable_balance portfolio) (total_balance portfolio))
         (PyFloat.nearest 100).

(** ** Vocabulary of the statements *)

(** A float that is not NaN, placed in the lexicographic order of three
    integers that [SFcompare] follows: class, exponent, mantissa. *)
Definition rank (x : float) : Z * Z * Z :=
  match x with
  | S754_infinity true => (-2, 0, 0)
  | S754_finite true m e => (-1, - e, Zneg m)
  | S754_zero _ => (0, 0, 0)
  | S754_nan => (0, 0, 0)
  | S754_finite false m e => (1, e, Zpos m)
  | S754_infinity false => (2, 0, 0)
  end.

Definition lex_lt (a b : Z * Z * Z) : Prop :=
  let '(a1, a2, a3) := a in
  let '(b1, b2, b3) := b in
  a1 < b1 \/ (a1 = b1 /\ (a2 < b2 \/ (a2 = b2 /\ a3 < b3))).

(** The mantissa of 53 digits and the exponent of an integer below [2 ^ 53]. *)
Definition normal_form (p : positive) : positive * Z :=
  shl_align p 0 (Zpos (digits2_pos p) - 53).

(** The quote [x] offers the on-chain amount [n], a decimal numeral that a
    double holds exactly. *)
Definition exact_amount (x : gmap string string) (n : Z) : Prop :=
  exists s,
    x !! "amount_out" = Some s /\
    PyFloat.parse_integer s = Some (false, n) /\
    0 <= n < 2 ^ 53.

(** The quote round trip of the codec: to on-chain units and back. *)
Definition roundtrip (amount : float) (decimals : N) : Result float :=
  let? units := to_decimals amount decimals in
  from_decimals units decimals.

(** One unit of the smallest denomination of an asset, [10 ^ (- decimals)]. *)
Definition smallest_unit (decimals : N) : Q :=
  Qmake 1 (Z.to_pos (10 ^ Z.of_N decimals)).

(** The distance between two finite floats, as an exact rational. *)
Definition distance (x y : float) : Q := Qabs (PyFloat.to_Q x - PyFloat.to_Q y).

Definition is_finite (x : float) : bool :=
  match x with
  | S754_zero _ | S754_finite _ _ _ => true
  | _ => false
  end.

(** The amounts [0.01, 0.02, ...]: the double nearest to [k / 100]. *)
Definition cents (k : Z) : float := PyFloat.div (PyFloat.nearest k) (PyFloat.nearest 100).

Definition within_one_unit (decimals : N) (amount : float) : bool :=
  match roundtrip amount decimals with
  | inr back => is_finite back && Qle_bool (distance back amount) (smallest_unit decimals)
  | inl _ => false
  end.

(** One unit of the smallest denomination plus the relative error [2 ^ -52]
    that the two roundings of the round trip leave. *)
Definition within_unit_and_rounding (decimals : N) (amount : float) : bool :=
  match roundtrip amount decimals with
  | inr back =>
      is_finite back
      && Qle_bool (distance back amount)
           (smallest_unit decimals + PyFloat.to_Q amount * Qmake 1 (2 ^ 52))
  | inl _ => false
  end.

Definition all_cents (check : float -> bool) (n : nat) : bool :=
  forallb (fun k => check (cents (Z.of_nat k))) (seq 1 n).

(** The grid of the round-trip statement: 0.01 to 10.00. *)
Definition cents_grid : nat := Z.to_nat 1000.

(** The relay call of [fetch_options] fails on [request]: the post raises a
    transport error, or the response has a non-success status. *)
Definition quote_call_fails (relay : Relay) (request : IntentRequest) : Prop :=
  exists params,
    serialize request = ok params /\
    ((exists e, getQuotes relay params = PostRaises e) \/
     (exists r e, getQuotes relay params = PostReturns r /\ raise_for_status r = Some e)).

(** The relay call of [publish_shielded_intent] fails with [e]: a transport
    error, a non-success status, or a body without a result. *)
Definition publish_call_fails (relay : Relay) (signed_intent : ZcashCommitment) (e : Exn) : Prop :=
  publishIntent relay signed_intent = PostRaises e \/
  (exists r, publishIntent relay signed_intent = PostReturns r /\
             raise_for_status r = Some e) \/
  (exists r, publishIntent relay signed_intent = PostReturns r /\
             raise_for_status r = None /\ json_result r = inl e).

Definition is_getQuotes_post (ev : Event) : Prop :=
  exists params, ev = EvPost (intents_getQuotes params).

(** Calls of the two setters on one request object, in program order; a
    caller may catch a raising call and go on with the object as it is. *)
Inductive SetterCall : Type :=
| call_set_asset_in (asset_name : string) (amount : float)
| call_set_asset_out (asset_name : string) (amount : option float).

Definition is_set_asset_in (c : SetterCall) : bool :=
  match c with
  | call_set_asset_in _ _ => true
  | call_set_asset_out _ _ => false
  end.

Definition is_set_asset_out (c : SetterCall) : bool :=
  match c with
  | call_set_asset_in _ _ => false
  | call_set_asset_out _ _ => true
  end.

Definition apply_call (self : IntentRequest) (c : SetterCall) : IntentRequest :=
  match c with
  | call_set_asset_in asset_name amount => fst (set_asset_in self asset_name amount)
  | call_set_asset_out asset_name amount => fst (set_asset_out self asset_name amount)
  end.

Definition run_calls (calls : list SetterCall) (self : IntentRequest) : IntentRequest :=
  fold_left apply_call calls self.

(** ** Scenario A: 0.5 NEAR to ZEC against two quotes *)

Module ScenarioA.

Definition half : float := PyFloat.div (PyFloat.nearest 1) (PyFloat.nearest 2).

Definition quote_12 : gmap string string := {[ "amount_out" := "12000000" ]}.
Definition quote_15 : gmap string string := {[ "amount_out" := "15000000" ]}.

(** A relay that answers every quote request with the two quotes. *)
Definition answers_two_quotes (relay : Relay) : Prop :=
  forall params,
    getQuotes relay params =
      PostReturns {| raise_for_status := None; json_result := ok [quote_12; quote_15] |}.

(** The diff the specification expects. *)
Definition expected_diff : list (string * string) :=
  [("near", "-500000000000000000000000");
   ("nep141:zcash.factory.bridge.near", "15000000")].

(** Concrete collaborators, to run the scenario. *)
Definition render_diff (d : list (string * string)) : string :=
  fold_right (fun kv acc => fst kv +:+ "=" +:+ snd kv +:+ ";" +:+ acc) "" d.

Definition render_quote (q : Quote) : string :=
  nonce q +:+ "|" +:+ signer_id q +:+ "|" +:+ verifying_contract q +:+ "|"
  +:+ deadline q +:+ "|"
  +:+ fold_right (fun i acc => intent i +:+ ":" +:+ render_diff (diff i) +:+ acc) "" (intents q).

Definition lib : Libs :=
  {| json_dumps := render_quote; b58encode := fun s => s; b64encode := fun s => s |}.

Definition account : Account :=
  {| account_id := "alice.near";
     signer := {| sign := fun data => "signed:" +:+ data; signer_public_key := "key" |} |}.

Definition amb : Ambient := {| getrandbits_256 := 1; time_ms := 1700000000000 |}.

Definition relay : Relay :=
  {| getQuotes := fun _ =>
       PostReturns {| raise_for_status := None; json_result := ok [quote_12; quote_15] |};
     publishIntent := fun _ =>
       PostReturns {| raise_for_status := None; json_result := ok {[ "status" := "OK" ]} |} |}.

End ScenarioA.

(** ** Further sample data *)

Module Samples.

(** Two quotes for NEAR whose amounts differ by one yoctoNEAR. *)
Definition quote_near_1 : gmap string string :=
  {[ "amount_out" := "1000000000000000000000001" ]}.
Definition quote_near_2 : gmap string string :=
  {[ "amount_out" := "1000000000000000000000002" ]}.

(** A request dict that already holds the fields of a swap. *)
Definition prefilled : gmap string string :=
  <["amountIn" := "499999999999999991611392"]>
  (<["assetOut" := "nep141:zcash.factory.bridge.near"]>
  (<["assetIn" := "near"]> ∅)).

(** A portfolio of 10 NEAR and 1 ZEC, as [get_portfolio] lists it. *)
Definition portfolio : list (string * float) :=
  [("USDC", PyFloat.zero); ("NEAR", PyFloat.nearest 10); ("ZEC", PyFloat.nearest 1)].

(** A signed commitment, as the builder returns it. *)
Definition commitment : ZcashCommitment :=
  {| standard := "raw_ed25519";
     payload := "payload";
     signature := "ed25519:signature";
     public_key := "ed25519:key";
     shield_params := None |}.

(** A relay without liquidity, and one that is down. *)
Definition dry_relay : Relay :=
  {| getQuotes := fun _ => PostReturns {| raise_for_status := None; json_result := ok [] |};
     publishIntent := fun _ =>
       PostReturns {| raise_for_status := None; json_result := ok {[ "status" := "OK" ]} |} |}.

Definition down_relay : Relay :=
  {| getQuotes := fun _ => PostRaises (RequestException "ConnectionError");
     publishIntent := fun _ => PostRaises (RequestException "ConnectionError") |}.

End Samples.

(** ** Registry order *)

(** [ASSET_MAP.keys()], in the order of the dict display. *)
Definition ASSET_KEYS : list string := ["USDC"; "NEAR"; "ZEC"].

(** [repr] of a list of strings that hold no quote and no escape, as an
    f-string prints [list(ASSET_MAP.keys())]. *)
Definition repr_list (l : list string) : string :=
  "[" +:+ String.concat ", " (map (fun s => "'" +:+ s +:+ "'") l) +:+ "]".

(** ** Runs of a swap *)

(** The commitment that [create_shielded_token_diff_quote] returns for the
    quote [q]. *)
Definition commitment_of (lib : Libs) (account : Account) (q : Quote)
  (shield_options : ShieldingOptions) : ZcashCommitment :=
  {| standard := "raw_ed25519";
     payload := json_dumps lib q;
     signature := "ed25519:" +:+ b58encode lib (sign (signer account) (json_dumps lib q));
     public_key := "ed25519:" +:+ b58encode lib (signer_public_key (signer account));
     shield_params :=
       if enabled shield_options
       then Some {| sp_shielded := true;
                    sp_memo := memo shield_options;
                    sp_viewing_key := viewing_key shield_options |}
       else None |}.

(** The shielding options that [intent_swap_zec] derives from the privacy
    level. *)
Definition swap_shield_options (privacy_level token_in token_out : string)
  : ShieldingOptions :=
  if String.eqb privacy_level "shielded"
     && (String.eqb token_in "ZEC" || String.eqb token_out "ZEC")
  then {| enabled := true;
          memo := Some ("Swap " +:+ token_in +:+ " to " +:+ token_out);
          viewing_key := None |}
  else {| enabled := false; memo := None; viewing_key := None |}.

(** The shield parameters of a swap at the level [level], one of whose
    symbols is ZEC. *)
Definition shield_params_at (level token_in token_out : string) : option ShieldParams :=
  if String.eqb level "shielded"
  then Some {| sp_shielded := true;
               sp_memo := Some ("Swap " +:+ token_in +:+ " to " +:+ token_out);
               sp_viewing_key := None |}
  else None.

(** How a run of [intent_swap_zec] ends, and what it has done by then. *)
Inductive SwapRun (lib : Libs) (relay : Relay) (amb : Ambient) (account : Account)
  (token_in : string) (amount_in : float) (token_out privacy_level : string)
  : Result (gmap string string) -> list Event -> Prop :=
| run_bad_request (e : Exn) :
    build_request token_in amount_in token_out = raise e ->
    SwapRun lib relay amb account token_in amount_in token_out privacy_level (raise e) []
| run_no_options (request : IntentRequest) (params : SerializedRequest) :
    build_request token_in amount_in token_out = ok request ->
    serialize request = ok params ->
    fst (fetch_options relay request []) = ok [] ->
    SwapRun lib relay amb account token_in amount_in token_out privacy_level
      (raise (no_swap_options token_in token_out)) [EvPost (intents_getQuotes params)]
| run_bad_quotes (request : IntentRequest) (params : SerializedRequest)
    (options : list (gmap string string)) (e : Exn) :
    build_request token_in amount_in token_out = ok request ->
    serialize request = ok params ->
    fst (fetch_options relay request []) = ok options ->
    options <> [] ->
    select_best_option options = raise e ->
    SwapRun lib relay amb account token_in amount_in token_out privacy_level
      (raise e) [EvPost (intents_getQuotes params)]
| run_bad_amount (request : IntentRequest) (params : SerializedRequest)
    (options : list (gmap string string)) (best : gmap string string)
    (amount_out : float) (e : Exn) :
    build_request token_in amount_in token_out = ok request ->
    serialize request = ok params ->
    fst (fetch_options relay request []) = ok options ->
    select_best_option options = ok best ->
    amount_out_key best = ok amount_out ->
    token_diff_quote lib amb account token_in amount_in token_out amount_out = raise e ->
    SwapRun lib relay amb account token_in amount_in token_out privacy_level
      (raise e) [EvPost (intents_getQuotes params)]
| run_published (request : IntentRequest) (params : SerializedRequest)
    (options : list (gmap string string)) (best : gmap string string)
    (amount_out : float) (q : Quote) (c : ZcashCommitment)
    (outcome : Result (gmap string string)) :
    build_request token_in amount_in token_out = ok request ->
    serialize request = ok params ->
    fst (fetch_options relay request []) = ok options ->
    select_best_option options = ok best ->
    amount_out_key best = ok amount_out ->
    token_diff_quote lib amb account token_in amount_in token_out amount_out = ok q ->
    c = commitment_of lib account q (swap_shield_options privacy_level token_in token_out) ->
    outcome = match publishIntent relay c with
              | PostRaises e => raise e
              | PostReturns r =>
                  match raise_for_status r with
                  | Some e => raise e
                  | None => json_result r
                  end
              end ->
    SwapRun lib relay amb account token_in amount_in token_out privacy_level
      outcome
      [EvPost (intents_getQuotes params); EvSign (payload c);
       EvPost (intents_publishIntent c)].

(** ** Shares of a portfolio *)

(** The share in percent that [analyze_portfolio] gives a balance. *)
Definition percent_of (total_value_near : float) (token : string) (balance : float)
  : Result float :=
  let? value := value_near token balance in
  let? share := PyFloat.truediv value total_value_near in
  PyFloat.mul_int share 100.

(** ** The agent

    [ZcashAgent] of [zec_agent.py]: its balances, its portfolio, its
    privacy preferences and its two swaps. *)

Module ZcashAgent.

(** The values of the preference dict. *)
Inductive PyVal : Type :=
| PyStr (s : string)
| PyBool (b : bool)
| PyDict (d : gmap string string).

(** The account of the agent: the signing account that the swap functions
    take, and the two queries the agent makes of it. A query raises, or
    returns nothing, or returns a dict of strings. *)
Record NearAccount : Type := {
  signing : Account;
  state : Result (option (gmap string string));
  view_function :
    string -> string -> gmap string string -> Result (option (gmap string string))
}.

Record t : Type := {
  account : NearAccount;
  portfolio : list (string * float);
  privacy_preferences : gmap string PyVal
}.

Definition with_portfolio (self : t) (p : list (string * float)) : t :=
  {| account := account self; portfolio := p;
     privacy_preferences := privacy_preferences self |}.

Definition with_preferences (self : t) (prefs : gmap string PyVal) : t :=
  {| account := account self; portfolio := portfolio self; privacy_preferences := prefs |}.

(** The preferences that [__init__] sets. *)
Definition initial_preferences : gmap string PyVal :=
  <["default_level" := PyStr "shielded"]>
  (<["auto_shield" := PyBool true]>
  (<["memos_enabled" := PyBool true]>
  (<["viewing_keys" := PyDict ∅]> ∅))).

(** The attributes as [__init__] leaves them, once the account is loaded,
    validated and registered. *)
Definition init (account : NearAccount) : t :=
  {| account := account; portfolio := []; privacy_preferences := initial_preferences |}.

(** What the [try] block of [get_balance] can raise: an exception of the
    embedding, or the [TypeError] of [None['amount']]. *)
Inductive Caught : Type :=
| Std (e : Exn)
| TypeError (msg : string).

Definition caught {A : Type} (r : Result A) : Caught + A :=
  match r with
  | inl e => inl (Std e)
  | inr a => inr a
  end.

Definition unsupported_token (token : string) : Exn :=
  ValueError ("Unsupported token: " +:+ token +:+ ". Supported tokens: "
              +:+ repr_list ASSET_KEYS).

(** The body of the [try] block of [get_balance]. *)
Definition balance_query (self : t) (token : string) : Caught + float :=
  if String.eqb token "NEAR" then
    match state (account self) with
    | inl e => inl (Std e)
    | inr None => inl (TypeError "'NoneType' object is not subscriptable")
    | inr (Some account_state) =>
        caught (let? amount := getitem account_state "amount" in
                let? x := PyFloat.of_str amount in
                PyFloat.truediv_int x (10 ^ 24))
    end
  else
    match getitem ASSET_MAP token with
    | inl e => inl (Std e)
    | inr a =>
        match view_function (account self) (token_id a) "ft_balance_of"
                {[ "account_id" := account_id (signing (account self)) ]} with
        | inl e => inl (Std e)
        | inr balance_raw =>
            match balance_raw ≫= (fun d => d !! "result") with
            | None => inr PyFloat.zero
            | Some result =>
                if String.eqb result "" then inr PyFloat.zero
                else caught (from_decimals result (decimals a))
            end
        end
    end.

Definition get_balance (self : t) (token : string) : Result float :=
  match ASSET_MAP !! token with
  | None => raise (unsupported_token token)
  | Some _ =>
      match balance_query self token with
      | inl _ => ok PyFloat.zero
      | inr balance => ok balance
      end
  end.

(** The loop of [get_portfolio], over the symbols in [keys]. *)
Definition collect_balances (self : t) (keys : list string) : list (string * float) :=
  fold_left
    (fun portfolio token =>
       dict_set token
         match get_balance self token with
         | inl _ => PyFloat.zero
         | inr balance => balance
         end
         portfolio)
    keys [].

Definition get_portfolio (self : t) : t * list (string * float) :=
  let portfolio := collect_balances self ASSET_KEYS in
  (with_portfolio self portfolio, portfolio).

(** The valid keys of [set_privacy_preferences], a Python set: the loop
    over it may run in any order. *)
Definition valid_keys : list string :=
  ["default_level"; "auto_shield"; "memos_enabled"; "viewing_keys"].

(** The update loop of [set_privacy_preferences], over [keys]. *)
Definition update_preferences (keys : list string) (preferences prefs : gmap string PyVal)
  : gmap string PyVal :=
  fold_left
    (fun prefs key =>
       match preferences !! key with
       | Some v => <[key := v]> prefs
       | None => prefs
       end)
    keys prefs.

Definition set_privacy_preferences (self : t) (preferences : gmap string PyVal) : t :=
  with_preferences self (update_preferences valid_keys preferences (privacy_preferences self)).

(** [analyze_portfolio]: the analysis of the portfolio that [get_portfolio]
    returns. *)
Definition analyze_portfolio (self : t) : t * Result Analysis :=
  let '(self', portfolio) := get_portfolio self in
  (self', analyze_portfolio portfolio).

(** A privacy level as [intent_swap_zec] reads it. The function compares
    the level with ['shielded'] and does nothing else with it; a value
    that is not a string equals no string, like the empty text. *)
Definition level_text (v : PyVal) : string :=
  match v with
  | PyStr s => s
  | _ => ""
  end.

Definition unsupported_input_token (token_in : string) : Exn :=
  ValueError ("Unsupported input token: " +:+ token_in +:+ ". Supported tokens: "
              +:+ repr_list ASSET_KEYS).

Definition unsupported_output_token (token_out : string) : Exn :=
  ValueError ("Unsupported output token: " +:+ token_out +:+ ". Supported tokens: "
              +:+ repr_list ASSET_KEYS).

Definition bad_swap_amount : Exn := ValueError "Swap amount must be greater than 0".

(** [privacy_level], or the default level of the preferences. *)
Definition effective_level (self : t) (privacy_level : option string) : Result string :=
  match privacy_level with
  | Some level => ok level
  | None => let? v := getitem (privacy_preferences self) "default_level" in ok (level_text v)
  end.

Definition swap_to_zec (lib : Libs) (relay : Relay) (amb : Ambient) (self : t)
  (token_in : string) (amount_in : float) (privacy_level : option string)
  : M (gmap string string) :=
  if PyFloat.leb amount_in PyFloat.zero then mraise bad_swap_amount
  else
    match ASSET_MAP !! token_in with
    | None => mraise (unsupported_input_token token_in)
    | Some _ =>
        let* privacy_level := lift (effective_level self privacy_level) in
        try_except
          (intent_swap_zec lib relay amb (signing (account self)) token_in amount_in
             "ZEC" privacy_level)
          (fun e => mraise e)
    end.

Definition swap_from_zec (lib : Libs) (relay : Relay) (amb : Ambient) (self : t)
  (token_out : string) (amount_in : float) (privacy_level : option string)
  : M (gmap string string) :=
  if PyFloat.leb amount_in PyFloat.zero then mraise bad_swap_amount
  else
    match ASSET_MAP !! token_out with
    | None => mraise (unsupported_output_token token_out)
    | Some _ =>
        let* privacy_level := lift (effective_level self privacy_level) in
        try_except
          (intent_swap_zec lib relay amb (signing (account self)) "ZEC" amount_in
             token_out privacy_level)
          (fun e => mraise e)
    end.

End ZcashAgent.

(** Calls that change the agent, in program order. *)
Inductive AgentCall : Type :=
| call_set_privacy_preferences (preferences : gmap string ZcashAgent.PyVal)
| call_get_portfolio
| call_analyze_portfolio.

Definition apply_agent_call (self : ZcashAgent.t) (c : AgentCall) : ZcashAgent.t :=
  match c with
  | call_set_privacy_preferences preferences =>
      ZcashAgent.set_privacy_preferences self preferences
  | call_get_portfolio => fst (ZcashAgent.get_portfolio self)
  | call_analyze_portfolio => fst (ZcashAgent.analyze_portfolio self)
  end.

Definition run_agent_calls (calls : list AgentCall) (self : ZcashAgent.t) : ZcashAgent.t :=
  fold_left apply_agent_call calls self.

(** Sample data of the agent. *)
Module AgentSamples.

(** An account whose queries all fail. *)
Definition offline : ZcashAgent.NearAccount :=
  {| ZcashAgent.signing := ScenarioA.account;
     ZcashAgent.state := raise (RequestException "ConnectionError");
     ZcashAgent.view_function := fun _ _ _ => raise (RequestException "ConnectionError") |}.

(** An account with 2 NEAR, 3 ZEC and no USDC. *)
Definition funded : ZcashAgent.NearAccount :=
  {| ZcashAgent.signing := ScenarioA.account;
     ZcashAgent.state := ok (Some {[ "amount" := "2000000000000000000000000" ]});
     ZcashAgent.view_function := fun token_id _ _ =>
       if String.eqb token_id "zcash.factory.bridge.near"
       then ok (Some {[ "result" := "300000000" ]})
       else ok (Some ∅) |}.

End AgentSamples.

(** * Properties *)

Lemma ok_inj {A : Type} (a b : A) : ok a = ok b -> a = b.
Proof. intros H. injection H. auto. Qed.

(** ** Rounding keeps the sign and never yields NaN *)

Section Rounding.

Lemma shr_1_nonneg (mrs : shr_record) : 0 <= shr_m mrs -> 0 <= shr_m (shr_1 mrs).
Proof.
  destruct mrs as [m r s]; simpl.
  destruct m as [|p|p]; [easy| |lia].
  destruct p; simpl; lia.
Qed.

Lemma iter_shr_1_nonneg (p : positive) (mrs : shr_record) :
  0 <= shr_m mrs -> 0 <= shr_m (SpecFloat.iter_pos shr_1 p mrs).
Proof.
  revert mrs; induction p as [p IH|p IH|]; intros mrs H; simpl.
  - apply IH, IH, shr_1_nonneg, H.
  - apply IH, IH, H.
  - apply shr_1_nonneg, H.
Qed.

Lemma shr_fexp_nonneg (m e : Z) (l : location) :
  0 <= m -> 0 <= shr_m (fst (shr_fexp PyFloat.prec PyFloat.emax m e l)).
Proof.
  intros H. unfold shr_fexp, shr.
  assert (H0 : 0 <= shr_m (shr_record_of_loc m l)).
  { destruct l as [|[]]; exact H. }
  destruct (fexp _ _ _ - e) as [|p|p]; simpl; auto using iter_shr_1_nonneg.
Qed.

Lemma round_nearest_even_nonneg (m : Z) (l : location) :
  0 <= m -> 0 <= round_nearest_even m l.
Proof.
  intros H. destruct l as [|[]]; simpl; try lia.
  destruct (Z.even m); lia.
Qed.

(** A rounded non-negative mantissa is a zero, a finite float or an
    infinity of the requested sign. *)
Lemma binary_round_aux_sign (sx : bool) (mx ex : Z) (lx : location) :
  0 <= mx ->
  match binary_round_aux PyFloat.prec PyFloat.emax sx mx ex lx with
  | S754_zero s | S754_infinity s | S754_finite s _ _ => s = sx
  | S754_nan => False
  end.
Proof.
  intros H. unfold binary_round_aux.
  pose proof (shr_fexp_nonneg mx ex lx H) as H1.
  destruct (shr_fexp _ _ mx ex lx) as [mrs' e'] eqn:E1. simpl in H1.
  pose proof (shr_fexp_nonneg _ e' loc_Exact
                (round_nearest_even_nonneg _ (loc_of_shr_record mrs') H1)) as H2.
  destruct (shr_fexp _ _ (round_nearest_even _ _) e' loc_Exact) as [mrs'' e''].
  simpl in H2.
  destruct (shr_m mrs'') as [|m|m]; [reflexivity| |lia].
  destruct (e'' <=? _); reflexivity.
Qed.

Lemma binary_normalize_not_nan (n e : Z) (sz : bool) :
  PyFloat.is_nan (binary_normalize PyFloat.prec PyFloat.emax n e sz) = false.
Proof.
  destruct n as [|p|p]; simpl; [reflexivity| |].
  - unfold binary_round. destruct (shl_align _ _ _) as [mz ez].
    pose proof (binary_round_aux_sign false (Zpos mz) ez loc_Exact ltac:(lia)) as H.
    destruct (binary_round_aux _ _ _ _ _ _); easy.
  - unfold binary_round. destruct (shl_align _ _ _) as [mz ez].
    pose proof (binary_round_aux_sign true (Zpos mz) ez loc_Exact ltac:(lia)) as H.
    destruct (binary_round_aux _ _ _ _ _ _); easy.
Qed.

Lemma add_nonneg (x y : float) :
  PyFloat.nonneg x = true -> PyFloat.nonneg y = true ->
  PyFloat.nonneg (PyFloat.add x y) = true.
Proof.
  destruct x as [[]|[]| |[] mx ex]; simpl; try discriminate;
    destruct y as [[]|[]| |[] my ey]; simpl; try discriminate; try reflexivity.
  intros _ _. unfold PyFloat.add, SFadd, cond_Zopp.
  set (ez := Z.min ex ey).
  destruct (shl_align mx ex ez) as [ax ex'], (shl_align my ey ez) as [ay ey']; simpl.
  unfold binary_round. destruct (shl_align _ _ _) as [mz ez'].
  pose proof (binary_round_aux_sign false (Zpos mz) ez' loc_Exact ltac:(lia)) as H.
  destruct (binary_round_aux _ _ _ _ _ _) as [s|s| |s m e]; simpl; subst; easy.
Qed.

End Rounding.

(** ** Comparison is a total preorder away from NaN *)

Section FloatOrder.

Lemma ltb_rank (x y : float) :
  PyFloat.is_nan x = false -> PyFloat.is_nan y = false ->
  (SFltb x y = true <-> lex_lt (rank x) (rank y)).
Proof.
  intros Hx Hy. unfold SFltb.
  destruct x as [sx|[]| |[] mx ex]; try discriminate;
    destruct y as [sy|[]| |[] my ey]; try discriminate; simpl;
    try (split; [discriminate | lia]); try (split; [lia | reflexivity]).
  - destruct (Z.compare_spec ex ey) as [E|E|E]; simpl.
    + rewrite Pos.compare_cont_spec; simpl.
      destruct (Pos.compare_spec mx my); simpl; split; try discriminate; lia.
    + split; [discriminate | lia].
    + split; [lia | reflexivity].
  - destruct (Z.compare_spec ex ey) as [E|E|E]; simpl.
    + rewrite Pos.compare_cont_spec; simpl.
      destruct (Pos.compare_spec mx my); simpl; split; try discriminate; lia.
    + split; [lia | reflexivity].
    + split; [discriminate | lia].
Qed.

Lemma gtb_irrefl (x : float) : PyFloat.gtb x x = false.
Proof.
  destruct (PyFloat.is_nan x) eqn:Hx.
  - destruct x; try discriminate. reflexivity.
  - destruct (PyFloat.gtb x x) eqn:E; [|reflexivity].
    apply (ltb_rank x x Hx Hx) in E. destruct (rank x) as [[a b] c].
    simpl in E. lia.
Qed.

(** [a <= b < c] gives [a < c]. *)
Lemma gtb_le_lt (a b c : float) :
  PyFloat.is_nan a = false -> PyFloat.is_nan b = false -> PyFloat.is_nan c = false ->
  PyFloat.gtb a b = false -> PyFloat.gtb c b = true -> PyFloat.gtb c a = true.
Proof.
  unfold PyFloat.gtb. intros Ha Hb Hc Hab Hbc.
  apply (ltb_rank b c Hb Hc) in Hbc. apply (ltb_rank a c Ha Hc).
  assert (Hn : ~ lex_lt (rank b) (rank a)).
  { intros H. apply (ltb_rank b a Hb Ha) in H. congruence. }
  destruct (rank a) as [[a1 a2] a3], (rank b) as [[b1 b2] b3], (rank c) as [[c1 c2] c3].
  simpl in *. lia.
Qed.

Lemma gtb_asym (a b : float) :
  PyFloat.gtb a b = true -> PyFloat.gtb b a = false.
Proof.
  unfold PyFloat.gtb. intros H.
  destruct (PyFloat.is_nan a) eqn:Ha; [destruct a; try discriminate; destruct b; reflexivity|].
  destruct (PyFloat.is_nan b) eqn:Hb; [destruct b; try discriminate; destruct a; discriminate|].
  destruct (SFltb a b) eqn:E; [|reflexivity].
  apply (ltb_rank b a Hb Ha) in H. apply (ltb_rank a b Ha Hb) in E.
  destruct (rank a) as [[a1 a2] a3], (rank b) as [[b1 b2] b3]. simpl in *. lia.
Qed.

(** Away from NaN, [not (x > y)] is [x <= y]. *)
Lemma not_gtb_leb (x y : float) :
  PyFloat.is_nan x = false -> PyFloat.is_nan y = false ->
  PyFloat.gtb x y = false -> PyFloat.leb x y = true.
Proof.
  unfold PyFloat.gtb, PyFloat.leb, SFltb, SFleb. intros Hx Hy.
  destruct x as [sx|[]| |[] mx ex]; try discriminate;
    destruct y as [sy|[]| |[] my ey]; try discriminate; simpl; try easy.
  - rewrite (Z.compare_antisym ex ey). 
    destruct (ex ?= ey) eqn:E; simpl; try easy.
    rewrite !Pos.compare_cont_spec; simpl. rewrite (Pos.compare_antisym mx my).
    destruct (mx ?= my)%positive; simpl; easy.
  - rewrite (Z.compare_antisym ex ey). 
    destruct (ex ?= ey) eqn:E; simpl; try easy.
    rewrite !Pos.compare_cont_spec; simpl. rewrite (Pos.compare_antisym mx my).
    destruct (mx ?= my)%positive; simpl; easy.
Qed.

Lemma leb_not_gtb (x y : float) :
  PyFloat.leb x y = true -> PyFloat.gtb x y = false.
Proof.
  unfold PyFloat.gtb, PyFloat.leb, SFltb, SFleb.
  destruct x as [sx|[]| |[] mx ex]; destruct y as [sy|[]| |[] my ey]; simpl; try easy.
  - rewrite (Z.compare_antisym ex ey).
    destruct (ex ?= ey) eqn:E; simpl; try easy.
    rewrite !Pos.compare_cont_spec; simpl. rewrite (Pos.compare_antisym mx my).
    destruct (mx ?= my)%positive; simpl; easy.
  - rewrite (Z.compare_antisym ex ey).
    destruct (ex ?= ey) eqn:E; simpl; try easy.
    rewrite !Pos.compare_cont_spec; simpl. rewrite (Pos.compare_antisym mx my).
    destruct (mx ?= my)%positive; simpl; easy.
Qed.

End FloatOrder.

(** ** Integers below [2 ^ 53] are doubles *)

Section ExactKeys.

Lemma digits2_pos_size (p : positive) : digits2_pos p = Pos.size p.
Proof. induction p; simpl; congruence. Qed.

Lemma digits2_pos_bounds (p : positive) :
  2 ^ (Zpos (digits2_pos p) - 1) <= Zpos p < 2 ^ Zpos (digits2_pos p).
Proof.
  rewrite digits2_pos_size.
  pose proof (Pos.size_le p) as Hle. pose proof (Pos.size_gt p) as Hgt.
  apply Pos2Z.pos_le_pos in Hle. apply Pos2Z.pos_lt_pos in Hgt.
  rewrite Pos2Z.inj_pow in Hle, Hgt. change (Zpos p~0) with (2 * Zpos p) in Hle.
  assert (E : 2 ^ Zpos (Pos.size p) = 2 * 2 ^ (Zpos (Pos.size p) - 1)).
  { rewrite <- Z.pow_succ_r by lia. f_equal. lia. }
  lia.
Qed.

Lemma iter_xO_value (k m : positive) : Zpos (Pos.iter xO m k) = Zpos m * 2 ^ Zpos k.
Proof.
  induction k as [|k IH] using Pos.peano_ind.
  - simpl. lia.
  - rewrite Pos.iter_succ, Pos2Z.inj_xO, IH, Pos2Z.inj_succ, Z.pow_succ_r by lia. lia.
Qed.

Lemma iter_xO_digits (k m : positive) :
  digits2_pos (Pos.iter xO m k) = (digits2_pos m + k)%positive.
Proof.
  induction k as [|k IH] using Pos.peano_ind.
  - simpl. lia.
  - rewrite Pos.iter_succ. simpl. rewrite IH. lia.
Qed.


Lemma shr_fexp_canonical (mz : positive) (ez : Z) :
  digits2_pos mz = 53%positive -> -1074 <= ez ->
  shr_fexp PyFloat.prec PyFloat.emax (Zpos mz) ez loc_Exact =
    ({| shr_m := Zpos mz; shr_r := false; shr_s := false |}, ez).
Proof.
  intros Hd He.
  unfold shr_fexp, shr_record_of_loc, Zdigits2, fexp, emin, PyFloat.prec, PyFloat.emax.
  rewrite Hd.
  replace (Z.max (53 + ez - 53) (3 - 1024 - 53) - ez) with 0 by lia.
  reflexivity.
Qed.

(** A mantissa of 53 digits with an exponent in range is its own rounding. *)
Lemma binary_round_aux_canonical (mz : positive) (ez : Z) :
  digits2_pos mz = 53%positive -> -1074 <= ez <= 971 ->
  binary_round_aux PyFloat.prec PyFloat.emax false (Zpos mz) ez loc_Exact =
    S754_finite false mz ez.
Proof.
  intros Hd He. unfold binary_round_aux.
  rewrite (shr_fexp_canonical mz ez Hd) by lia.
  cbn [shr_m loc_of_shr_record round_nearest_even].
  rewrite (shr_fexp_canonical mz ez Hd) by lia.
  cbn [shr_m]. unfold PyFloat.prec, PyFloat.emax.
  destruct (Z.leb_spec ez (1024 - 53)); [reflexivity | lia].
Qed.

Lemma normal_form_spec (p : positive) :
  Zpos (digits2_pos p) <= 53 ->
  let '(mz, ez) := normal_form p in
  digits2_pos mz = 53%positive /\ ez = Zpos (digits2_pos p) - 53 /\
  Zpos mz = Zpos p * 2 ^ (53 - Zpos (digits2_pos p)).
Proof.
  intros Hd. unfold normal_form, shl_align.
  destruct (Zpos (digits2_pos p) - 53 - 0) as [|k|k] eqn:E.
  - assert (Hd53 : digits2_pos p = 53%positive) by lia.
    rewrite Hd53. repeat split. simpl. lia.
  - lia.
  - assert (Hk : (digits2_pos p + k = 53)%positive) by lia.
    repeat split.
    + rewrite iter_xO_digits. exact Hk.
    + rewrite iter_xO_value. f_equal. f_equal. lia.
Qed.

(** Below [2 ^ 53] the conversion to a double is exact. *)
Lemma nearest_small (p : positive) :
  Zpos (digits2_pos p) <= 53 ->
  PyFloat.nearest (Zpos p) =
    S754_finite false (fst (normal_form p)) (snd (normal_form p)).
Proof.
  intros Hd. pose proof (normal_form_spec p Hd) as H.
  unfold PyFloat.nearest, binary_normalize, binary_round.
  replace (fexp PyFloat.prec PyFloat.emax (Zpos (digits2_pos p) + 0))
    with (Zpos (digits2_pos p) - 53)
    by (unfold fexp, emin, PyFloat.prec, PyFloat.emax; lia).
  fold (normal_form p). destruct (normal_form p) as [mz ez].
  destruct H as (H1 & H2 & H3). cbn [fst snd].
  apply binary_round_aux_canonical; [exact H1 | lia].
Qed.


Lemma small_digits (p : positive) : Zpos p < 2 ^ 53 -> Zpos (digits2_pos p) <= 53.
Proof.
  intros H. pose proof (digits2_pos_bounds p) as [Hlo _].
  assert (Hlt : 2 ^ (Zpos (digits2_pos p) - 1) < 2 ^ 53) by lia.
  apply Z.pow_lt_mono_r_iff in Hlt; lia.
Qed.

Lemma rank_nearest_small (p : positive) :
  Zpos p < 2 ^ 53 ->
  rank (PyFloat.nearest (Zpos p)) =
    (1, Zpos (digits2_pos p) - 53, Zpos p * 2 ^ (53 - Zpos (digits2_pos p))).
Proof.
  intros H. pose proof (small_digits p H) as Hd.
  rewrite (nearest_small p Hd). pose proof (normal_form_spec p Hd) as Hn.
  destruct (normal_form p) as [mz ez]. destruct Hn as (_ & -> & E).
  cbn [fst snd rank]. now rewrite E.
Qed.

(** Below [2 ^ 53] the doubles of two integers compare as the integers. *)
Lemma nearest_gtb_small (a b : Z) :
  0 <= a < 2 ^ 53 -> 0 <= b < 2 ^ 53 ->
  (PyFloat.gtb (PyFloat.nearest b) (PyFloat.nearest a) = true <-> a < b).
Proof.
  intros Ha Hb. unfold PyFloat.gtb.
  rewrite ltb_rank by apply binary_normalize_not_nan.
  destruct a as [|pa|pa]; [| |lia]; (destruct b as [|pb|pb]; [| |lia]).
  - cbn. lia.
  - rewrite (rank_nearest_small pb) by lia. cbn. lia.
  - rewrite (rank_nearest_small pa) by lia. cbn. lia.
  - rewrite (rank_nearest_small pa), (rank_nearest_small pb) by lia.
    pose proof (digits2_pos_bounds pa) as [La Ua].
    pose proof (digits2_pos_bounds pb) as [Lb Ub].
    pose proof (small_digits pa ltac:(lia)) as Da.
    pose proof (small_digits pb ltac:(lia)) as Db.
    set (da := Zpos (digits2_pos pa)) in *. set (db := Zpos (digits2_pos pb)) in *.
    unfold lex_lt.
    destruct (Z.lt_trichotomy da db) as [Hlt|[Heq|Hgt]].
    + assert (2 ^ da <= 2 ^ (db - 1)) by (apply Z.pow_le_mono_r; lia). split; lia.
    + rewrite Heq in *.
      assert (0 < 2 ^ (53 - db)) by (apply Z.pow_pos_nonneg; lia).
      split; [intros [?|[_ [?|[_ ?]]]]; try lia; nia | intros; right; split; [reflexivity|]].
      right. split; [reflexivity|nia].
    + assert (2 ^ db <= 2 ^ (da - 1)) by (apply Z.pow_le_mono_r; lia). split; lia.
Qed.

End ExactKeys.

(** ** Quote selector *)

Section Selector.

Implicit Types (x y item : gmap string string) (options pre post : list (gmap string string)).

Lemma of_str_not_nan (s : string) (k : float) :
  PyFloat.of_str s = ok k -> PyFloat.is_nan k = false.
Proof.
  unfold PyFloat.of_str. destruct (PyFloat.parse_integer s) as [[sg n]|]; [|discriminate].
  intros [= <-]. apply binary_normalize_not_nan.
Qed.

Lemma amount_out_key_not_nan x (k : float) :
  amount_out_key x = ok k -> PyFloat.is_nan k = false.
Proof.
  unfold amount_out_key, getitem. destruct (x !! "amount_out") as [s|]; [|discriminate].
  apply of_str_not_nan.
Qed.

(** The loop keeps the first item among those of greatest key: whatever
    stands before the result is strictly smaller, whatever stands after is
    not greater. *)
Lemma max_loop_first_maximal (rest : list (gmap string string)) :
  forall pre maxitem (maxval : float) mid,
    amount_out_key maxitem = ok maxval ->
    (forall y k, y ∈ pre -> amount_out_key y = ok k -> PyFloat.gtb maxval k = true) ->
    (forall y k, y ∈ mid -> amount_out_key y = ok k -> PyFloat.gtb k maxval = false) ->
    (forall y, y ∈ rest -> exists k, amount_out_key y = ok k) ->
    exists pre' best (kb : float) post',
      max_loop maxitem maxval rest = ok best /\
      amount_out_key best = ok kb /\
      (pre ++ maxitem :: mid ++ rest = pre' ++ best :: post')%list /\
      (forall y k, y ∈ pre' -> amount_out_key y = ok k -> PyFloat.gtb kb k = true) /\
      (forall y k, y ∈ post' -> amount_out_key y = ok k -> PyFloat.gtb k kb = false).
Proof.
  induction rest as [|item rest IH]; intros pre maxitem maxval mid Hmax Hpre Hmid Hrest.
  - exists pre, maxitem, maxval, mid. simpl. rewrite app_nil_r. auto.
  - destruct (Hrest item) as [val Hval]; [left|].
    assert (Hrest' : forall y, y ∈ rest -> exists k, amount_out_key y = ok k).
    { intros y Hy. apply Hrest. now right. }
    pose proof (amount_out_key_not_nan _ _ Hmax) as Nmax.
    pose proof (amount_out_key_not_nan _ _ Hval) as Nval.
    simpl. rewrite Hval. simpl.
    destruct (PyFloat.gtb val maxval) eqn:Hgt.
    + destruct (IH (pre ++ maxitem :: mid)%list item val [] Hval) as
        (pre' & best & kb & post' & R & K & E & P1 & P2); auto.
      * intros y k Hy Hk. pose proof (amount_out_key_not_nan _ _ Hk) as Nk.
        apply (gtb_le_lt k maxval val Nk Nmax Nval); [|exact Hgt].
        apply elem_of_app in Hy as [Hy|Hy].
        -- apply gtb_asym. eapply Hpre; eauto.
        -- apply elem_of_cons in Hy as [->|Hy].
           ++ rewrite Hk in Hmax. injection Hmax as ->. apply gtb_irrefl.
           ++ eapply Hmid; eauto.
      * intros y k Hy. now apply elem_of_nil in Hy.
      * exists pre', best, kb, post'. repeat split; auto.
        rewrite <- E. simpl. now rewrite <- app_assoc.
    + destruct (IH pre maxitem maxval (mid ++ [item])%list Hmax) as
        (pre' & best & kb & post' & R & K & E & P1 & P2); auto.
      * intros y k Hy Hk. apply elem_of_app in Hy as [Hy|Hy]; [eapply Hmid; eauto|].
        apply list_elem_of_singleton in Hy as ->.
        rewrite Hk in Hval. injection Hval as ->. exact Hgt.
      * exists pre', best, kb, post'. repeat split; auto.
        rewrite <- E. now rewrite <- app_assoc.
Qed.

End Selector.

Lemma exact_amount_key (x : gmap string string) (n : Z) :
  exact_amount x n -> amount_out_key x = ok (PyFloat.nearest n).
Proof.
  intros (s & Hs & Hp & _). unfold amount_out_key, getitem, PyFloat.of_str.
  rewrite Hs. cbn [rbind ok]. rewrite Hp. reflexivity.
Qed.

(** On a non-empty list of quotes with numeric amounts the selector returns
    the first quote of greatest [float(amount_out)]. *)
Lemma select_best_option_float_maximal (options : list (gmap string string)) :
  options <> [] ->
  (forall x, x ∈ options -> exists k, amount_out_key x = ok k) ->
  exists pre best (kb : float) post,
    select_best_option options = ok best /\
    options = (pre ++ best :: post)%list /\
    amount_out_key best = ok kb /\
    (forall y (k : float), y ∈ options -> amount_out_key y = ok k -> PyFloat.leb k kb = true) /\
    (forall y (k : float), y ∈ pre -> amount_out_key y = ok k -> PyFloat.gtb kb k = true).
Proof.
  destruct options as [|first rest]; intros Hne Hall; [congruence|].
  destruct (Hall first) as [k0 Hk0]; [left|].
  destruct (max_loop_first_maximal rest [] first k0 [] Hk0) as
    (pre & best & kb & post & R & K & E & P1 & P2).
  - intros y k Hy. now apply elem_of_nil in Hy.
  - intros y k Hy. now apply elem_of_nil in Hy.
  - intros y Hy. apply Hall. now right.
  - exists pre, best, kb, post. simpl in E. simpl. rewrite Hk0. simpl.
    repeat split; auto.
    intros y k Hy Hk. rewrite E in Hy.
    pose proof (amount_out_key_not_nan _ _ Hk) as Nk.
    pose proof (amount_out_key_not_nan _ _ K) as Nb.
    apply not_gtb_leb; auto.
    apply elem_of_app in Hy as [Hy|Hy].
    + apply gtb_asym. eapply P1; eauto.
    + apply elem_of_cons in Hy as [->|Hy].
      * rewrite Hk in K. injection K as ->. apply gtb_irrefl.
      * eapply P2; eauto.
Qed.

(** C3, as the code has it. [select_best_option] fails on the empty list
    with the "No options provided" error. On a non-empty list of quotes
    whose [amount_out] is numeric it returns the first quote of greatest
    [float(amount_out)]: no quote has a greater double, and every quote
    before the returned one has a strictly smaller double. When all amounts
    are below [2 ^ 53], where doubles are exact, that is the first quote of
    greatest amount. *)
Theorem select_best_option_first_maximal :
  select_best_option [] = raise (ValueError "No options provided") /\
  (forall options : list (gmap string string),
     options <> [] ->
     (forall x, x ∈ options -> exists k, amount_out_key x = ok k) ->
     exists pre best (kb : float) post,
       select_best_option options = ok best /\
       options = (pre ++ best :: post)%list /\
       amount_out_key best = ok kb /\
       (forall y (k : float), y ∈ options -> amount_out_key y = ok k ->
          PyFloat.leb k kb = true) /\
       (forall y (k : float), y ∈ pre -> amount_out_key y = ok k ->
          PyFloat.gtb kb k = true)) /\
  (forall options : list (gmap string string),
     options <> [] ->
     (forall x, x ∈ options -> exists n, exact_amount x n) ->
     exists pre best nb post,
       select_best_option options = ok best /\
       options = (pre ++ best :: post)%list /\
       exact_amount best nb /\
       (forall y n, y ∈ options -> exact_amount y n -> n <= nb) /\
       (forall y n, y ∈ pre -> exact_amount y n -> n < nb)).
Proof.
  split; [reflexivity|]. split; [exact select_best_option_float_maximal|].
  intros options Hne Hall.
  destruct (select_best_option_float_maximal options Hne) as
    (pre & best & kb & post & R & E & K & Pall & Ppre).
  { intros x Hx. destruct (Hall x Hx) as [n Hn]. eexists. apply exact_amount_key, Hn. }
  assert (Hbest : best ∈ options).
  { rewrite E. apply elem_of_app. right. left. }
  destruct (Hall best Hbest) as [nb Hnb].
  pose proof (exact_amount_key _ _ Hnb) as Kb. rewrite K in Kb. apply ok_inj in Kb. subst kb.
  assert (Rb : 0 <= nb < 2 ^ 53) by (destruct Hnb as (? & _ & _ & ?); assumption).
  exists pre, best, nb, post. repeat split; auto.
  - intros y n Hy Hn.
    assert (Rn : 0 <= n < 2 ^ 53) by (destruct Hn as (? & _ & _ & ?); assumption).
    pose proof (Pall y _ Hy (exact_amount_key _ _ Hn)) as Hle.
    apply leb_not_gtb in Hle.
    destruct (Z.le_gt_cases n nb) as [?|Hgt]; [assumption|].
    apply (nearest_gtb_small nb n Rb Rn) in Hgt. congruence.
  - intros y n Hy Hn.
    assert (Rn : 0 <= n < 2 ^ 53) by (destruct Hn as (? & _ & _ & ?); assumption).
    assert (Hyo : y ∈ options) by (rewrite E; apply elem_of_app; now left).
    pose proof (Ppre y _ Hy (exact_amount_key _ _ Hn)) as Hgt.
    now apply (nearest_gtb_small n nb Rn Rb) in Hgt.
Qed.

Lemma select_best_option_first_maximal_witness :
  exists pre best nb post,
    select_best_option [ScenarioA.quote_12; ScenarioA.quote_15] = ok best /\
    [ScenarioA.quote_12; ScenarioA.quote_15] = (pre ++ best :: post)%list /\
    exact_amount best nb /\
    (forall y n, y ∈ [ScenarioA.quote_12; ScenarioA.quote_15] -> exact_amount y n -> n <= nb) /\
    (forall y n, y ∈ pre -> exact_amount y n -> n < nb).
Proof.
  apply (proj2 (proj2 select_best_option_first_maximal)
           [ScenarioA.quote_12; ScenarioA.quote_15]).
  - discriminate.
  - intros x Hx. apply elem_of_cons in Hx as [->|Hx].
    + exists 12000000, "12000000". vm_compute. repeat split; congruence.
    + apply list_elem_of_singleton in Hx as ->.
      exists 15000000, "15000000". vm_compute. repeat split; congruence.
Defined.

(** ** Asset registry *)

Section Registry.

Lemma registered_cases (token : string) (a : Asset) :
  ASSET_MAP !! token = Some a ->
  token = "USDC" \/ token = "NEAR" \/ token = "ZEC".
Proof.
  unfold ASSET_MAP. intros H.
  destruct (decide (token = "USDC")) as [-> | N1]; [auto|].
  rewrite lookup_insert_ne in H by congruence.
  destruct (decide (token = "NEAR")) as [-> | N2]; [auto|].
  rewrite lookup_insert_ne in H by congruence.
  destruct (decide (token = "ZEC")) as [-> | N3]; [auto|].
  rewrite lookup_insert_ne in H by congruence.
  rewrite lookup_empty in H. discriminate.
Qed.

(** The registry flags exactly [ZEC], the symbol the code tests for. *)
Lemma privacy_capable_ZEC (token : string) :
  privacy_capable token = String.eqb token "ZEC".
Proof.
  unfold privacy_capable.
  destruct (ASSET_MAP !! token) as [a|] eqn:E.
  - destruct (registered_cases _ _ E) as [-> | [-> | ->]];
      vm_compute in E; injection E as <-; reflexivity.
  - destruct (String.eqb_spec token "ZEC") as [-> | N]; [|reflexivity].
    vm_compute in E. discriminate.
Qed.

(** Distinct registered symbols have distinct asset identifiers. *)
Lemma get_asset_id_inj (t1 t2 : string) (a1 a2 : Asset) (id : string) :
  ASSET_MAP !! t1 = Some a1 -> ASSET_MAP !! t2 = Some a2 ->
  get_asset_id t1 = ok id -> get_asset_id t2 = ok id -> t1 = t2.
Proof.
  intros H1 H2.
  destruct (registered_cases _ _ H1) as [-> | [-> | ->]];
    destruct (registered_cases _ _ H2) as [-> | [-> | ->]];
    try reflexivity; vm_compute; intros E1 E2;
    apply ok_inj in E1; subst id; discriminate E2.
Qed.

End Registry.

(** ** Commitment builder *)

Section Builder.

Context (lib : Libs) (amb : Ambient) (account : Account).

(** A commitment that is returned was built from a quote, signed once. *)
Lemma create_returns (token_in : string) (amount_in : float) (token_out : string)
  (amount_out : float) (shield_options : option ShieldingOptions)
  (log log' : list Event) (c : ZcashCommitment) :
  create_shielded_token_diff_quote lib amb account token_in amount_in token_out
    amount_out shield_options log = (ok c, log') ->
  exists q,
    token_diff_quote lib amb account token_in amount_in token_out amount_out = ok q /\
    payload c = json_dumps lib q /\
    log' = (log ++ [EvSign (json_dumps lib q)])%list /\
    shield_params c =
      (let o := default_shield_options token_in token_out shield_options in
       if enabled o
       then Some {| sp_shielded := true; sp_memo := memo o; sp_viewing_key := viewing_key o |}
       else None).
Proof.
  unfold create_shielded_token_diff_quote, mbind, lift, emit, mret.
  destruct (token_diff_quote _ _ _ _ _ _ _) as [e|q]; [discriminate|].
  destruct (enabled _) eqn:En; intros [= <- <-]; exists q;
    cbn [payload shield_params]; rewrite ?En; auto.
Qed.

(** What goes wrong in the quote is raised before anything is signed. *)
Lemma create_raises (token_in : string) (amount_in : float) (token_out : string)
  (amount_out : float) (shield_options : option ShieldingOptions)
  (log log' : list Event) (e : Exn) :
  create_shielded_token_diff_quote lib amb account token_in amount_in token_out
    amount_out shield_options log = (raise e, log') ->
  token_diff_quote lib amb account token_in amount_in token_out amount_out = raise e /\
  log' = log.
Proof.
  unfold create_shielded_token_diff_quote, mbind, lift, emit, mret.
  destruct (token_diff_quote _ _ _ _ _ _ _) as [e'|q].
  - intros [= <- <-]. auto.
  - destruct (enabled _); discriminate.
Qed.

(** The shape of a quote that is built: both symbols are registered and
    both amounts convert. *)
Lemma token_diff_quote_returns (token_in : string) (amount_in : float)
  (token_out : string) (amount_out : float) (q : Quote) :
  token_diff_quote lib amb account token_in amount_in token_out amount_out = ok q ->
  exists id_in a_in units_in id_out a_out units_out,
    get_asset_id token_in = ok id_in /\ ASSET_MAP !! token_in = Some a_in /\
    to_decimals amount_in (decimals a_in) = ok units_in /\
    get_asset_id token_out = ok id_out /\ ASSET_MAP !! token_out = Some a_out /\
    to_decimals amount_out (decimals a_out) = ok units_out /\
    intents q =
      [ {| intent := "token_diff";
           diff := dict_set id_out units_out (dict_set id_in ("-" +:+ units_in) []) |} ].
Proof.
  intros H. unfold token_diff_quote, getitem, rbind, ok, raise in H.
  destruct (get_asset_id token_in) as [?|id_in]; [discriminate H|].
  destruct (ASSET_MAP !! token_in) as [a_in|]; [|discriminate H].
  destruct (to_decimals amount_in _) as [?|units_in] eqn:E1; [discriminate H|].
  destruct (get_asset_id token_out) as [?|id_out]; [discriminate H|].
  destruct (ASSET_MAP !! token_out) as [a_out|]; [|discriminate H].
  destruct (to_decimals amount_out _) as [?|units_out] eqn:E2; [discriminate H|].
  apply ok_inj in H. subst q.
  exists id_in, a_in, units_in, id_out, a_out, units_out.
  repeat (split; [reflexivity || assumption|]). reflexivity.
Qed.

End Builder.

(** C4. Called without shield options, [create_shielded_token_diff_quote]
    returns a commitment that carries [shield_params] exactly when
    [token_in] or [token_out] is privacy-capable; they then hold the flag
    and neither memo nor viewing key, and otherwise the field is [None]. *)
Theorem default_shielding_iff_privacy_capable
  (lib : Libs) (amb : Ambient) (account : Account)
  (token_in : string) (amount_in : float) (token_out : string) (amount_out : float)
  (log log' : list Event) (c : ZcashCommitment) :
  create_shielded_token_diff_quote lib amb account token_in amount_in token_out
    amount_out None log = (ok c, log') ->
  (is_Some (shield_params c) <->
     privacy_capable token_in = true \/ privacy_capable token_out = true) /\
  (shield_params c = None <->
     privacy_capable token_in = false /\ privacy_capable token_out = false) /\
  (forall p, shield_params c = Some p ->
     sp_shielded p = true /\ sp_memo p = None /\ sp_viewing_key p = None).
Proof.
  intros H. apply create_returns in H as (q & _ & _ & _ & Hs).
  rewrite Hs, !privacy_capable_ZEC. unfold default_shield_options.
  destruct (String.eqb token_in "ZEC"), (String.eqb token_out "ZEC");
    cbn [orb enabled memo viewing_key]; unfold is_Some;
    (split; [|split]);
    [ split; eauto | split; [discriminate | intros [[=] _]] | intros p [= <-]; auto
    | split; eauto | split; [discriminate | intros [[=] _]] | intros p [= <-]; auto
    | split; eauto | split; [discriminate | intros [_ [=]]] | intros p [= <-]; auto
    | split; [intros [p [=]] | intros [[=]|[=]]] | split; auto | intros p [=] ].
Qed.

Lemma default_shielding_iff_privacy_capable_witness :
  exists c : ZcashCommitment,
    fst (create_shielded_token_diff_quote ScenarioA.lib ScenarioA.amb ScenarioA.account
           "NEAR" ScenarioA.half "ZEC" (PyFloat.nearest 15000000) None []) = ok c /\
    (is_Some (shield_params c) <->
       privacy_capable "NEAR" = true \/ privacy_capable "ZEC" = true).
Proof.
  eexists. split; [vm_compute; reflexivity|].
  eapply (default_shielding_iff_privacy_capable ScenarioA.lib ScenarioA.amb ScenarioA.account
            "NEAR" ScenarioA.half "ZEC" (PyFloat.nearest 15000000) []).
  vm_compute. reflexivity.
Defined.

(** C9. The diff of the intent that [create_shielded_token_diff_quote]
    builds has the two entries of a debit and a credit only when [token_in]
    and [token_out] differ. With [token_in] equal to [token_out] it has one
    entry: under the shared asset identifier the output amount has replaced
    the negated input amount. *)
Theorem diff_has_two_entries_iff_tokens_differ
  (lib : Libs) (amb : Ambient) (account : Account)
  (token_in : string) (amount_in : float) (token_out : string) (amount_out : float)
  (shield_options : option ShieldingOptions)
  (log log' : list Event) (c : ZcashCommitment) :
  create_shielded_token_diff_quote lib amb account token_in amount_in token_out
    amount_out shield_options log = (ok c, log') ->
  exists q d,
    token_diff_quote lib amb account token_in amount_in token_out amount_out = ok q /\
    payload c = json_dumps lib q /\
    intents q = [ {| intent := "token_diff"; diff := d |} ] /\
    (token_in = token_out ->
       exists id a units_out,
         get_asset_id token_out = ok id /\ ASSET_MAP !! token_out = Some a /\
         to_decimals amount_out (decimals a) = ok units_out /\
         d = [(id, units_out)]) /\
    (token_in <> token_out ->
       exists id_in a_in units_in id_out a_out units_out,
         get_asset_id token_in = ok id_in /\ ASSET_MAP !! token_in = Some a_in /\
         to_decimals amount_in (decimals a_in) = ok units_in /\
         get_asset_id token_out = ok id_out /\ ASSET_MAP !! token_out = Some a_out /\
         to_decimals amount_out (decimals a_out) = ok units_out /\
         id_in <> id_out /\
         d = [(id_in, "-" +:+ units_in); (id_out, units_out)]) /\
    (length d = 2%nat <-> token_in <> token_out).
Proof.
  intros H. apply create_returns in H as (q & Hq & Hp & _ & _).
  destruct (token_diff_quote_returns _ _ _ _ _ _ _ _ Hq) as
    (id_in & a_in & units_in & id_out & a_out & units_out & I1 & A1 & U1 & I2 & A2 & U2 & Hi).
  exists q, (dict_set id_out units_out (dict_set id_in ("-" +:+ units_in) [])).
  split; [exact Hq|]. split; [exact Hp|]. split; [exact Hi|].
  cbn [dict_set].
  destruct (String.eqb_spec id_in id_out) as [Heq|Hne].
  - assert (token_in = token_out) as Ht.
    { subst id_out. eapply get_asset_id_inj; eauto. }
    split; [|split].
    + intros _. exists id_out, a_out, units_out. auto.
    + intros Hd. contradiction.
    + cbn [length]. split; [discriminate|]. intros Hd. contradiction.
  - assert (token_in <> token_out) as Ht.
    { intros ->. rewrite I1 in I2. apply ok_inj in I2. contradiction. }
    split; [|split].
    + intros Hd. contradiction.
    + intros _. exists id_in, a_in, units_in, id_out, a_out, units_out. auto 10.
    + cbn [length]. split; auto.
Qed.

Lemma diff_has_two_entries_iff_tokens_differ_witness :
  exists (c : ZcashCommitment) q d,
    fst (create_shielded_token_diff_quote ScenarioA.lib ScenarioA.amb ScenarioA.account
           "ZEC" (PyFloat.nearest 2) "ZEC" (PyFloat.nearest 3) None []) = ok c /\
    token_diff_quote ScenarioA.lib ScenarioA.amb ScenarioA.account
      "ZEC" (PyFloat.nearest 2) "ZEC" (PyFloat.nearest 3) = ok q /\
    intents q = [ {| intent := "token_diff"; diff := d |} ] /\
    d = [("nep141:zcash.factory.bridge.near", "300000000")].
Proof.
  destruct (diff_has_two_entries_iff_tokens_differ
              ScenarioA.lib ScenarioA.amb ScenarioA.account
              "ZEC" (PyFloat.nearest 2) "ZEC" (PyFloat.nearest 3) None []
              _ _ ltac:(vm_compute; reflexivity))
    as (q & d & Hq & _ & Hi & Hsame & _ & _).
  eexists _, q, d. split; [vm_compute; reflexivity|].
  split; [exact Hq|]. split; [exact Hi|].
  destruct (Hsame eq_refl) as (id & a & units & I & A & U & ->).
  vm_compute in I, A. apply ok_inj in I. subst id.
  injection A as <-. vm_compute in U. apply ok_inj in U. subst units. reflexivity.
Defined.

(** ** Quote fetcher and publisher *)

(** Runs the plumbing of [M] and [Result], and nothing else. *)
Ltac run_m :=
  cbv beta iota delta
    [try_except mbind lift emit mraise mret check_status rbind ok raise fst snd].

Section RelayCalls.

Context (relay : Relay).

(** Every path through [fetch_options], read off the relay's answer. *)
Lemma fetch_options_cases (request : IntentRequest) (log : list Event) :
  fetch_options relay request log =
    match serialize request with
    | inl _ => (ok [], log)
    | inr params =>
        (ok match getQuotes relay params with
            | PostRaises _ => []
            | PostReturns r =>
                match raise_for_status r, json_result r with
                | None, inr options => options
                | _, _ => []
                end
            end,
         (log ++ [EvPost (intents_getQuotes params)])%list)
    end.
Proof.
  unfold fetch_options, post_getQuotes. run_m.
  destruct (serialize request) as [e|params]; [reflexivity|]. run_m.
  destruct (getQuotes relay params) as [e|r]; [reflexivity|]. run_m.
  destruct (raise_for_status r) as [e|]; [reflexivity|]. run_m.
  destruct (json_result r) as [e|options]; reflexivity.
Qed.

(** Every path through [publish_shielded_intent]. *)
Lemma publish_shielded_intent_cases (signed_intent : ZcashCommitment) (log : list Event) :
  publish_shielded_intent relay signed_intent log =
    (match publishIntent relay signed_intent with
     | PostRaises e => raise e
     | PostReturns r =>
         match raise_for_status r with
         | Some e => raise e
         | None => json_result r
         end
     end,
     (log ++ [EvPost (intents_publishIntent signed_intent)])%list).
Proof.
  unfold publish_shielded_intent, post_publishIntent. run_m.
  destruct (publishIntent relay signed_intent) as [e|r]; [reflexivity|]. run_m.
  destruct (raise_for_status r) as [e|]; [reflexivity|]. run_m.
  destruct (json_result r) as [e|v]; reflexivity.
Qed.

End RelayCalls.

(** C5. [fetch_options] never raises, and when the relay call raises a
    transport error or returns a non-success status it returns the empty
    list. *)
Theorem fetch_options_degrades_to_empty
  (relay : Relay) (request : IntentRequest) (log : list Event) :
  (exists options log', fetch_options relay request log = (ok options, log')) /\
  (quote_call_fails relay request -> fst (fetch_options relay request log) = ok []).
Proof.
  rewrite fetch_options_cases. split.
  - destruct (serialize request); eauto.
  - intros (params & Hs & Hf). rewrite Hs. run_m.
    destruct Hf as [[e ->]|(r & e & -> & Hst)]; [reflexivity|].
    run_m. rewrite Hst. reflexivity.
Qed.

Lemma fetch_options_degrades_to_empty_witness :
  quote_call_fails Samples.down_relay
    (run_calls [call_set_asset_in "NEAR" ScenarioA.half; call_set_asset_out "ZEC" None]
       IntentRequest_new) /\
  fst (fetch_options Samples.down_relay
         (run_calls [call_set_asset_in "NEAR" ScenarioA.half; call_set_asset_out "ZEC" None]
            IntentRequest_new) []) = ok [].
Proof.
  assert (F : quote_call_fails Samples.down_relay
                (run_calls [call_set_asset_in "NEAR" ScenarioA.half;
                            call_set_asset_out "ZEC" None] IntentRequest_new)).
  { eexists. split; [vm_compute; reflexivity|]. left. eexists. reflexivity. }
  split; [exact F|].
  exact (proj2 (fetch_options_degrades_to_empty Samples.down_relay _ []) F).
Defined.

(** C6. When the relay call of [publish_shielded_intent] fails, by a
    transport error, a non-success status or a body without a result, the
    operation raises that very error; it returns a result only when the
    relay answered with one. *)
Theorem publish_failure_propagates
  (relay : Relay) (signed_intent : ZcashCommitment) (log : list Event) :
  (forall e, publish_call_fails relay signed_intent e ->
     fst (publish_shielded_intent relay signed_intent log) = raise e) /\
  (forall v, fst (publish_shielded_intent relay signed_intent log) = ok v ->
     exists r, publishIntent relay signed_intent = PostReturns r /\
               raise_for_status r = None /\ json_result r = ok v).
Proof.
  rewrite publish_shielded_intent_cases. cbn [fst]. split.
  - intros e [->|[(r & -> & ->)|(r & -> & -> & ->)]]; reflexivity.
  - intros v. destruct (publishIntent relay signed_intent) as [e|r]; [discriminate|].
    destruct (raise_for_status r) as [e|] eqn:E; [discriminate|]. eauto.
Qed.

Lemma publish_failure_propagates_witness :
  publish_call_fails Samples.down_relay Samples.commitment
    (RequestException "ConnectionError") /\
  fst (publish_shielded_intent Samples.down_relay Samples.commitment []) =
    raise (RequestException "ConnectionError").
Proof.
  assert (F : publish_call_fails Samples.down_relay Samples.commitment
                (RequestException "ConnectionError")) by (left; reflexivity).
  split; [exact F|].
  exact (proj1 (publish_failure_propagates Samples.down_relay Samples.commitment [])
           _ F).
Defined.

(** ** Swap orchestrator *)

(** C7. When the quote fetch returns the empty list, [intent_swap_zec]
    raises the "No swap options available" error of the two symbols, and all
    it has done by then is the quote request: nothing was signed and nothing
    was published. *)
Theorem no_liquidity_stops_before_signing
  (lib : Libs) (relay : Relay) (amb : Ambient) (account : Account)
  (token_in : string) (amount_in : float) (token_out privacy_level : string)
  (request : IntentRequest) (log log1 : list Event) :
  build_request token_in amount_in token_out = ok request ->
  fetch_options relay request log = (ok [], log1) ->
  intent_swap_zec lib relay amb account token_in amount_in token_out privacy_level log =
    (raise (no_swap_options token_in token_out), log1) /\
  exists evs, log1 = (log ++ evs)%list /\ Forall is_getQuotes_post evs.
Proof.
  intros Hb Hf. split.
  - unfold intent_swap_zec. run_m. rewrite Hb. run_m. rewrite Hf. reflexivity.
  - rewrite fetch_options_cases in Hf.
    destruct (serialize request) as [e|params].
    + exists []. split; [|constructor].
      rewrite app_nil_r. symmetry. exact (f_equal snd Hf).
    + exists [EvPost (intents_getQuotes params)]. split.
      * symmetry. exact (f_equal snd Hf).
      * constructor; [now exists params | constructor].
Qed.

Lemma no_liquidity_stops_before_signing_witness :
  let request :=
    run_calls [call_set_asset_in "NEAR" ScenarioA.half; call_set_asset_out "ZEC" None]
      IntentRequest_new in
  let log1 := snd (fetch_options Samples.dry_relay request []) in
  intent_swap_zec ScenarioA.lib Samples.dry_relay ScenarioA.amb ScenarioA.account
    "NEAR" ScenarioA.half "ZEC" "shielded" [] =
    (raise (no_swap_options "NEAR" "ZEC"), log1) /\
  exists evs, log1 = evs /\ Forall is_getQuotes_post evs.
Proof.
  intros request log1.
  apply (no_liquidity_stops_before_signing ScenarioA.lib Samples.dry_relay
           ScenarioA.amb ScenarioA.account "NEAR" ScenarioA.half "ZEC" "shielded"
           request [] log1); vm_compute; reflexivity.
Defined.

(** ** Swap request builder *)

Section RequestBuilder.

Lemma apply_call_keeps_assetIn (self : IntentRequest) (c : SetterCall) :
  is_set_asset_in c = false ->
  request (apply_call self c) !! "assetIn" = request self !! "assetIn".
Proof.
  destruct c as [name amount|name amount]; [discriminate|]. intros _.
  unfold apply_call, set_asset_out.
  destruct (ASSET_MAP !! name) as [a|]; [|reflexivity].
  destruct (get_asset_id name) as [e|id]; [reflexivity|].
  destruct amount as [x|]; [destruct (to_decimals x (decimals a)) as [e|units]|];
    cbn [fst request with_request]; now rewrite ?lookup_insert_ne by discriminate.
Qed.

Lemma apply_call_keeps_assetOut (self : IntentRequest) (c : SetterCall) :
  is_set_asset_out c = false ->
  request (apply_call self c) !! "assetOut" = request self !! "assetOut".
Proof.
  destruct c as [name amount|name amount]; [|discriminate]. intros _.
  unfold apply_call, set_asset_in.
  destruct (ASSET_MAP !! name) as [a|]; [|reflexivity].
  destruct (get_asset_id name) as [e|id]; [reflexivity|].
  destruct (to_decimals amount (decimals a)) as [e|units];
    cbn [fst request with_request]; now rewrite ?lookup_insert_ne by discriminate.
Qed.

Lemma run_calls_keeps_assetIn (calls : list SetterCall) (self : IntentRequest) :
  Forall (fun c => is_set_asset_in c = false) calls ->
  request (run_calls calls self) !! "assetIn" = request self !! "assetIn".
Proof.
  intros H. revert self. induction H as [|c calls Hc _ IH]; intros self; [reflexivity|].
  unfold run_calls in *. cbn [fold_left]. rewrite IH. now apply apply_call_keeps_assetIn.
Qed.

Lemma run_calls_keeps_assetOut (calls : list SetterCall) (self : IntentRequest) :
  Forall (fun c => is_set_asset_out c = false) calls ->
  request (run_calls calls self) !! "assetOut" = request self !! "assetOut".
Proof.
  intros H. revert self. induction H as [|c calls Hc _ IH]; intros self; [reflexivity|].
  unfold run_calls in *. cbn [fold_left]. rewrite IH. now apply apply_call_keeps_assetOut.
Qed.

(** [serialize] returns exactly when the three keys it reads are there. *)
Lemma serialize_returns_iff (self : IntentRequest) :
  (exists s, serialize self = ok s) <->
  is_Some (request self !! "assetIn") /\ is_Some (request self !! "assetOut") /\
  is_Some (request self !! "amountIn").
Proof.
  unfold serialize, getitem, rbind, ok, raise.
  destruct (request self !! "assetIn") as [a|];
    [destruct (request self !! "assetOut") as [b|];
     [destruct (request self !! "amountIn") as [c|]|]|];
    (split; [intros [s H]; try discriminate H; eauto | intros (H1 & H2 & H3)];
     try (eexists; reflexivity);
     try (destruct H1 as [? [=]]); try (destruct H2 as [? [=]]);
     try (destruct H3 as [? [=]])).
Qed.

(** The chain of the orchestrator leaves a request that serializes. *)
Lemma build_request_serializes (token_in : string) (amount_in : float)
  (token_out : string) (r : IntentRequest) :
  build_request token_in amount_in token_out = ok r -> exists s, serialize r = ok s.
Proof.
  unfold build_request, set_asset_in, set_asset_out. intros H.
  apply serialize_returns_iff.
  destruct (ASSET_MAP !! token_in) as [a|]; [|discriminate H].
  destruct (get_asset_id token_in) as [e|id]; [discriminate H|].
  destruct (to_decimals amount_in (decimals a)) as [e|units]; [discriminate H|].
  cbn [rbind ok] in H.
  destruct (ASSET_MAP !! token_out) as [a'|]; [|discriminate H].
  destruct (get_asset_id token_out) as [e|id']; [discriminate H|].
  cbn [rbind ok] in H. apply ok_inj in H. subst r. cbn [request with_request].
  rewrite lookup_insert_ne by discriminate.
  rewrite lookup_insert_ne by discriminate.
  rewrite !lookup_insert_eq.
  rewrite lookup_insert_ne by discriminate.
  rewrite lookup_insert_eq. eauto.
Qed.

End RequestBuilder.

(** C10. On a request made by [IntentRequest()], [serialize] returns a
    request only if both [set_asset_in] and [set_asset_out] were called
    before: when either setter was never called it raises the key-lookup
    error of the missing field. *)
Theorem serialize_needs_both_setters (calls : list SetterCall) :
  Forall (fun c => is_set_asset_in c = false) calls \/
  Forall (fun c => is_set_asset_out c = false) calls ->
  exists key,
    serialize (run_calls calls IntentRequest_new) = raise (KeyError key) /\
    (key = "assetIn" \/ key = "assetOut").
Proof.
  intros [H|H].
  - exists "assetIn". split; [|auto].
    unfold serialize, getitem. rewrite (run_calls_keeps_assetIn calls _ H). reflexivity.
  - unfold serialize, getitem.
    destruct (request (run_calls calls IntentRequest_new) !! "assetIn") as [a|].
    + exists "assetOut". split; [|auto].
      rewrite (run_calls_keeps_assetOut calls _ H). reflexivity.
    + exists "assetIn". split; [reflexivity|auto].
Qed.

Lemma serialize_needs_both_setters_witness :
  exists key,
    serialize (run_calls [call_set_asset_in "NEAR" ScenarioA.half] IntentRequest_new) =
      raise (KeyError key) /\
    (key = "assetIn" \/ key = "assetOut").
Proof.
  apply (serialize_needs_both_setters [call_set_asset_in "NEAR" ScenarioA.half]).
  right. repeat constructor.
Defined.

(** ** Portfolio view *)

Section PrivacyRatio.

Implicit Types (portfolio : list (string * float)) (values : list float).

Lemma fold_add_nonneg values (acc : float) :
  Forall (fun v => PyFloat.nonneg v = true) values ->
  PyFloat.nonneg acc = true ->
  PyFloat.nonneg (fold_left PyFloat.add values acc) = true.
Proof.
  intros H. revert acc. induction H as [|v values Hv _ IH]; intros acc Hacc; [exact Hacc|].
  cbn [fold_left]. apply IH. now apply add_nonneg.
Qed.

(** The total of a portfolio of balances is a non-negative float. *)
Lemma total_balance_nonneg portfolio :
  Forall (fun kv => PyFloat.nonneg (snd kv) = true) portfolio ->
  PyFloat.nonneg (total_balance portfolio) = true.
Proof.
  intros H. unfold total_balance, py_sum. apply fold_add_nonneg; [|reflexivity].
  induction H; constructor; auto.
Qed.

Lemma dict_get_nonneg portfolio (k : string) :
  Forall (fun kv => PyFloat.nonneg (snd kv) = true) portfolio ->
  PyFloat.nonneg (dict_get k PyFloat.zero portfolio) = true.
Proof.
  induction 1 as [|[k' v] portfolio Hv _ IH]; [reflexivity|].
  cbn [dict_get]. destruct (String.eqb k' k); [exact Hv | exact IH].
Qed.

(** On a non-negative float, [x <= 0] and [x == 0] agree: both say that
    [x] is the zero. *)
Lemma nonneg_leb_zero (x : float) :
  PyFloat.nonneg x = true ->
  PyFloat.leb x PyFloat.zero = PyFloat.eqb x PyFloat.zero /\
  PyFloat.eqb x PyFloat.zero = PyFloat.is_zero x.
Proof. destruct x as [[]|[]| |[] m e]; try discriminate; intros _; split; reflexivity. Qed.

Lemma add_zero_nonneg (x : float) :
  PyFloat.nonneg x = true -> PyFloat.add PyFloat.zero x = x.
Proof. destruct x as [[]|[]| |[] m e]; try discriminate; reflexivity. Qed.

(** The registry has one privacy-capable asset, the one the code reads. *)
Lemma privacy_capable_balance_ZEC portfolio :
  Forall (fun kv => PyFloat.nonneg (snd kv) = true) portfolio ->
  privacy_capable_balance portfolio = dict_get "ZEC" PyFloat.zero portfolio.
Proof.
  intros H. unfold privacy_capable_balance.
  replace (filter _ ASSET_SYMBOLS) with ["ZEC"] by (vm_compute; reflexivity).
  unfold py_sum. cbn [map fold_left]. apply add_zero_nonneg, dict_get_nonneg, H.
Qed.

End PrivacyRatio.

(** What [_calculate_privacy_ratio] returns on a portfolio of balances: the
    privacy-capable balance over the sum of all balances, times 100, and 0
    when that sum is 0. Exchange rates play no part in it. *)
Lemma privacy_ratio_is_balance_share (portfolio : list (string * float)) :
  Forall (fun kv => PyFloat.nonneg (snd kv) = true) portfolio ->
  _calculate_privacy_ratio portfolio = ok (balance_share portfolio) /\
  (PyFloat.eqb (total_balance portfolio) PyFloat.zero = true ->
   _calculate_privacy_ratio portfolio = ok PyFloat.zero).
Proof.
  intros H.
  pose proof (nonneg_leb_zero _ (total_balance_nonneg _ H)) as [Hle Hz].
  unfold _calculate_privacy_ratio, balance_share.
  fold (total_balance portfolio). rewrite Hle, (privacy_capable_balance_ZEC _ H).
  unfold PyFloat.truediv. rewrite <- Hz.
  destruct (PyFloat.eqb (total_balance portfolio) PyFloat.zero).
  - split; [reflexivity|]. reflexivity.
  - split; [reflexivity|]. discriminate.
Qed.

(** C8, at a portfolio of 10 NEAR and 1 ZEC. The analysis values the
    portfolio at 20 NEAR and gives ZEC 50 percent of the distribution, so
    the value held in privacy-capable assets over the total value, times 100,
    is 50; the privacy ratio of the same analysis is 9.090909090909092, the
    share of the ZEC balance in the sum of the balances. *)
Theorem privacy_ratio_ignores_exchange_rates :
  exists a,
    analyze_portfolio Samples.portfolio = ok a /\
    total_value_near a = PyFloat.nearest 20 /\
    dict_get "ZEC" PyFloat.zero (distributions a) = PyFloat.nearest 50 /\
    privacy_ratio_by_value a = ok (PyFloat.nearest 50) /\
    privacy_ratio a = S754_finite false 5117726849284655 (-49) /\
    PyFloat.eqb (privacy_ratio a) (PyFloat.nearest 50) = false.
Proof.
  eexists. split; [vm_compute; reflexivity|].
  repeat split; vm_compute; reflexivity.
Qed.

(** ** Amount codec: the round trip *)

Section RoundTrip.

Lemma all_cents_forall (check : float -> bool) (n : nat) (k : Z) :
  all_cents check n = true -> 1 <= k <= Z.of_nat n -> check (cents k) = true.
Proof.
  unfold all_cents. intros H Hk.
  rewrite forallb_forall in H.
  specialize (H (Z.to_nat k)). rewrite Z2Nat.id in H by lia.
  apply H, in_seq. lia.
Qed.

Lemma within_unit_and_rounding_spec (d : N) (amount : float) :
  within_unit_and_rounding d amount = true ->
  exists units back,
    to_decimals amount d = ok units /\ from_decimals units d = ok back /\
    is_finite back = true /\
    (distance back amount <=
       smallest_unit d + PyFloat.to_Q amount * Qmake 1 (2 ^ 52))%Q.
Proof.
  unfold within_unit_and_rounding, roundtrip, rbind.
  destruct (to_decimals amount d) as [e|units]; [discriminate|].
  destruct (from_decimals units d) as [e|back] eqn:E; [discriminate|].
  intros H. apply andb_prop in H as [Hf Hq]. apply Qle_bool_iff in Hq.
  exists units, back. repeat split; [exact E | exact Hf | exact Hq].
Qed.

Lemma cents_USDC : all_cents (within_unit_and_rounding 6) cents_grid = true.
Proof. vm_compute. reflexivity. Qed.

Lemma cents_ZEC : all_cents (within_unit_and_rounding 8) cents_grid = true.
Proof. vm_compute. reflexivity. Qed.

Lemma cents_NEAR : all_cents (within_unit_and_rounding 24) cents_grid = true.
Proof. vm_compute. reflexivity. Qed.

End RoundTrip.

(** C2, as the code has it. For every registered asset and every amount
    [0.01, 0.02, ..., 10.00], converting to on-chain units and back returns
    a float that differs from the amount by at most one unit of the asset's
    smallest denomination plus the relative rounding error [2 ^ -52] of the
    amount. *)
Theorem roundtrip_within_unit_and_rounding (token : string) (a : Asset) (k : Z) :
  ASSET_MAP !! token = Some a ->
  1 <= k <= 1000 ->
  exists units back,
    to_decimals (cents k) (decimals a) = ok units /\
    from_decimals units (decimals a) = ok back /\
    is_finite back = true /\
    (distance back (cents k) <=
       smallest_unit (decimals a) + PyFloat.to_Q (cents k) * Qmake 1 (2 ^ 52))%Q.
Proof.
  intros Ha Hk. apply within_unit_and_rounding_spec.
  destruct (registered_cases _ _ Ha) as [-> | [-> | ->]];
    vm_compute in Ha; injection Ha as <-; cbn [decimals].
  - exact (all_cents_forall _ cents_grid k cents_USDC Hk).
  - exact (all_cents_forall _ cents_grid k cents_NEAR Hk).
  - exact (all_cents_forall _ cents_grid k cents_ZEC Hk).
Qed.

Lemma roundtrip_within_unit_and_rounding_witness :
  exists a units back,
    ASSET_MAP !! "USDC" = Some a /\
    to_decimals (cents 418) (decimals a) = ok units /\
    from_decimals units (decimals a) = ok back /\
    is_finite back = true /\
    (distance back (cents 418) <=
       smallest_unit (decimals a) + PyFloat.to_Q (cents 418) * Qmake 1 (2 ^ 52))%Q.
Proof.
  eexists.
  assert (Ha : ASSET_MAP !! "USDC" = Some _) by (vm_compute; reflexivity).
  destruct (roundtrip_within_unit_and_rounding "USDC" _ 418 Ha ltac:(lia))
    as (units & back & H).
  exists units, back. split; [exact Ha | exact H].
Defined.

(** C2, as stated, fails: 1.25 NEAR comes back as 1.2499999999999998, which
    is [2 ^ -52] away from 1.25, far more than the [10 ^ -24] of one
    yoctoNEAR. *)
Lemma roundtrip_NEAR_misses_one_unit :
  exists a back,
    ASSET_MAP !! "NEAR" = Some a /\
    cents 125 = S754_finite false 5629499534213120 (-52) /\
    roundtrip (cents 125) (decimals a) = ok back /\
    back = S754_finite false 5629499534213119 (-52) /\
    ~ (distance back (cents 125) <= smallest_unit (decimals a))%Q.
Proof.
  eexists _, _. split; [vm_compute; reflexivity|].
  split; [vm_compute; reflexivity|].
  split; [vm_compute; reflexivity|].
  split; [reflexivity|].
  intros H. apply Qle_bool_iff in H. vm_compute in H. discriminate H.
Qed.

(** The bound of one unit is also missed, by a hair, at the precision of
    USDC: 4.18 comes back as 4.179999. *)
Lemma roundtrip_USDC_misses_one_unit :
  within_one_unit 6 (cents 418) = false.
Proof. vm_compute. reflexivity. Qed.

(** ** Scenario A, end to end *)

Section ScenarioAFacts.

Import ScenarioA.

Context (lib : Libs) (amb : Ambient) (account : Account).

Lemma scenario_A_request :
  build_request "NEAR" half "ZEC" =
    ok (run_calls [call_set_asset_in "NEAR" half; call_set_asset_out "ZEC" None]
          IntentRequest_new).
Proof. vm_compute. reflexivity. Qed.

Lemma scenario_A_selection :
  select_best_option [quote_12; quote_15] = ok quote_15 /\
  amount_out_key quote_15 = ok (PyFloat.nearest 15000000).
Proof. split; vm_compute; reflexivity. Qed.

(** The quote the code builds for the selected option. Its input entry
    is 0.5 times the double nearest to [10 ^ 24], truncated; its output
    entry is the quote's amount scaled once more by [10 ^ 8]. *)
Lemma scenario_A_quote :
  token_diff_quote lib amb account "NEAR" half "ZEC" (PyFloat.nearest 15000000) =
    ok {| nonce := b64encode lib (to_bytes 32 (getrandbits_256 amb));
          signer_id := account_id account;
          verifying_contract := "intents.near";
          deadline := PyFloat.str (time_ms amb + 120000);
          intents :=
            [ {| intent := "token_diff";
                 diff := [("near", "-499999999999999991611392");
                          ("nep141:zcash.factory.bridge.near", "1500000000000000")] |} ] |}.
Proof.
  unfold token_diff_quote.
  change (get_asset_id "NEAR") with (@ok string "near").
  change (get_asset_id "ZEC") with (@ok string "nep141:zcash.factory.bridge.near").
  replace (getitem ASSET_MAP "NEAR")
    with (ok {| token_id := "wrap.near"; omft := None; decimals := 24; shielded := false |})
    by (vm_compute; reflexivity).
  replace (getitem ASSET_MAP "ZEC")
    with (ok {| token_id := "zcash.factory.bridge.near";
                omft := Some "zcash-token.omft.near";
                decimals := 8; shielded := true |})
    by (vm_compute; reflexivity).
  cbn [rbind ok decimals].
  replace (to_decimals half 24) with (@ok string "499999999999999991611392")
    by (vm_compute; reflexivity).
  replace (to_decimals (PyFloat.nearest 15000000) 8) with (@ok string "1500000000000000")
    by (vm_compute; reflexivity).
  reflexivity.
Qed.

End ScenarioAFacts.

(** C1, as the code has it. A swap of 0.5 NEAR to ZEC against the quotes
    12000000 and 15000000 selects the second quote, signs one quote and
    publishes its commitment; the single intent of that quote is a
    token_diff whose diff has the two entries of NEAR and of ZEC, in this
    order, the NEAR entry being "-499999999999999991611392": 0.5 times the
    double nearest to 10^24, truncated and negated. *)
Theorem scenario_A_swap
  (lib : Libs) (amb : Ambient) (account : Account) (relay : Relay)
  (privacy_level : string) (log : list Event) :
  ScenarioA.answers_two_quotes relay ->
  select_best_option [ScenarioA.quote_12; ScenarioA.quote_15] = ok ScenarioA.quote_15 /\
  exists params q units_out c,
    token_diff_quote lib amb account "NEAR" ScenarioA.half "ZEC"
      (PyFloat.nearest 15000000) = ok q /\
    intents q =
      [ {| intent := "token_diff";
           diff := [("near", "-499999999999999991611392");
                    ("nep141:zcash.factory.bridge.near", units_out)] |} ] /\
    payload c = json_dumps lib q /\
    snd (intent_swap_zec lib relay amb account "NEAR" ScenarioA.half "ZEC"
           privacy_level log) =
      (log ++ [EvPost (intents_getQuotes params);
               EvSign (json_dumps lib q);
               EvPost (intents_publishIntent c)])%list.
Proof.
  intros Hrelay. split; [apply scenario_A_selection|].
  pose proof (scenario_A_quote lib amb account) as Hq.
  unfold intent_swap_zec. rewrite scenario_A_request. run_m.
  rewrite fetch_options_cases.
  destruct (build_request_serializes _ _ _ _ scenario_A_request) as [params Hp].
  rewrite Hp. run_m. rewrite Hrelay. cbn [raise_for_status json_result]. run_m.
  rewrite (proj1 scenario_A_selection). run_m.
  rewrite (proj2 scenario_A_selection). run_m.
  unfold create_shielded_token_diff_quote. rewrite Hq. run_m.
  destruct (String.eqb privacy_level "shielded" && _);
    cbn [default_shield_options enabled]; run_m;
    rewrite publish_shielded_intent_cases; cbn [snd];
    rewrite <- !app_assoc; cbn [app];
    eexists params, _, _, _;
    (split; [reflexivity|]); (split; [reflexivity|]); (split; [|reflexivity]);
    reflexivity.
Qed.

Lemma scenario_A_swap_witness :
  ScenarioA.answers_two_quotes ScenarioA.relay /\
  exists params q units_out c,
    token_diff_quote ScenarioA.lib ScenarioA.amb ScenarioA.account "NEAR" ScenarioA.half
      "ZEC" (PyFloat.nearest 15000000) = ok q /\
    intents q =
      [ {| intent := "token_diff";
           diff := [("near", "-499999999999999991611392");
                    ("nep141:zcash.factory.bridge.near", units_out)] |} ] /\
    payload c = json_dumps ScenarioA.lib q /\
    snd (intent_swap_zec ScenarioA.lib ScenarioA.relay ScenarioA.amb ScenarioA.account
           "NEAR" ScenarioA.half "ZEC" "default" []) =
      [EvPost (intents_getQuotes params);
       EvSign (json_dumps ScenarioA.lib q);
       EvPost (intents_publishIntent c)].
Proof.
  assert (Hrelay : ScenarioA.answers_two_quotes ScenarioA.relay)
    by (intros params; reflexivity).
  split; [exact Hrelay|].
  exact (proj2 (scenario_A_swap ScenarioA.lib ScenarioA.amb ScenarioA.account
                  ScenarioA.relay "default" [] Hrelay)).
Defined.

(** C1, as stated, fails: the diff of the published intent is not the
    expected one. The input entry misses [-500000000000000000000000] by the
    rounding of [10 ^ 24] to a double, and the output entry is not the
    quote's [15000000]. *)
Lemma scenario_A_diff_is_not_expected :
  exists q c d,
    token_diff_quote ScenarioA.lib ScenarioA.amb ScenarioA.account "NEAR" ScenarioA.half
      "ZEC" (PyFloat.nearest 15000000) = ok q /\
    intents q = [ {| intent := "token_diff"; diff := d |} ] /\
    payload c = json_dumps ScenarioA.lib q /\
    List.In (EvPost (intents_publishIntent c))
      (snd (intent_swap_zec ScenarioA.lib ScenarioA.relay ScenarioA.amb ScenarioA.account
              "NEAR" ScenarioA.half "ZEC" "default" [])) /\
    d = [("near", "-499999999999999991611392");
         ("nep141:zcash.factory.bridge.near", "1500000000000000")] /\
    d <> ScenarioA.expected_diff.
Proof.
  eexists _, _, _.
  split; [apply scenario_A_quote|].
  split; [reflexivity|].
  split; [|split; [vm_compute; right; right; left; reflexivity|]].
  - vm_compute. reflexivity.
  - split; [reflexivity|]. unfold ScenarioA.expected_diff. intros H. discriminate H.
Qed.

(** C3, as stated, fails for amounts that a double cannot tell apart: of
    two quotes for [10 ^ 24 + 1] and [10 ^ 24 + 2] units the selector returns
    the first, whose amount is the smaller one. *)
Lemma select_best_option_ties_beyond_double_precision :
  select_best_option [Samples.quote_near_1; Samples.quote_near_2] =
    ok Samples.quote_near_1 /\
  amount_out_key Samples.quote_near_1 = amount_out_key Samples.quote_near_2 /\
  exists n1 n2,
    PyFloat.parse_integer "1000000000000000000000001" = Some (false, n1) /\
    PyFloat.parse_integer "1000000000000000000000002" = Some (false, n2) /\
    n1 < n2.
Proof.
  split; [vm_compute; reflexivity|]. split; [vm_compute; reflexivity|].
  eexists _, _. split; [vm_compute; reflexivity|]. split; [vm_compute; reflexivity|].
  reflexivity.
Qed.

(** C10, as stated, fails for a request created from a dict that already
    holds the fields: it serializes although no setter was ever called. *)
Lemma serialize_of_prefilled_request :
  exists s,
    serialize (run_calls [] (IntentRequest_init (Some Samples.prefilled) 120000)) = ok s /\
    assets_in s = "near" /\ assets_out s = "nep141:zcash.factory.bridge.near" /\
    amounts_in s = "499999999999999991611392".
Proof. eexists. split; [vm_compute; reflexivity|]. repeat split. Qed.

(** * Further properties *)

(** ** Decimal numerals and exact arithmetic *)

Section Numerals.

Lemma parse_digits_acc (d : uint) (acc : positive) :
  PyFloat.parse_digits (NilEmpty.string_of_uint d) (Zpos acc) =
    Some (Zpos (Pos.of_uint_acc d acc)).
Proof.
  revert acc. induction d; intros acc; cbn [NilEmpty.string_of_uint PyFloat.parse_digits];
    [reflexivity|..];
    match goal with
    | |- context [PyFloat.digit_of_ascii ?c] =>
        let v := eval vm_compute in (PyFloat.digit_of_ascii c) in
        change (PyFloat.digit_of_ascii c) with v
    end;
    cbv beta iota; cbn [Pos.of_uint_acc]; rewrite <- IHd; f_equal; lia.
Qed.

Lemma parse_digits_uint (d : uint) :
  PyFloat.parse_digits (NilEmpty.string_of_uint d) 0 = Some (Z.of_N (Pos.of_uint d)).
Proof.
  induction d; cbn [NilEmpty.string_of_uint PyFloat.parse_digits Pos.of_uint];
    [reflexivity|..];
    match goal with
    | |- context [PyFloat.digit_of_ascii ?c] =>
        let v := eval vm_compute in (PyFloat.digit_of_ascii c) in
        change (PyFloat.digit_of_ascii c) with v
    end;
    cbv beta iota; [exact IHd|..]; cbn [Z.mul Z.add Z.of_N]; apply parse_digits_acc.
Qed.

(** A numeral of [Decimal] that is not empty starts with a digit, so
    [parse_integer] reads it as a magnitude without a sign. *)
Lemma parse_integer_uint (d : uint) :
  d <> Nil ->
  PyFloat.parse_integer (NilEmpty.string_of_uint d) =
    Some (false, Z.of_N (Pos.of_uint d)).
Proof.
  intros Hd. pose proof (parse_digits_uint d) as H.
  destruct d; [contradiction|..]; cbn [NilEmpty.string_of_uint] in *;
    unfold PyFloat.parse_integer;
    repeat match goal with
    | |- context [Ascii.eqb ?c ?c'] =>
        let v := eval vm_compute in (Ascii.eqb c c') in
        change (Ascii.eqb c c') with v; cbv iota
    end;
    rewrite H; reflexivity.
Qed.

Lemma to_uint_not_Nil (p : positive) : Pos.to_uint p <> Nil.
Proof.
  intros E. pose proof (Unsigned.of_to p) as H. rewrite E in H. discriminate H.
Qed.

(** Printing and parsing an [int] are inverse. *)
Lemma parse_integer_str (n : Z) :
  PyFloat.parse_integer (PyFloat.str n) = Some (n <? 0, Z.abs n).
Proof.
  destruct n as [|p|p]; [reflexivity| |].
  - unfold PyFloat.str. cbn [Z.to_int NilZero.string_of_int].
    pose proof (to_uint_not_Nil p) as Hp.
    replace (NilZero.string_of_uint (Pos.to_uint p))
      with (NilEmpty.string_of_uint (Pos.to_uint p))
      by (destruct (Pos.to_uint p); [contradiction|..]; reflexivity).
    rewrite (parse_integer_uint _ Hp), Unsigned.of_to. reflexivity.
  - unfold PyFloat.str. cbn [Z.to_int NilZero.string_of_int].
    pose proof (to_uint_not_Nil p) as Hp.
    replace (NilZero.string_of_uint (Pos.to_uint p))
      with (NilEmpty.string_of_uint (Pos.to_uint p))
      by (destruct (Pos.to_uint p); [contradiction|..]; reflexivity).
    unfold PyFloat.parse_integer.
    change (Ascii.eqb "-" "-") with true. cbv iota.
    rewrite parse_digits_uint, Unsigned.of_to.
    destruct (NilEmpty.string_of_uint (Pos.to_uint p)) eqn:E; [|reflexivity].
    destruct (Pos.to_uint p); try contradiction; discriminate E.
Qed.

(** [float(str(n))] is the double nearest to [n]. *)
Lemma of_str_str (n : Z) : PyFloat.of_str (PyFloat.str n) = ok (PyFloat.nearest n).
Proof.
  unfold PyFloat.of_str. rewrite parse_integer_str.
  destruct n as [|p|p]; reflexivity.
Qed.

End Numerals.

Section ExactArithmetic.

Lemma iter_shr_1_exact (k : positive) :
  forall c : positive,
    SpecFloat.iter_pos shr_1 k
      {| shr_m := Zpos (Pos.iter xO c k); shr_r := false; shr_s := false |} =
    {| shr_m := Zpos c; shr_r := false; shr_s := false |}.
Proof.
  induction k as [k IH|k IH|]; intros c; cbn [SpecFloat.iter_pos Pos.iter].
  - cbn [shr_1 orb]. now rewrite !IH.
  - now rewrite !IH.
  - reflexivity.
Qed.

(** A mantissa of 53 digits followed by [s] zero bits rounds to itself:
    the bits shifted out are all zero. *)
Lemma binary_round_aux_exact (c : positive) (s e : Z) (sg : bool) :
  digits2_pos c = 53%positive -> 0 <= s -> -1074 <= e + s <= 971 ->
  binary_round_aux PyFloat.prec PyFloat.emax sg (Zpos c * 2 ^ s) e loc_Exact =
    S754_finite sg c (e + s).
Proof.
  intros Hd Hs He. destruct s as [|k|k]; [| |lia].
  - rewrite Z.mul_1_r, Z.add_0_r. unfold binary_round_aux.
    rewrite (shr_fexp_canonical c e Hd) by lia.
    cbn [shr_m loc_of_shr_record round_nearest_even].
    rewrite (shr_fexp_canonical c e Hd) by lia.
    cbn [shr_m]. unfold PyFloat.prec, PyFloat.emax.
    destruct (Z.leb_spec e (1024 - 53)); [reflexivity | lia].
  - rewrite <- iter_xO_value. unfold binary_round_aux.
    assert (E1 : shr_fexp PyFloat.prec PyFloat.emax (Zpos (Pos.iter xO c k)) e loc_Exact =
                 ({| shr_m := Zpos c; shr_r := false; shr_s := false |}, e + Zpos k)).
    { unfold shr_fexp, shr_record_of_loc, Zdigits2, fexp, emin, PyFloat.prec, PyFloat.emax.
      rewrite iter_xO_digits, Hd.
      replace (Z.max (Zpos (53 + k) + e - 53) (3 - 1024 - 53) - e) with (Zpos k) by lia.
      cbn [shr]. now rewrite iter_shr_1_exact. }
    rewrite E1. cbn [shr_m loc_of_shr_record round_nearest_even].
    rewrite (shr_fexp_canonical c (e + Zpos k) Hd) by lia.
    cbn [shr_m]. unfold PyFloat.prec, PyFloat.emax.
    destruct (Z.leb_spec (e + Zpos k) (1024 - 53)); [reflexivity | lia].
Qed.

(** The canonical mantissa and exponent of a positive integer below
    [2 ^ 53]. *)
Lemma nearest_canonical (p : positive) :
  Zpos p < 2 ^ 53 ->
  exists c : positive,
    PyFloat.nearest (Zpos p) = S754_finite false c (Zpos (digits2_pos p) - 53) /\
    digits2_pos c = 53%positive /\
    Zpos c = Zpos p * 2 ^ (53 - Zpos (digits2_pos p)) /\
    1 <= Zpos (digits2_pos p) <= 53.
Proof.
  intros H. pose proof (small_digits p H) as Hd.
  pose proof (normal_form_spec p Hd) as Hn. rewrite (nearest_small p Hd).
  destruct (normal_form p) as [mz ez]. destruct Hn as (H1 & -> & H3).
  exists mz. cbn [fst snd]. repeat split; auto; lia.
Qed.

(** The digits of a product: at least the sum of the digits less one. *)
Lemma digits2_pos_mul (a b : positive) :
  Zpos (digits2_pos a) + Zpos (digits2_pos b) - 1 <= Zpos (digits2_pos (a * b)) <=
    Zpos (digits2_pos a) + Zpos (digits2_pos b).
Proof.
  pose proof (digits2_pos_bounds a) as [La Ua].
  pose proof (digits2_pos_bounds b) as [Lb Ub].
  pose proof (digits2_pos_bounds (a * b)) as [Lc Uc].
  rewrite Pos2Z.inj_mul in Lc, Uc.
  set (da := Zpos (digits2_pos a)) in *. set (db := Zpos (digits2_pos b)) in *.
  set (dc := Zpos (digits2_pos (a * b))) in *.
  assert (Hda : 1 <= da) by (subst da; lia). assert (Hdb : 1 <= db) by (subst db; lia).
  assert (Hdc : 1 <= dc) by (subst dc; lia).
  assert (P1 : 2 ^ (da - 1) * 2 ^ (db - 1) = 2 ^ (da + db - 2)).
  { rewrite <- Z.pow_add_r by lia. f_equal. lia. }
  assert (P2 : 2 ^ da * 2 ^ db = 2 ^ (da + db)).
  { rewrite <- Z.pow_add_r by lia. reflexivity. }
  assert (Hlo : 2 ^ (da + db - 2) < 2 ^ dc) by nia.
  assert (Hhi : 2 ^ (dc - 1) < 2 ^ (da + db)) by nia.
  apply Z.pow_lt_mono_r_iff in Hlo; [|lia|lia].
  apply Z.pow_lt_mono_r_iff in Hhi; [|lia|lia].
  lia.
Qed.

(** The product of two integers is exact when it is below [2 ^ 53]. *)
Lemma mul_nearest_small (a b : positive) :
  Zpos a * Zpos b < 2 ^ 53 ->
  PyFloat.mul (PyFloat.nearest (Zpos a)) (PyFloat.nearest (Zpos b)) =
    PyFloat.nearest (Zpos (a * b)).
Proof.
  intros H.
  assert (Ha : Zpos a < 2 ^ 53) by nia. assert (Hb : Zpos b < 2 ^ 53) by nia.
  assert (Hab : Zpos (a * b) < 2 ^ 53) by (rewrite Pos2Z.inj_mul; exact H).
  destruct (nearest_canonical a Ha) as (ca & -> & Da & Va & Ra).
  destruct (nearest_canonical b Hb) as (cb & -> & Db & Vb & Rb).
  destruct (nearest_canonical (a * b) Hab) as (c & -> & Dc & Vc & Rc).
  pose proof (digits2_pos_mul a b) as Hm.
  set (da := Zpos (digits2_pos a)) in *. set (db := Zpos (digits2_pos b)) in *.
  set (dc := Zpos (digits2_pos (a * b))) in *.
  unfold PyFloat.mul, SFmul. cbn [xorb].
  replace (Zpos (ca * cb)) with (Zpos c * 2 ^ (53 + dc - da - db)).
  - rewrite binary_round_aux_exact by (auto; lia). f_equal. lia.
  - rewrite Pos2Z.inj_mul, Va, Vb, Vc, Pos2Z.inj_mul.
    replace (Zpos a * Zpos b * 2 ^ (53 - dc) * 2 ^ (53 + dc - da - db))
      with (Zpos a * Zpos b * (2 ^ (53 - dc) * 2 ^ (53 + dc - da - db))) by ring.
    rewrite <- Z.pow_add_r by lia.
    replace (Zpos a * 2 ^ (53 - da) * (Zpos b * 2 ^ (53 - db)))
      with (Zpos a * Zpos b * (2 ^ (53 - da) * 2 ^ (53 - db))) by ring.
    rewrite <- Z.pow_add_r by lia. do 2 f_equal. lia.
Qed.

(** The quotient of two integers is exact when it is an integer and the
    dividend is below [2 ^ 53]. *)
Lemma div_nearest_small (a b : positive) :
  Zpos a * Zpos b < 2 ^ 53 ->
  PyFloat.div (PyFloat.nearest (Zpos (a * b))) (PyFloat.nearest (Zpos b)) =
    PyFloat.nearest (Zpos a).
Proof.
  intros H.
  assert (Ha : Zpos a < 2 ^ 53) by nia. assert (Hb : Zpos b < 2 ^ 53) by nia.
  assert (Hab : Zpos (a * b) < 2 ^ 53) by (rewrite Pos2Z.inj_mul; exact H).
  destruct (nearest_canonical a Ha) as (ca & -> & Da & Va & Ra).
  destruct (nearest_canonical b Hb) as (cb & -> & Db & Vb & Rb).
  destruct (nearest_canonical (a * b) Hab) as (c & -> & Dc & Vc & Rc).
  pose proof (digits2_pos_mul a b) as Hm.
  set (da := Zpos (digits2_pos a)) in *. set (db := Zpos (digits2_pos b)) in *.
  set (dc := Zpos (digits2_pos (a * b))) in *.
  unfold PyFloat.div, SFdiv, SFdiv_core_binary, Zdigits2, fexp, emin,
    PyFloat.prec, PyFloat.emax.
  cbn [xorb]. rewrite Dc, Db.
  replace (Z.min (Z.max (53 + (dc - 53) - (53 + (db - 53)) - 53) (3 - 1024 - 53))
             (dc - 53 - (db - 53)))
    with (dc - db - 53) by lia.
  replace (dc - 53 - (db - 53) - (dc - db - 53)) with 53 by lia.
  cbv iota. rewrite Z.shiftl_mul_pow2 by lia.
  assert (Hq : Zpos c * 2 ^ 53 = Zpos ca * 2 ^ (da + db - dc) * Zpos cb).
  { rewrite Va, Vb, Vc, Pos2Z.inj_mul.
    replace (Zpos a * Zpos b * 2 ^ (53 - dc) * 2 ^ 53)
      with (Zpos a * Zpos b * (2 ^ (53 - dc) * 2 ^ 53)) by ring.
    rewrite <- Z.pow_add_r by lia.
    replace (Zpos a * 2 ^ (53 - da) * 2 ^ (da + db - dc) * (Zpos b * 2 ^ (53 - db)))
      with (Zpos a * Zpos b * (2 ^ (53 - da) * 2 ^ (da + db - dc) * 2 ^ (53 - db))) by ring.
    rewrite <- !Z.pow_add_r by lia. do 2 f_equal. lia. }
  pose proof (Z_div_mod (Zpos c * 2 ^ 53) (Zpos cb) ltac:(lia)) as Hdm.
  change IntDef.Z.div_eucl with Z.div_eucl.
  destruct (Z.div_eucl (Zpos c * 2 ^ 53) (Zpos cb)) as [q r]. destruct Hdm as [Hdm Hr].
  assert (Hr0 : r = 0).
  { pose proof (Z.mod_unique_pos _ _ q r Hr Hdm) as Hr'.
    rewrite Hq, Z.mod_mul in Hr' by lia. exact Hr'. }
  subst r.
  assert (Hqv : q = Zpos ca * 2 ^ (da + db - dc)) by nia.
  subst q.
  replace (new_location (Zpos cb) 0) with loc_Exact
    by (unfold new_location; destruct (IntDef.Z.even (Zpos cb)); reflexivity).
  rewrite binary_round_aux_exact by (auto; lia). f_equal. lia.
Qed.

(** [int] of the double of an integer below [2 ^ 53] is that integer. *)
Lemma to_int_nearest_small (n : Z) :
  0 <= n < 2 ^ 53 -> PyFloat.to_int (PyFloat.nearest n) = ok n.
Proof.
  intros H. destruct n as [|p|p]; [reflexivity| |lia].
  destruct (nearest_canonical p ltac:(lia)) as (c & -> & Dc & Vc & Rc).
  unfold PyFloat.to_int.
  destruct (Zpos (digits2_pos p) - 53) as [|e|e] eqn:E; f_equal.
  - rewrite Vc. replace (53 - Zpos (digits2_pos p)) with 0 by lia. lia.
  - lia.
  - rewrite Z.shiftr_div_pow2 by lia. rewrite Vc.
    replace (- Zneg e) with (53 - Zpos (digits2_pos p)) by lia.
    apply Z.div_mul. apply Z.pow_nonzero; lia.
Qed.

Lemma of_int_small (n : Z) :
  0 <= n < 2 ^ 53 -> PyFloat.of_int n = ok (PyFloat.nearest n).
Proof.
  intros H. unfold PyFloat.of_int. destruct n as [|p|p]; [reflexivity| |lia].
  destruct (nearest_canonical p ltac:(lia)) as (c & -> & _). reflexivity.
Qed.

End ExactArithmetic.

Section WholeAmounts.

(** A whole number [k] of tokens, with [k * 10 ^ decimals] below
    [2 ^ 53], is exactly [k * 10 ^ decimals] on-chain units. *)
Lemma to_decimals_whole (decimals : N) (k : Z) :
  1 <= k -> k * 10 ^ Z.of_N decimals < 2 ^ 53 ->
  to_decimals (PyFloat.nearest k) decimals = ok (PyFloat.str (k * 10 ^ Z.of_N decimals)).
Proof.
  intros Hk H.
  assert (Hp : 0 < 10 ^ Z.of_N decimals) by (apply Z.pow_pos_nonneg; lia).
  destruct k as [|a|a]; [lia| |lia].
  destruct (10 ^ Z.of_N decimals) as [|b|b] eqn:Eb; [lia| |lia].
  assert (Hb : Zpos b < 2 ^ 53) by nia.
  unfold to_decimals, PyFloat.mul_int. rewrite Eb, of_int_small by lia.
  cbn [rbind ok]. rewrite mul_nearest_small by exact H.
  rewrite to_int_nearest_small by (rewrite Pos2Z.inj_mul; lia).
  cbn [rbind ok]. now rewrite Pos2Z.inj_mul.
Qed.

Lemma from_decimals_whole (decimals : N) (k : Z) :
  1 <= k -> k * 10 ^ Z.of_N decimals < 2 ^ 53 ->
  from_decimals (PyFloat.str (k * 10 ^ Z.of_N decimals)) decimals = ok (PyFloat.nearest k).
Proof.
  intros Hk H.
  assert (Hp : 0 < 10 ^ Z.of_N decimals) by (apply Z.pow_pos_nonneg; lia).
  destruct k as [|a|a]; [lia| |lia].
  destruct (10 ^ Z.of_N decimals) as [|b|b] eqn:Eb; [lia| |lia].
  assert (Hb : Zpos b < 2 ^ 53) by nia.
  unfold from_decimals, PyFloat.truediv_int. rewrite of_str_str, Eb.
  cbn [rbind ok]. rewrite of_int_small by lia. cbn [rbind ok].
  unfold PyFloat.truediv.
  destruct (nearest_canonical b Hb) as (cb & Eq & _).
  rewrite Eq at 1. cbn [PyFloat.is_zero].
  rewrite <- Pos2Z.inj_mul. now rewrite div_nearest_small by exact H.
Qed.

End WholeAmounts.

(** X1. Whole amounts convert exactly. An amount that is a whole number [k]
    of tokens, with [k * 10 ^ decimals] below [2 ^ 53], becomes exactly
    [k * 10 ^ decimals] on-chain units, and those units become exactly [k]
    again. *)
Theorem whole_amounts_convert_exactly (decimals : N) (k : Z) :
  1 <= k -> k * 10 ^ Z.of_N decimals < 2 ^ 53 ->
  to_decimals (PyFloat.nearest k) decimals = ok (PyFloat.str (k * 10 ^ Z.of_N decimals)) /\
  from_decimals (PyFloat.str (k * 10 ^ Z.of_N decimals)) decimals = ok (PyFloat.nearest k).
Proof.
  intros Hk H. split.
  - now apply to_decimals_whole.
  - now apply from_decimals_whole.
Qed.

Lemma whole_amounts_convert_exactly_witness :
  to_decimals (PyFloat.nearest 3) 8 = ok (PyFloat.str (3 * 10 ^ Z.of_N 8)) /\
  from_decimals (PyFloat.str (3 * 10 ^ Z.of_N 8)) 8 = ok (PyFloat.nearest 3).
Proof. apply (whole_amounts_convert_exactly 8 3); [lia | reflexivity]. Defined.

(** ** Amount codec: signs and decoding *)

Section CodecFacts.

Lemma nearest_pos_nonneg (p : positive) : PyFloat.nonneg (PyFloat.nearest (Zpos p)) = true.
Proof.
  unfold PyFloat.nearest, binary_normalize, binary_round.
  destruct (shl_align _ _ _) as [mz ez].
  pose proof (binary_round_aux_sign false (Zpos mz) ez loc_Exact ltac:(lia)) as H.
  destruct (binary_round_aux _ _ _ _ _ _) as [s|s| |s m e]; simpl; subst; easy.
Qed.

(** The product of two non-negative floats is NaN or non-negative. *)
Lemma mul_nonneg (x y : float) :
  PyFloat.nonneg x = true -> PyFloat.nonneg y = true ->
  PyFloat.is_nan (PyFloat.mul x y) = true \/ PyFloat.nonneg (PyFloat.mul x y) = true.
Proof.
  destruct x as [[]|[]| |[] mx ex]; simpl; try discriminate;
    destruct y as [[]|[]| |[] my ey]; simpl; try discriminate; auto.
  intros _ _. right. unfold PyFloat.mul, SFmul. cbn [xorb].
  pose proof (binary_round_aux_sign false (Zpos (mx * my)) (ex + ey) loc_Exact ltac:(lia)) as H.
  destruct (binary_round_aux _ _ _ _ _ _) as [s|s| |s m e]; simpl; subst; easy.
Qed.

(** [int] of a non-negative float that has one is not negative. *)
Lemma to_int_nonneg (x : float) (n : Z) :
  PyFloat.nonneg x = true -> PyFloat.to_int x = ok n -> 0 <= n.
Proof.
  destruct x as [[]|[]| |[] m e]; simpl; try discriminate; intros _ H;
    apply ok_inj in H; subst n; [lia|].
  destruct e as [|e|e]; [lia| |].
  - apply Z.shiftl_nonneg. lia.
  - apply Z.shiftr_nonneg. lia.
Qed.

(** A non-negative amount gives the numeral of a non-negative integer. *)
Lemma to_decimals_nonneg (amount : float) (d : N) (units : string) :
  PyFloat.nonneg amount = true -> to_decimals amount d = ok units ->
  exists n, 0 <= n /\ units = PyFloat.str n.
Proof.
  intros Hx. unfold to_decimals, PyFloat.mul_int, PyFloat.of_int.
  assert (Hp : 0 < 10 ^ Z.of_N d) by (apply Z.pow_pos_nonneg; lia).
  destruct (10 ^ Z.of_N d) as [|p|p]; [lia| |lia].
  pose proof (nearest_pos_nonneg p) as Hy.
  destruct (PyFloat.nearest (Zpos p)) as [s|s| |s m e] eqn:Ey; try discriminate;
    cbn [rbind ok raise].
  - destruct (mul_nonneg amount _ Hx Hy) as [Hn|Hn];
      destruct (PyFloat.mul amount (S754_zero s)) as [s'|s'| |s' m' e'] eqn:Em;
      try discriminate; cbn [PyFloat.to_int rbind ok raise]; try discriminate;
      intros H; apply ok_inj in H; subst units; eexists; (split; [|reflexivity]).
    + lia.
    + eapply (to_int_nonneg (S754_finite s' m' e')); [exact Hn | reflexivity].
  - intros H.
    destruct (mul_nonneg amount _ Hx Hy) as [Hn|Hn];
      destruct (PyFloat.mul amount (S754_finite s m e)) as [s'|s'| |s' m' e'] eqn:Em;
      try discriminate.
    + cbn [PyFloat.to_int rbind ok raise] in H. apply ok_inj in H. subst units.
      exists 0. split; [lia | reflexivity].
    + destruct (PyFloat.to_int (S754_finite s' m' e')) as [err|n] eqn:En; [discriminate H|].
      cbn [rbind ok] in H. apply ok_inj in H. subst units.
      exists n. split; [|reflexivity]. eapply to_int_nonneg; eauto.
Qed.

(** The quotient of a float that is no NaN by a finite float that is not
    zero is no NaN. *)
Lemma div_not_nan (x : float) (s : bool) (m : positive) (e : Z) :
  PyFloat.is_nan x = false -> PyFloat.is_nan (PyFloat.div x (S754_finite s m e)) = false.
Proof.
  destruct x as [sx|sx| |sx mx ex]; try discriminate; intros _; try reflexivity.
  unfold PyFloat.div, SFdiv.
  destruct (SFdiv_core_binary _ _ _ _ _ _) as [[mz ez] lz] eqn:E.
  assert (Hmz : 0 <= mz).
  { unfold SFdiv_core_binary in E.
    set (m' := match _ with 0 => Zpos mx | Zpos _ => _ | Zneg _ => 0 end) in E.
    assert (Hm' : 0 <= m').
    { subst m'. destruct (_ - _ - _); [lia| |lia]. apply Z.shiftl_nonneg. lia. }
    change IntDef.Z.div_eucl with Z.div_eucl in E.
    pose proof (Z_div_mod m' (Zpos m) ltac:(lia)) as Hdm.
    destruct (Z.div_eucl m' (Zpos m)) as [q r]. injection E as <- _ _.
    destruct Hdm as [Hdm Hr]. nia. }
  pose proof (binary_round_aux_sign (xorb sx s) mz ez lz Hmz) as H.
  destruct (binary_round_aux _ _ _ _ _ _); easy.
Qed.

(** Whatever the encoder returns, the decoder reads. *)
Lemma from_decimals_of_to_decimals (d : N) (s : bool) (m : positive) (e : Z)
  (amount : float) (units : string) :
  PyFloat.of_int (10 ^ Z.of_N d) = ok (S754_finite s m e) ->
  to_decimals amount d = ok units ->
  exists n back,
    units = PyFloat.str n /\ from_decimals units d = ok back /\
    back = PyFloat.div (PyFloat.nearest n) (S754_finite s m e) /\
    PyFloat.is_nan back = false.
Proof.
  intros Hy H. unfold to_decimals, rbind in H.
  destruct (PyFloat.mul_int amount _) as [err|scaled]; [discriminate H|].
  destruct (PyFloat.to_int scaled) as [err|n]; [discriminate H|].
  apply ok_inj in H. subst units.
  exists n, (PyFloat.div (PyFloat.nearest n) (S754_finite s m e)).
  split; [reflexivity|]. split; [|split; [reflexivity|]].
  - unfold from_decimals, PyFloat.truediv_int. rewrite of_str_str, Hy. reflexivity.
  - apply div_not_nan, binary_normalize_not_nan.
Qed.

End CodecFacts.

(** X2. For a registered asset, every amount string that [to_decimals] returns
    is read back by [from_decimals]: the decoding neither raises nor yields
    a NaN, and a non-negative amount gives the numeral of a non-negative
    integer. *)
Theorem encoded_amounts_decode (token : string) (a : Asset) (amount : float) (units : string) :
  ASSET_MAP !! token = Some a ->
  to_decimals amount (decimals a) = ok units ->
  exists n back,
    units = PyFloat.str n /\
    from_decimals units (decimals a) = ok back /\
    PyFloat.is_nan back = false /\
    (PyFloat.nonneg amount = true -> 0 <= n).
Proof.
  intros Ha H.
  assert (Hy : exists s m e, PyFloat.of_int (10 ^ Z.of_N (decimals a)) = ok (S754_finite s m e)).
  { destruct (registered_cases _ _ Ha) as [-> | [-> | ->]];
      vm_compute in Ha; injection Ha as <-; vm_compute; eauto. }
  destruct Hy as (s & m & e & Hy).
  destruct (from_decimals_of_to_decimals _ _ _ _ _ _ Hy H) as (n & back & -> & Hb & _ & Hn).
  exists n, back. repeat split; auto.
  intros Hx. destruct (to_decimals_nonneg _ _ _ Hx H) as (n' & Hn' & E).
  pose proof (f_equal PyFloat.parse_integer E) as P. rewrite !parse_integer_str in P.
  injection P as P1 P2. lia.
Qed.

Lemma encoded_amounts_decode_witness :
  exists n back,
    to_decimals ScenarioA.half 24 = ok (PyFloat.str n) /\
    from_decimals (PyFloat.str n) 24 = ok back /\
    PyFloat.is_nan back = false.
Proof.
  pose (a := {| token_id := "wrap.near"; omft := None; decimals := 24; shielded := false |}).
  assert (Ha : ASSET_MAP !! "NEAR" = Some a) by (vm_compute; reflexivity).
  assert (Hu : to_decimals ScenarioA.half (decimals a) = ok "499999999999999991611392")
    by (vm_compute; reflexivity).
  destruct (encoded_amounts_decode "NEAR" a ScenarioA.half _ Ha Hu)
    as (n & back & H1 & H2 & H3 & _).
  exists n, back. rewrite <- H1. split; [exact Hu|]. split; [exact H2 | exact H3].
Defined.

(** ** Asset identifiers, setters and selection errors *)

Section RegistryFacts.

Lemma unregistered_cases (token : string) :
  ASSET_MAP !! token = None ->
  token <> "USDC" /\ token <> "NEAR" /\ token <> "ZEC".
Proof.
  intros H. repeat split; intros ->; vm_compute in H; discriminate H.
Qed.

(** The identifier of a registered symbol. *)
Lemma get_asset_id_registered (token : string) (a : Asset) :
  ASSET_MAP !! token = Some a ->
  get_asset_id token =
    ok (if String.eqb token "NEAR" then "near" else "nep141:" +:+ token_id a).
Proof.
  intros H. destruct (registered_cases _ _ H) as [-> | [-> | ->]];
    vm_compute in H; injection H as <-; reflexivity.
Qed.

Lemma get_asset_id_unregistered (token : string) :
  ASSET_MAP !! token = None -> get_asset_id token = raise (KeyError token).
Proof.
  intros H. destruct (unregistered_cases _ H) as (N1 & N2 & N3).
  unfold get_asset_id, getitem.
  apply String.eqb_neq in N1, N2, N3. rewrite N1, N2, N3, H. reflexivity.
Qed.

End RegistryFacts.

(** X3. [get_asset_id] gives NEAR the native identifier and every other
    registered symbol ["nep141:"] followed by the token id of the registry,
    the hard-coded identifier of USDC included; it raises [KeyError] for a
    symbol outside the registry; and no two symbols share an identifier. *)
Theorem get_asset_id_follows_registry :
  (forall token a, ASSET_MAP !! token = Some a ->
     get_asset_id token =
       ok (if String.eqb token "NEAR" then "near" else "nep141:" +:+ token_id a)) /\
  (forall token, ASSET_MAP !! token = None -> get_asset_id token = raise (KeyError token)) /\
  (forall t1 t2 id, get_asset_id t1 = ok id -> get_asset_id t2 = ok id -> t1 = t2).
Proof.
  split; [exact get_asset_id_registered|]. split; [exact get_asset_id_unregistered|].
  intros t1 t2 id H1 H2.
  destruct (ASSET_MAP !! t1) as [a1|] eqn:E1;
    [|rewrite (get_asset_id_unregistered _ E1) in H1; discriminate H1].
  destruct (ASSET_MAP !! t2) as [a2|] eqn:E2;
    [|rewrite (get_asset_id_unregistered _ E2) in H2; discriminate H2].
  exact (get_asset_id_inj t1 t2 a1 a2 id E1 E2 H1 H2).
Qed.

Section RequestFacts.

(** Every way [set_asset_in] can end. *)
Lemma set_asset_in_cases (self : IntentRequest) (asset_name : string) (amount : float) :
  match ASSET_MAP !! asset_name with
  | None => set_asset_in self asset_name amount = (self, raise (unsupported_asset asset_name))
  | Some a =>
      exists id, get_asset_id asset_name = ok id /\
        set_asset_in self asset_name amount =
          match to_decimals amount (decimals a) with
          | inl e => (with_request self (<["assetIn" := id]> (request self)), inl e)
          | inr units =>
              (with_request self
                 (<["amountIn" := units]> (<["assetIn" := id]> (request self))), ok tt)
          end
  end.
Proof.
  unfold set_asset_in. destruct (ASSET_MAP !! asset_name) as [a|] eqn:E; [|reflexivity].
  rewrite (get_asset_id_registered _ _ E). eexists. split; [reflexivity|].
  destruct (to_decimals amount (decimals a)); reflexivity.
Qed.

Lemma set_asset_out_cases (self : IntentRequest) (asset_name : string)
  (amount : option float) :
  match ASSET_MAP !! asset_name with
  | None => set_asset_out self asset_name amount = (self, raise (unsupported_asset asset_name))
  | Some a =>
      exists id, get_asset_id asset_name = ok id /\
        set_asset_out self asset_name amount =
          match amount with
          | None => (with_request self (<["assetOut" := id]> (request self)), ok tt)
          | Some x =>
              match to_decimals x (decimals a) with
              | inl e => (with_request self (<["assetOut" := id]> (request self)), inl e)
              | inr units =>
                  (with_request self
                     (<["amountOut" := units]> (<["assetOut" := id]> (request self))), ok tt)
              end
          end
  end.
Proof.
  unfold set_asset_out. destruct (ASSET_MAP !! asset_name) as [a|] eqn:E; [|reflexivity].
  rewrite (get_asset_id_registered _ _ E). eexists. split; [reflexivity|].
  destruct amount as [x|]; [destruct (to_decimals x (decimals a))|]; reflexivity.
Qed.

End RequestFacts.

(** X4. Setters, then [serialize]. On any request, whatever it held before,
    once [set_asset_in] and [set_asset_out] have returned, [serialize]
    returns the identifiers of the two symbols given last and the input
    amount in on-chain units, with the relative deadline of the request. The
    output amount is the one given to [set_asset_out]; when none is given,
    an output amount stored earlier stays in the request. *)
Theorem serialize_after_setters
  (self r1 r2 : IntentRequest) (token_in token_out : string) (amount_in : float)
  (amount_out : option float) :
  set_asset_in self token_in amount_in = (r1, ok tt) ->
  set_asset_out r1 token_out amount_out = (r2, ok tt) ->
  exists a_in a_out id_in id_out units_in,
    ASSET_MAP !! token_in = Some a_in /\ ASSET_MAP !! token_out = Some a_out /\
    get_asset_id token_in = ok id_in /\ get_asset_id token_out = ok id_out /\
    to_decimals amount_in (decimals a_in) = ok units_in /\
    exists out,
      serialize r2 =
        ok {| assets_in := id_in;
              assets_out := id_out;
              amounts_in := units_in;
              amounts_out := out;
              deadline_type := "relative";
              deadline_ms := min_deadline_ms self;
              slippage := request self !! "slippage" |} /\
      match amount_out with
      | Some x => exists units_out,
          to_decimals x (decimals a_out) = ok units_out /\ out = Some units_out
      | None => out = request self !! "amountOut"
      end.
Proof.
  intros H1 H2.
  pose proof (set_asset_in_cases self token_in amount_in) as C1.
  destruct (ASSET_MAP !! token_in) as [a_in|] eqn:E1;
    [|rewrite C1 in H1; discriminate H1].
  destruct C1 as (id_in & I1 & C1). rewrite C1 in H1.
  destruct (to_decimals amount_in (decimals a_in)) as [e|units_in] eqn:U1; [discriminate H1|].
  apply (f_equal fst) in H1. cbn [fst] in H1. subst r1.
  pose proof (set_asset_out_cases
                (with_request self (<["amountIn" := units_in]> (<["assetIn" := id_in]> (request self))))
                token_out amount_out) as C2.
  destruct (ASSET_MAP !! token_out) as [a_out|] eqn:E2;
    [|rewrite C2 in H2; discriminate H2].
  destruct C2 as (id_out & I2 & C2). rewrite C2 in H2.
  exists a_in, a_out, id_in, id_out, units_in. repeat (split; [reflexivity || assumption|]).
  destruct amount_out as [x|].
  - destruct (to_decimals x (decimals a_out)) as [e|units_out] eqn:U2; [discriminate H2|].
    apply (f_equal fst) in H2. cbn [fst] in H2. subst r2.
    exists (Some units_out). split; [|eauto].
    unfold serialize, getitem. cbn [request with_request min_deadline_ms].
    rewrite !(lookup_insert_ne _ "amountOut") by discriminate.
    rewrite !(lookup_insert_ne _ "assetOut") by discriminate.
    rewrite ?lookup_insert_eq.
    rewrite !(lookup_insert_ne _ "amountIn" "assetIn") by discriminate.
    rewrite lookup_insert_eq. cbn [rbind ok].
    rewrite !(lookup_insert_ne _ _ "amountIn") by discriminate.
    rewrite lookup_insert_eq. cbn [rbind ok].
    rewrite !(lookup_insert_ne _ _ "slippage") by discriminate. reflexivity.
  - apply (f_equal fst) in H2. cbn [fst] in H2. subst r2.
    exists (request self !! "amountOut"). split; [|reflexivity].
    unfold serialize, getitem. cbn [request with_request min_deadline_ms].
    rewrite !(lookup_insert_ne _ "assetOut") by discriminate.
    rewrite ?lookup_insert_eq.
    rewrite !(lookup_insert_ne _ "amountIn" "assetIn") by discriminate.
    rewrite lookup_insert_eq. cbn [rbind ok].
    rewrite !(lookup_insert_ne _ _ "amountIn") by discriminate.
    rewrite lookup_insert_eq. cbn [rbind ok].
    rewrite !(lookup_insert_ne _ _ "slippage") by discriminate.
    rewrite !(lookup_insert_ne _ _ "amountOut") by discriminate. reflexivity.
Qed.

Lemma serialize_after_setters_witness :
  exists out,
    serialize (run_calls [call_set_asset_in "NEAR" ScenarioA.half;
                          call_set_asset_out "ZEC" None] IntentRequest_new) =
      ok {| assets_in := "near";
            assets_out := "nep141:zcash.factory.bridge.near";
            amounts_in := "499999999999999991611392";
            amounts_out := out;
            deadline_type := "relative";
            deadline_ms := 120000;
            slippage := None |} /\
    out = None.
Proof.
  pose (r1 := fst (set_asset_in IntentRequest_new "NEAR" ScenarioA.half)).
  pose (r2 := fst (set_asset_out r1 "ZEC" None)).
  assert (H1 : set_asset_in IntentRequest_new "NEAR" ScenarioA.half = (r1, ok tt))
    by (vm_compute; reflexivity).
  assert (H2 : set_asset_out r1 "ZEC" None = (r2, ok tt)) by (vm_compute; reflexivity).
  destruct (serialize_after_setters IntentRequest_new r1 r2 "NEAR" "ZEC" ScenarioA.half None
              H1 H2)
    as (a_in & a_out & id_in & id_out & units_in & A1 & A2 & I1 & I2 & U1 & out & Hs & Ho).
  vm_compute in A1. injection A1 as <-.
  vm_compute in I1, I2, U1. apply ok_inj in I1, I2, U1. subst id_in id_out units_in.
  exists out. split; [exact Hs | exact Ho].
Defined.

(** X5. A raising [set_asset_in]. Either the symbol is outside the registry:
    the call raises the "Unsupported asset" error and leaves the request as
    it was. Or the amount does not convert (it is infinite, NaN or too
    large): the call raises the error of the conversion after it has stored
    the new asset, so the request names the new asset and keeps the amount
    it held before. *)
Theorem set_asset_in_failure
  (self r : IntentRequest) (asset_name : string) (amount : float) (e : Exn) :
  set_asset_in self asset_name amount = (r, raise e) ->
  (ASSET_MAP !! asset_name = None /\ e = unsupported_asset asset_name /\ r = self) \/
  (exists a id,
     ASSET_MAP !! asset_name = Some a /\ get_asset_id asset_name = ok id /\
     to_decimals amount (decimals a) = raise e /\
     request r !! "assetIn" = Some id /\
     request r !! "amountIn" = request self !! "amountIn" /\
     min_deadline_ms r = min_deadline_ms self).
Proof.
  intros H. pose proof (set_asset_in_cases self asset_name amount) as C.
  destruct (ASSET_MAP !! asset_name) as [a|] eqn:E.
  - right. destruct C as (id & I & C). rewrite C in H.
    destruct (to_decimals amount (decimals a)) as [e'|units] eqn:U; [|discriminate H].
    injection H as <- <-. exists a, id. cbn [request with_request min_deadline_ms].
    rewrite lookup_insert_eq, lookup_insert_ne by discriminate. auto 10.
  - left. rewrite C in H. injection H as <- <-. auto.
Qed.

Lemma set_asset_in_failure_witness :
  exists r e,
    set_asset_in (IntentRequest_init (Some Samples.prefilled) 120000) "ZEC"
      (S754_infinity false) = (r, raise e) /\
    request r !! "assetIn" = Some "nep141:zcash.factory.bridge.near" /\
    request r !! "amountIn" = Some "499999999999999991611392".
Proof.
  pose (self := IntentRequest_init (Some Samples.prefilled) 120000).
  pose (r := fst (set_asset_in self "ZEC" (S754_infinity false))).
  pose (e := OverflowError "cannot convert float infinity to integer").
  assert (H : set_asset_in self "ZEC" (S754_infinity false) = (r, raise e))
    by (vm_compute; reflexivity).
  exists r, e. split; [exact H|].
  destruct (set_asset_in_failure self r "ZEC" (S754_infinity false) e H)
    as [(A & _) | (a & id & A & I & _ & Hi & Ha & _)].
  - vm_compute in A. discriminate A.
  - vm_compute in I. apply ok_inj in I. subst id.
    split; [exact Hi|]. rewrite Ha. vm_compute. reflexivity.
Defined.

Section SelectorFacts.

Implicit Types (x y item : gmap string string) (options pre post : list (gmap string string)).

Lemma max_loop_raises pre x post :
  forall maxitem (maxval : float) (e : Exn),
    (forall y, y ∈ pre -> exists k, amount_out_key y = ok k) ->
    amount_out_key x = raise e ->
    max_loop maxitem maxval (pre ++ x :: post) = raise e.
Proof.
  induction pre as [|item pre IH]; intros maxitem maxval e Hpre Hx; cbn [app max_loop].
  - rewrite Hx. reflexivity.
  - destruct (Hpre item) as [k Hk]; [left|]. rewrite Hk. cbn [rbind ok].
    assert (Hpre' : forall y, y ∈ pre -> exists k, amount_out_key y = ok k).
    { intros y Hy. apply Hpre. now right. }
    destruct (PyFloat.gtb k maxval); now apply IH.
Qed.

End SelectorFacts.

(** X6. One quote without an [amount_out] field spoils the selection: when the
    quotes before it have numeric amounts, [select_best_option] raises the
    [KeyError] of the missing field, whatever the other quotes offer. *)
Theorem select_best_option_missing_amount
  (pre post : list (gmap string string)) (x : gmap string string) :
  (forall y, y ∈ pre -> exists k, amount_out_key y = ok k) ->
  x !! "amount_out" = None ->
  select_best_option (pre ++ x :: post) = raise (KeyError "amount_out").
Proof.
  intros Hpre Hx.
  assert (Hk : amount_out_key x = raise (KeyError "amount_out")).
  { unfold amount_out_key, getitem. rewrite Hx. reflexivity. }
  destruct pre as [|first pre]; cbn [app select_best_option].
  - rewrite Hk. reflexivity.
  - destruct (Hpre first) as [k Hf]; [left|]. rewrite Hf. cbn [rbind ok].
    apply max_loop_raises; [|exact Hk]. intros y Hy. apply Hpre. now right.
Qed.

Lemma select_best_option_missing_amount_witness :
  select_best_option ([ScenarioA.quote_15] ++ {[ "status" := "OK" ]} :: [ScenarioA.quote_12]) =
    raise (KeyError "amount_out").
Proof.
  apply (select_best_option_missing_amount [ScenarioA.quote_15] [ScenarioA.quote_12]).
  - intros y Hy. apply list_elem_of_singleton in Hy as ->. eexists. vm_compute. reflexivity.
  - vm_compute. reflexivity.
Defined.

(** ** Commitment builder: signature and lookups *)

Section BuilderFacts.

Context (lib : Libs) (amb : Ambient) (account : Account).

(** Every path through [create_shielded_token_diff_quote]. *)
Lemma create_cases (token_in : string) (amount_in : float) (token_out : string)
  (amount_out : float) (shield_options : option ShieldingOptions) (log : list Event) :
  create_shielded_token_diff_quote lib amb account token_in amount_in token_out
    amount_out shield_options log =
    match token_diff_quote lib amb account token_in amount_in token_out amount_out with
    | inl e => (raise e, log)
    | inr q =>
        (ok (commitment_of lib account q
               (default_shield_options token_in token_out shield_options)),
         (log ++ [EvSign (json_dumps lib q)])%list)
    end.
Proof.
  unfold create_shielded_token_diff_quote, commitment_of. run_m.
  destruct (token_diff_quote _ _ _ _ _ _ _) as [e|q]; [reflexivity|].
  destruct (enabled _); reflexivity.
Qed.

(** The fields of a quote that is built. *)
Lemma token_diff_quote_fields (token_in : string) (amount_in : float)
  (token_out : string) (amount_out : float) (q : Quote) :
  token_diff_quote lib amb account token_in amount_in token_out amount_out = ok q ->
  nonce q = b64encode lib (to_bytes 32 (getrandbits_256 amb)) /\
  signer_id q = account_id account /\
  verifying_contract q = "intents.near" /\
  deadline q = PyFloat.str (time_ms amb + 120000).
Proof.
  intros H. unfold token_diff_quote, rbind in H.
  destruct (get_asset_id token_in); [discriminate H|].
  destruct (getitem ASSET_MAP token_in); [discriminate H|].
  destruct (to_decimals amount_in _); [discriminate H|].
  destruct (get_asset_id token_out); [discriminate H|].
  destruct (getitem ASSET_MAP token_out); [discriminate H|].
  destruct (to_decimals amount_out _); [discriminate H|].
  apply ok_inj in H. subst q. auto.
Qed.

(** A symbol outside the registry stops the quote with its [KeyError]. *)
Lemma token_diff_quote_unregistered (token_in : string) (amount_in : float)
  (token_out : string) (amount_out : float) :
  (ASSET_MAP !! token_in = None ->
   token_diff_quote lib amb account token_in amount_in token_out amount_out =
     raise (KeyError token_in)) /\
  (forall a units,
     ASSET_MAP !! token_in = Some a -> to_decimals amount_in (decimals a) = ok units ->
     ASSET_MAP !! token_out = None ->
     token_diff_quote lib amb account token_in amount_in token_out amount_out =
       raise (KeyError token_out)).
Proof.
  unfold token_diff_quote. split.
  - intros H. rewrite (get_asset_id_unregistered _ H). reflexivity.
  - intros a units Ha Hu H.
    rewrite (get_asset_id_registered _ _ Ha). unfold getitem at 1. rewrite Ha.
    cbn [rbind ok]. rewrite Hu. cbn [rbind ok].
    rewrite (get_asset_id_unregistered _ H). reflexivity.
Qed.

End BuilderFacts.

(** X7. A commitment that [create_shielded_token_diff_quote] returns is of the
    standard raw_ed25519; its signature is the signer's signature of its
    payload and its public key the signer's, both base58 behind "ed25519:";
    the payload was signed once and nothing else was done. The payload is
    the quote of the account, for the contract intents.near, with a
    deadline two minutes after the clock. Shield options that the caller
    passes decide alone, whatever the two symbols are. *)
Theorem commitment_signs_its_payload
  (lib : Libs) (amb : Ambient) (account : Account)
  (token_in : string) (amount_in : float) (token_out : string) (amount_out : float)
  (shield_options : option ShieldingOptions) (log log' : list Event) (c : ZcashCommitment) :
  create_shielded_token_diff_quote lib amb account token_in amount_in token_out
    amount_out shield_options log = (ok c, log') ->
  standard c = "raw_ed25519" /\
  signature c = "ed25519:" +:+ b58encode lib (sign (signer account) (payload c)) /\
  public_key c = "ed25519:" +:+ b58encode lib (signer_public_key (signer account)) /\
  log' = (log ++ [EvSign (payload c)])%list /\
  (exists q,
     payload c = json_dumps lib q /\
     signer_id q = account_id account /\
     verifying_contract q = "intents.near" /\
     deadline q = PyFloat.str (time_ms amb + 120000) /\
     nonce q = b64encode lib (to_bytes 32 (getrandbits_256 amb))) /\
  (forall o, shield_options = Some o ->
     shield_params c =
       if enabled o
       then Some {| sp_shielded := true; sp_memo := memo o; sp_viewing_key := viewing_key o |}
       else None).
Proof.
  rewrite create_cases.
  destruct (token_diff_quote _ _ _ _ _ _ _) as [e|q] eqn:Hq; [discriminate|].
  intros H. injection H as <- <-.
  destruct (token_diff_quote_fields _ _ _ _ _ _ _ _ Hq) as (F1 & F2 & F3 & F4).
  cbn [standard signature public_key payload shield_params commitment_of].
  repeat split; eauto 10.
  intros o ->. reflexivity.
Qed.

Lemma commitment_signs_its_payload_witness :
  exists c : ZcashCommitment,
    fst (create_shielded_token_diff_quote ScenarioA.lib ScenarioA.amb ScenarioA.account
           "NEAR" ScenarioA.half "USDC" (PyFloat.nearest 2)
           (Some {| enabled := true; memo := Some "gift"; viewing_key := None |}) []) = ok c /\
    signature c =
      "ed25519:" +:+ b58encode ScenarioA.lib (sign (signer ScenarioA.account) (payload c)) /\
    shield_params c =
      Some {| sp_shielded := true; sp_memo := Some "gift"; sp_viewing_key := None |}.
Proof.
  set (o := {| enabled := true; memo := Some "gift"; viewing_key := None |}).
  destruct (create_shielded_token_diff_quote ScenarioA.lib ScenarioA.amb ScenarioA.account
              "NEAR" ScenarioA.half "USDC" (PyFloat.nearest 2) (Some o) [])
    as [[e|c] log'] eqn:R; [vm_compute in R; discriminate R|].
  exists c. split; [reflexivity|].
  destruct (commitment_signs_its_payload _ _ _ _ _ _ _ _ _ _ _ R)
    as (_ & Hs & _ & _ & _ & Ho).
  split; [exact Hs | exact (Ho o eq_refl)].
Defined.

(** X8. [create_shielded_token_diff_quote] does not screen its symbols: one
    outside the registry raises the [KeyError] of the lookup, the input
    symbol first, and nothing is signed. *)
Theorem create_with_unregistered_symbol
  (lib : Libs) (amb : Ambient) (account : Account)
  (token_in : string) (amount_in : float) (token_out : string) (amount_out : float)
  (shield_options : option ShieldingOptions) (log : list Event) :
  (ASSET_MAP !! token_in = None ->
   create_shielded_token_diff_quote lib amb account token_in amount_in token_out
     amount_out shield_options log = (raise (KeyError token_in), log)) /\
  (forall a units,
     ASSET_MAP !! token_in = Some a -> to_decimals amount_in (decimals a) = ok units ->
     ASSET_MAP !! token_out = None ->
     create_shielded_token_diff_quote lib amb account token_in amount_in token_out
       amount_out shield_options log = (raise (KeyError token_out), log)).
Proof.
  rewrite create_cases.
  destruct (token_diff_quote_unregistered lib amb account token_in amount_in token_out
              amount_out) as [H1 H2].
  split.
  - intros H. rewrite (H1 H). reflexivity.
  - intros a units Ha Hu H. rewrite (H2 a units Ha Hu H). reflexivity.
Qed.

Lemma create_with_unregistered_symbol_witness :
  ASSET_MAP !! "BTC" = None /\
  create_shielded_token_diff_quote ScenarioA.lib ScenarioA.amb ScenarioA.account
    "BTC" ScenarioA.half "ZEC" (PyFloat.nearest 1) None [] = (raise (KeyError "BTC"), []).
Proof.
  assert (H : ASSET_MAP !! "BTC" = None) by (vm_compute; reflexivity).
  split; [exact H|].
  exact (proj1 (create_with_unregistered_symbol ScenarioA.lib ScenarioA.amb ScenarioA.account
                  "BTC" ScenarioA.half "ZEC" (PyFloat.nearest 1) None []) H).
Defined.

(** ** Quote fetcher and swap orchestrator: runs *)

(** X9. [fetch_options], path by path. A request that does not serialize is
    not sent: the call returns the empty list and posts nothing. A list
    that is not empty comes from the relay: the request was posted once,
    the relay answered with a success status and that list. A response
    without a result gives the empty list. *)
Theorem fetch_options_answers (relay : Relay) (request : IntentRequest) (log : list Event) :
  (forall e, serialize request = raise e -> fetch_options relay request log = (ok [], log)) /\
  (forall options,
     fst (fetch_options relay request log) = ok options -> options <> [] ->
     exists params r,
       serialize request = ok params /\
       getQuotes relay params = PostReturns r /\
       raise_for_status r = None /\ json_result r = ok options /\
       snd (fetch_options relay request log) =
         (log ++ [EvPost (intents_getQuotes params)])%list) /\
  (forall params r e,
     serialize request = ok params -> getQuotes relay params = PostReturns r ->
     json_result r = raise e ->
     fetch_options relay request log = (ok [], (log ++ [EvPost (intents_getQuotes params)])%list)).
Proof.
  rewrite fetch_options_cases. split; [|split].
  - intros e ->. reflexivity.
  - intros options. destruct (serialize request) as [e|params]; cbn [fst snd].
    + intros H Hne. apply ok_inj in H. congruence.
    + destruct (getQuotes relay params) as [e|r] eqn:Eq.
      * intros H Hne. apply ok_inj in H. congruence.
      * destruct (raise_for_status r) as [e|] eqn:Es.
        -- intros H Hne. apply ok_inj in H. congruence.
        -- destruct (json_result r) as [e|options'] eqn:Ej.
           ++ intros H Hne. apply ok_inj in H. congruence.
           ++ intros H _. apply ok_inj in H. subst options'. exists params, r. auto.
  - intros params r e Hs Hq Hj. rewrite Hs. cbv beta iota delta [ok raise] in *. rewrite Hq, Hj.
    destruct (raise_for_status r); reflexivity.
Qed.

Lemma fetch_options_answers_witness :
  serialize IntentRequest_new = raise (KeyError "assetIn") /\
  fetch_options ScenarioA.relay IntentRequest_new [] = (ok [], []).
Proof.
  assert (H : serialize IntentRequest_new = raise (KeyError "assetIn"))
    by (vm_compute; reflexivity).
  split; [exact H|].
  exact (proj1 (fetch_options_answers ScenarioA.relay IntentRequest_new []) _ H).
Defined.

Section SwapFacts.

Context (lib : Libs) (relay : Relay) (amb : Ambient) (account : Account).

Lemma max_loop_key_ok (rest : list (gmap string string)) :
  forall (maxitem best : gmap string string) (maxval : float),
    amount_out_key maxitem = ok maxval ->
    max_loop maxitem maxval rest = ok best ->
    exists k, amount_out_key best = ok k.
Proof.
  induction rest as [|item rest IH]; intros maxitem best maxval Hm H; cbn [max_loop] in H.
  - apply ok_inj in H. subst best. eauto.
  - destruct (amount_out_key item) as [e|val] eqn:Hv; [discriminate H|].
    cbn [rbind] in H. destruct (PyFloat.gtb val maxval); eauto.
Qed.

(** The quote that is selected has a numeric amount. *)
Lemma select_best_option_key_ok (options : list (gmap string string))
  (best : gmap string string) :
  select_best_option options = ok best -> exists k, amount_out_key best = ok k.
Proof.
  destruct options as [|first rest]; [discriminate|]. cbn [select_best_option].
  destruct (amount_out_key first) as [e|k] eqn:Hk; [discriminate|].
  cbn [rbind]. eauto using max_loop_key_ok.
Qed.

(** Every run of [intent_swap_zec] is one of the five of [SwapRun]. *)
Lemma intent_swap_zec_run (token_in : string) (amount_in : float)
  (token_out privacy_level : string) (log : list Event) :
  exists outcome evs,
    intent_swap_zec lib relay amb account token_in amount_in token_out privacy_level log =
      (outcome, (log ++ evs)%list) /\
    SwapRun lib relay amb account token_in amount_in token_out privacy_level outcome evs.
Proof.
  unfold intent_swap_zec. run_m.
  destruct (build_request token_in amount_in token_out) as [e|request] eqn:Hb.
  { exists (raise e), []. rewrite app_nil_r. split; [reflexivity|]. now constructor. }
  destruct (build_request_serializes _ _ _ _ Hb) as [params Hp].
  set (options := match getQuotes relay params with
                  | PostRaises _ => []
                  | PostReturns r =>
                      match raise_for_status r, json_result r with
                      | None, inr options => options
                      | _, _ => []
                      end
                  end).
  assert (Hf : forall l, fetch_options relay request l =
                 (ok options, (l ++ [EvPost (intents_getQuotes params)])%list)).
  { intros l. rewrite fetch_options_cases, Hp. reflexivity. }
  assert (Hf0 : fst (fetch_options relay request []) = ok options) by now rewrite Hf.
  rewrite Hf. clearbody options. run_m.
  destruct options as [|o1 rest] eqn:Ho.
  { exists (raise (no_swap_options token_in token_out)), [EvPost (intents_getQuotes params)].
    split; [reflexivity|]. econstructor; eauto. }
  destruct (select_best_option (o1 :: rest)) as [e|best] eqn:Hs.
  { exists (raise e), [EvPost (intents_getQuotes params)].
    split; [reflexivity|]. eapply run_bad_quotes; eauto. }
  destruct (select_best_option_key_ok _ _ Hs) as [k Hk]. rewrite Hk. run_m.
  fold (swap_shield_options privacy_level token_in token_out).
  rewrite create_cases.
  destruct (token_diff_quote lib amb account token_in amount_in token_out k) as [e|q] eqn:Hq.
  { exists (raise e), [EvPost (intents_getQuotes params)].
    split; [reflexivity|]. eapply run_bad_amount; eauto. }
  run_m. rewrite publish_shielded_intent_cases. cbn [default_shield_options].
  set (c := commitment_of lib account q (swap_shield_options privacy_level token_in token_out)).
  eexists _, [EvPost (intents_getQuotes params); EvSign (payload c);
              EvPost (intents_publishIntent c)].
  split.
  - rewrite <- !app_assoc. reflexivity.
  - eapply run_published; eauto.
Qed.

End SwapFacts.

(** X10. What a swap does, in order. Whatever its arguments and whatever the
    relay answers, a run of [intent_swap_zec] does nothing at all, or only
    posts the quote request, or posts the quote request, signs one payload
    and publishes the commitment of that very payload, signed by the
    account. It returns a result only in the last case, and the result is
    the one the relay gave to the publication. *)
Theorem swap_effects_in_order
  (lib : Libs) (relay : Relay) (amb : Ambient) (account : Account)
  (token_in : string) (amount_in : float) (token_out privacy_level : string)
  (log : list Event) :
  exists evs,
    snd (intent_swap_zec lib relay amb account token_in amount_in token_out
           privacy_level log) = (log ++ evs)%list /\
    (evs = [] \/
     (exists params, evs = [EvPost (intents_getQuotes params)]) \/
     (exists params c,
        evs = [EvPost (intents_getQuotes params); EvSign (payload c);
               EvPost (intents_publishIntent c)] /\
        signature c = "ed25519:" +:+ b58encode lib (sign (signer account) (payload c)))) /\
    (forall v,
       fst (intent_swap_zec lib relay amb account token_in amount_in token_out
              privacy_level log) = ok v ->
       exists params c r,
         evs = [EvPost (intents_getQuotes params); EvSign (payload c);
                EvPost (intents_publishIntent c)] /\
         publishIntent relay c = PostReturns r /\
         raise_for_status r = None /\ json_result r = ok v).
Proof.
  destruct (intent_swap_zec_run lib relay amb account token_in amount_in token_out
              privacy_level log) as (outcome & evs & -> & R).
  exists evs. cbn [fst snd]. split; [reflexivity|].
  destruct R; (split; [|intros v Hv; try discriminate Hv]); eauto.
  - right. right. exists params, c. split; [reflexivity|]. subst c. reflexivity.
  - subst outcome. exists params, c.
    destruct (publishIntent relay c) as [e|r]; [discriminate Hv|].
    destruct (raise_for_status r) as [e|] eqn:Es; [discriminate Hv|]. eauto.
Qed.

(** X11. A swap of a symbol outside the registry stops at the request builder:
    [intent_swap_zec] raises the "Unsupported asset" error of the symbol,
    the input symbol first, and nothing is posted or signed. *)
Theorem swap_rejects_unsupported_symbols
  (lib : Libs) (relay : Relay) (amb : Ambient) (account : Account)
  (token_in : string) (amount_in : float) (token_out privacy_level : string)
  (log : list Event) :
  (ASSET_MAP !! token_in = None ->
   intent_swap_zec lib relay amb account token_in amount_in token_out privacy_level log =
     (raise (unsupported_asset token_in), log)) /\
  (forall a units,
     ASSET_MAP !! token_in = Some a -> to_decimals amount_in (decimals a) = ok units ->
     ASSET_MAP !! token_out = None ->
     intent_swap_zec lib relay amb account token_in amount_in token_out privacy_level log =
       (raise (unsupported_asset token_out), log)).
Proof.
  unfold intent_swap_zec, build_request. run_m. split.
  - intros H. pose proof (set_asset_in_cases IntentRequest_new token_in amount_in) as C.
    rewrite H in C. rewrite C. reflexivity.
  - intros a units Ha Hu H.
    pose proof (set_asset_in_cases IntentRequest_new token_in amount_in) as C.
    rewrite Ha in C. destruct C as (id & _ & ->). rewrite Hu.
    match goal with
    | |- context [set_asset_out ?r token_out None] =>
        pose proof (set_asset_out_cases r token_out None) as C
    end.
    rewrite H in C. rewrite C. reflexivity.
Qed.

Lemma swap_rejects_unsupported_symbols_witness :
  ASSET_MAP !! "BTC" = None /\
  intent_swap_zec ScenarioA.lib ScenarioA.relay ScenarioA.amb ScenarioA.account
    "NEAR" ScenarioA.half "BTC" "shielded" [] = (raise (unsupported_asset "BTC"), []).
Proof.
  assert (H : ASSET_MAP !! "BTC" = None) by (vm_compute; reflexivity).
  split; [exact H|].
  apply (proj2 (swap_rejects_unsupported_symbols ScenarioA.lib ScenarioA.relay ScenarioA.amb
                  ScenarioA.account "NEAR" ScenarioA.half "BTC" "shielded" [])
           {| token_id := "wrap.near"; omft := None; decimals := 24; shielded := false |}
           "499999999999999991611392");
    [vm_compute; reflexivity | vm_compute; reflexivity | exact H].
Defined.

Section PublishedCommitment.

Context (lib : Libs) (relay : Relay) (amb : Ambient).

(** The commitment that a swap publishes is the one of its quote, with the
    shield options of the privacy level. *)
Lemma swap_published_commitment (account : Account)
  (token_in : string) (amount_in : float) (token_out level : string) (c : ZcashCommitment) :
  EvPost (intents_publishIntent c) ∈
    snd (intent_swap_zec lib relay amb account token_in amount_in token_out level []) ->
  exists q, c = commitment_of lib account q (swap_shield_options level token_in token_out).
Proof.
  destruct (intent_swap_zec_run lib relay amb account token_in amount_in token_out level [])
    as (outcome & evs & -> & R).
  cbn [snd app]. intros Hin.
  destruct R; repeat (apply elem_of_cons in Hin as [Hin|Hin]; [try discriminate Hin|]);
    try (now apply elem_of_nil in Hin).
  injection Hin as ->. eauto.
Qed.

Lemma shield_params_of_swap_with_ZEC (account : Account) (q : Quote)
  (level token_in token_out : string) :
  token_in = "ZEC" \/ token_out = "ZEC" ->
  shield_params (commitment_of lib account q (swap_shield_options level token_in token_out)) =
    shield_params_at level token_in token_out.
Proof.
  intros H. unfold commitment_of, swap_shield_options, shield_params_at. cbn [shield_params].
  assert (E : String.eqb token_in "ZEC" || String.eqb token_out "ZEC" = true).
  { destruct H as [-> | ->]; [reflexivity|]. apply orb_true_r. }
  rewrite E, andb_true_r. destruct (String.eqb level "shielded"); reflexivity.
Qed.

End PublishedCommitment.

(** X12. The commitment that a swap publishes is shielded exactly when the
    privacy level is "shielded" and one of the two symbols is ZEC; it then
    carries the memo "Swap X to Y" and no viewing key. With any other
    level, "default" included, the commitment carries no shield
    parameters, also in a swap of ZEC. *)
Theorem swap_shields_on_request_only
  (lib : Libs) (relay : Relay) (amb : Ambient) (account : Account)
  (token_in : string) (amount_in : float) (token_out privacy_level : string)
  (c : ZcashCommitment) :
  EvPost (intents_publishIntent c) ∈
    snd (intent_swap_zec lib relay amb account token_in amount_in token_out
           privacy_level []) ->
  shield_params c =
    if String.eqb privacy_level "shielded"
       && (String.eqb token_in "ZEC" || String.eqb token_out "ZEC")
    then Some {| sp_shielded := true;
                 sp_memo := Some ("Swap " +:+ token_in +:+ " to " +:+ token_out);
                 sp_viewing_key := None |}
    else None.
Proof.
  intros Hin. apply swap_published_commitment in Hin as [q ->].
  unfold commitment_of, swap_shield_options. cbn [shield_params].
  destruct (String.eqb privacy_level "shielded" && _); reflexivity.
Qed.

Lemma swap_shields_on_request_only_witness :
  exists c,
    EvPost (intents_publishIntent c) ∈
      snd (intent_swap_zec ScenarioA.lib ScenarioA.relay ScenarioA.amb ScenarioA.account
             "NEAR" ScenarioA.half "ZEC" "shielded" []) /\
    shield_params c =
      Some {| sp_shielded := true; sp_memo := Some "Swap NEAR to ZEC";
              sp_viewing_key := None |}.
Proof.
  assert (E : exists c e1 e2,
            snd (intent_swap_zec ScenarioA.lib ScenarioA.relay ScenarioA.amb
                   ScenarioA.account "NEAR" ScenarioA.half "ZEC" "shielded" []) =
              [e1; e2; EvPost (intents_publishIntent c)])
    by (eexists _, _, _; vm_compute; reflexivity).
  destruct E as (c & e1 & e2 & E). exists c.
  assert (Hin : EvPost (intents_publishIntent c) ∈
                  snd (intent_swap_zec ScenarioA.lib ScenarioA.relay ScenarioA.amb
                         ScenarioA.account "NEAR" ScenarioA.half "ZEC" "shielded" []))
    by (rewrite E; repeat constructor).
  split; [exact Hin|].
  rewrite (swap_shields_on_request_only _ _ _ _ _ _ _ _ c Hin). reflexivity.
Defined.

(** ** Portfolio analysis *)

Section AnalysisFacts.

Implicit Types (portfolio items : list (string * float)).

Lemma mul_int_small (x : float) (n : Z) :
  0 <= n < 2 ^ 53 -> PyFloat.mul_int x n = ok (PyFloat.mul x (PyFloat.nearest n)).
Proof. intros H. unfold PyFloat.mul_int. now rewrite of_int_small. Qed.

(** A float that is greater than zero, or not at most zero, is not zero. *)
Lemma gtb_zero_not_zero (x : float) :
  PyFloat.gtb x PyFloat.zero = true -> PyFloat.is_zero x = false.
Proof. destruct x as [[]|[]| |[] m e]; simpl; easy. Qed.

Lemma not_leb_zero_not_zero (x : float) :
  PyFloat.leb x PyFloat.zero = false -> PyFloat.is_zero x = false.
Proof. destruct x as [[]|[]| |[] m e]; simpl; easy. Qed.

Lemma truediv_not_zero (x y : float) :
  PyFloat.is_zero y = false -> PyFloat.truediv x y = ok (PyFloat.div x y).
Proof. intros H. unfold PyFloat.truediv. now rewrite H. Qed.

Lemma value_near_returns (token : string) (balance : float) :
  exists value, value_near token balance = ok value.
Proof.
  unfold value_near. rewrite mul_int_small by lia.
  destruct (String.eqb token "NEAR"), (String.eqb token "ZEC"), (String.eqb token "USDC");
    eauto.
Qed.

Lemma percent_of_returns (total : float) (token : string) (balance : float) :
  PyFloat.is_zero total = false ->
  exists value,
    value_near token balance = ok value /\
    percent_of total token balance =
      ok (PyFloat.mul (PyFloat.div value total) (PyFloat.nearest 100)).
Proof.
  intros Ht. destruct (value_near_returns token balance) as [value Hv].
  exists value. split; [exact Hv|]. unfold percent_of. rewrite Hv. cbn [rbind ok].
  rewrite (truediv_not_zero _ _ Ht). cbn [rbind ok].
  apply mul_int_small. lia.
Qed.

Lemma distribute_step (total : float) (token : string) (balance : float) items
  (acc : list (string * float)) :
  distribute total ((token, balance) :: items) acc =
    let? percent := percent_of total token balance in
    distribute total items (dict_set token percent acc).
Proof.
  cbn [distribute]. unfold percent_of.
  destruct (value_near token balance) as [e|value]; [reflexivity|]. cbn [rbind].
  destruct (PyFloat.truediv value total) as [e|share]; [reflexivity|]. reflexivity.
Qed.

Lemma dict_set_fresh {V : Type} (k : string) (v : V) (d : list (string * V)) :
  k ∉ map fst d -> dict_set k v d = (d ++ [(k, v)])%list.
Proof.
  induction d as [|[k' v'] d IH]; intros Hk; [reflexivity|].
  cbn [dict_set map fst] in *. apply not_elem_of_cons in Hk as [Hne Hk].
  destruct (String.eqb_spec k' k) as [->|_]; [contradiction|].
  cbn [app]. now rewrite IH.
Qed.

(** The loop over a portfolio of distinct symbols appends one share per
    balance, in the order of the portfolio. *)
Lemma distribute_appends (total : float) items :
  PyFloat.is_zero total = false ->
  forall acc : list (string * float),
    NoDup (map fst acc ++ map fst items) ->
    exists shares,
      distribute total items acc = ok (acc ++ shares)%list /\
      Forall2 (fun kv d => fst d = fst kv /\
                           percent_of total (fst kv) (snd kv) = ok (snd d))
        items shares.
Proof.
  intros Ht. induction items as [|[token balance] items IH]; intros acc Hnd.
  - exists []. rewrite app_nil_r. split; [reflexivity | constructor].
  - rewrite distribute_step.
    destruct (percent_of_returns total token balance Ht) as (value & Hv & Hp).
    rewrite Hp. cbn [rbind ok].
    cbn [map fst] in Hnd. apply NoDup_app in Hnd as (N1 & N2 & N3).
    apply NoDup_cons in N3 as [N3 N4].
    assert (Hfresh : token ∉ map fst acc).
    { intros Hin. apply (N2 _ Hin). left. }
    rewrite (dict_set_fresh _ _ _ Hfresh).
    destruct (IH (acc ++ [(token, PyFloat.mul (PyFloat.div value total) (PyFloat.nearest 100))])%list)
      as (shares & Hd & Hs).
    { rewrite map_app. cbn [map fst]. rewrite <- app_assoc. cbn [app].
      apply NoDup_app. split; [exact N1|]. split.
      - intros x Hx. apply N2. exact Hx.
      - apply NoDup_cons. split; assumption. }
    eexists (_ :: shares). split.
    + rewrite Hd, <- app_assoc. reflexivity.
    + constructor; [|exact Hs]. cbn [fst snd]. split; [reflexivity|exact Hp].
Qed.

Lemma distribute_returns (total : float) items :
  PyFloat.is_zero total = false ->
  forall acc : list (string * float), exists d, distribute total items acc = ok d.
Proof.
  intros Ht. induction items as [|[token balance] items IH]; intros acc.
  - eexists. reflexivity.
  - rewrite distribute_step.
    destruct (percent_of_returns total token balance Ht) as (value & Hv & Hp).
    rewrite Hp. cbn [rbind ok]. apply IH.
Qed.

Lemma _calculate_privacy_ratio_returns portfolio :
  exists ratio, _calculate_privacy_ratio portfolio = ok ratio.
Proof.
  unfold _calculate_privacy_ratio.
  destruct (PyFloat.leb (py_sum (map snd portfolio)) PyFloat.zero) eqn:E; [eauto|].
  rewrite (truediv_not_zero _ _ (not_leb_zero_not_zero _ E)). cbn [rbind ok].
  rewrite mul_int_small by lia. eauto.
Qed.

End AnalysisFacts.

(** [analyze_portfolio] returns, whatever the balances. *)
Lemma analyze_portfolio_returns (portfolio : list (string * float)) :
  exists a, analyze_portfolio portfolio = ok a /\
            _calculate_privacy_ratio portfolio = ok (privacy_ratio a) /\
            analysis_portfolio a = portfolio.
Proof.
  destruct (_calculate_privacy_ratio_returns portfolio) as [ratio Hr].
  unfold analyze_portfolio. rewrite Hr.
  rewrite mul_int_small by lia. cbn [rbind ok].
  set (total := PyFloat.add _ _).
  destruct (PyFloat.gtb total PyFloat.zero) eqn:E.
  - destruct (distribute_returns total portfolio (gtb_zero_not_zero _ E) []) as [d ->].
    cbn [rbind ok]. eexists. split; [reflexivity|]. split; reflexivity.
  - cbn [rbind ok]. eexists. split; [reflexivity|]. split; reflexivity.
Qed.

(** X13. The portfolio analysis never raises. Whatever the balances are, zero,
    negative, infinite or NaN included, [_calculate_privacy_ratio] and
    [analyze_portfolio] return: each division is behind a test that keeps a
    zero total away from it. *)
Theorem portfolio_analysis_never_raises (portfolio : list (string * float)) :
  (exists ratio, _calculate_privacy_ratio portfolio = ok ratio) /\
  (exists a, analyze_portfolio portfolio = ok a /\
             _calculate_privacy_ratio portfolio = ok (privacy_ratio a) /\
             analysis_portfolio a = portfolio).
Proof.
  split.
  - apply _calculate_privacy_ratio_returns.
  - apply analyze_portfolio_returns.
Qed.

(** X14. The distribution of an analysis. When the total value is greater than
    zero, a portfolio of distinct symbols gets one share per symbol, in
    the order of the portfolio: the value of the balance at the fixed
    rates, over the total value, times 100. When the total value is not
    greater than zero the distribution is empty. *)
Theorem distributions_follow_portfolio (portfolio : list (string * float)) (a : Analysis) :
  analyze_portfolio portfolio = ok a ->
  NoDup (map fst portfolio) ->
  (PyFloat.gtb (total_value_near a) PyFloat.zero = true ->
   Forall2 (fun kv d =>
              fst d = fst kv /\
              exists value,
                value_near (fst kv) (snd kv) = ok value /\
                snd d = PyFloat.mul (PyFloat.div value (total_value_near a))
                          (PyFloat.nearest 100))
     portfolio (distributions a)) /\
  (PyFloat.gtb (total_value_near a) PyFloat.zero = false -> distributions a = []).
Proof.
  unfold analyze_portfolio. intros H Hnd.
  rewrite mul_int_small in H by lia. cbn [rbind ok] in H.
  set (total := PyFloat.add _ _) in H.
  destruct (_calculate_privacy_ratio_returns portfolio) as [ratio Hr]. rewrite Hr in H.
  destruct (PyFloat.gtb total PyFloat.zero) eqn:E.
  - pose proof (gtb_zero_not_zero _ E) as Ht.
    destruct (distribute_appends total portfolio Ht []) as (shares & Hd & Hs);
      [exact Hnd|].
    rewrite Hd in H. cbn [rbind ok app] in H. apply ok_inj in H. subst a.
    cbn [total_value_near distributions]. rewrite E. split; [|discriminate]. intros _.
    eapply Forall2_impl; [exact Hs|]. intros [t b] [t' p] [H1 H2]. cbn [fst snd] in *.
    split; [exact H1|].
    destruct (percent_of_returns total t b Ht) as (value & Hv & Hp).
    exists value. split; [exact Hv|]. rewrite Hp in H2. now apply ok_inj in H2.
  - cbn [rbind ok] in H. apply ok_inj in H. subst a.
    cbn [total_value_near distributions]. rewrite E. split; [discriminate|reflexivity].
Qed.

Lemma distributions_follow_portfolio_witness :
  exists a,
    analyze_portfolio Samples.portfolio = ok a /\
    Forall2 (fun kv d =>
               fst d = fst kv /\
               exists value,
                 value_near (fst kv) (snd kv) = ok value /\
                 snd d = PyFloat.mul (PyFloat.div value (total_value_near a))
                           (PyFloat.nearest 100))
      Samples.portfolio (distributions a).
Proof.
  destruct (analyze_portfolio Samples.portfolio) as [e|a] eqn:E;
    [vm_compute in E; discriminate E|].
  exists a. split; [reflexivity|].
  apply (distributions_follow_portfolio Samples.portfolio a E).
  - repeat constructor; vm_compute; intros H;
      repeat (apply elem_of_cons in H as [H|H]; [discriminate H|]);
      now apply elem_of_nil in H.
  - apply ok_inj in E. subst a. vm_compute. reflexivity.
Defined.

Section RatioFacts.

Implicit Types (portfolio : list (string * float)).

(** The quotient of a finite non-negative float by a non-negative float
    that is not zero is non-negative. *)
Lemma div_nonneg (x y : float) :
  is_finite x = true -> PyFloat.nonneg x = true ->
  PyFloat.nonneg y = true -> PyFloat.is_zero y = false ->
  PyFloat.nonneg (PyFloat.div x y) = true.
Proof.
  destruct x as [[]|[]| |[] mx ex]; simpl; try discriminate;
    destruct y as [[]|[]| |[] my ey]; simpl; try discriminate; try reflexivity.
  intros _ _ _ _. unfold PyFloat.div, SFdiv.
  destruct (SFdiv_core_binary _ _ _ _ _ _) as [[mz ez] lz] eqn:E.
  assert (Hmz : 0 <= mz).
  { unfold SFdiv_core_binary in E.
    set (m' := match _ with 0 => Zpos mx | Zpos _ => _ | Zneg _ => 0 end) in E.
    assert (Hm' : 0 <= m').
    { subst m'. destruct (_ - _ - _); [lia| |lia]. apply Z.shiftl_nonneg. lia. }
    change IntDef.Z.div_eucl with Z.div_eucl in E.
    pose proof (Z_div_mod m' (Zpos my) ltac:(lia)) as Hdm.
    destruct (Z.div_eucl m' (Zpos my)) as [q r]. injection E as <- _ _.
    destruct Hdm as [Hdm Hr]. nia. }
  pose proof (binary_round_aux_sign (xorb false false) mz ez lz Hmz) as H.
  destruct (binary_round_aux _ _ _ _ _ _) as [s|s| |s m e]; simpl in *; subst; easy.
Qed.

(** A non-negative float times 100 is non-negative. *)
Lemma mul_100_nonneg (x : float) :
  PyFloat.nonneg x = true -> PyFloat.nonneg (PyFloat.mul x (PyFloat.nearest 100)) = true.
Proof.
  intros Hx. destruct (nearest_canonical 100 ltac:(lia)) as (c & E & _).
  change (Zpos 100) with 100 in E. rewrite E.
  destruct x as [[]|[]| |[] mx ex]; simpl in *; try discriminate; try reflexivity.
  unfold PyFloat.mul, SFmul. cbn [xorb].
  pose proof (binary_round_aux_sign false (Zpos (mx * c)) (ex + (Zpos (digits2_pos 100) - 53))
                loc_Exact ltac:(lia)) as H.
  destruct (binary_round_aux _ _ _ _ _ _) as [s|s| |s m e]; simpl in *; subst; easy.
Qed.

Lemma dict_get_finite portfolio (k : string) :
  Forall (fun kv => is_finite (snd kv) = true) portfolio ->
  is_finite (dict_get k PyFloat.zero portfolio) = true.
Proof.
  induction 1 as [|[k' v] portfolio Hv _ IH]; [reflexivity|].
  cbn [dict_get]. destruct (String.eqb k' k); [exact Hv | exact IH].
Qed.

End RatioFacts.

(** X15. The privacy ratio of a portfolio of finite, non-negative balances is a
    non-negative float, never a NaN, and it is [0.0] when the portfolio
    holds no ZEC. *)
Theorem privacy_ratio_is_not_negative (portfolio : list (string * float)) :
  Forall (fun kv => PyFloat.nonneg (snd kv) = true) portfolio ->
  Forall (fun kv => is_finite (snd kv) = true) portfolio ->
  exists ratio,
    _calculate_privacy_ratio portfolio = ok ratio /\
    PyFloat.nonneg ratio = true /\
    (PyFloat.is_zero (dict_get "ZEC" PyFloat.zero portfolio) = true -> ratio = PyFloat.zero).
Proof.
  intros Hn Hf. unfold _calculate_privacy_ratio.
  pose proof (total_balance_nonneg _ Hn) as Ht. unfold total_balance in Ht.
  pose proof (dict_get_nonneg _ "ZEC" Hn) as Hz.
  pose proof (dict_get_finite _ "ZEC" Hf) as Hzf.
  destruct (PyFloat.leb (py_sum (map snd portfolio)) PyFloat.zero) eqn:E.
  - exists PyFloat.zero. auto.
  - pose proof (not_leb_zero_not_zero _ E) as Hnz.
    rewrite (truediv_not_zero _ _ Hnz). cbn [rbind ok].
    rewrite mul_int_small by lia. eexists. split; [reflexivity|]. split.
    + apply mul_100_nonneg, div_nonneg; assumption.
    + intros Hzero.
      destruct (dict_get "ZEC" PyFloat.zero portfolio) as [[]| | |]; try discriminate.
      destruct (py_sum (map snd portfolio)) as [[]|[]| |[] m e]; try discriminate;
        reflexivity.
Qed.

Lemma privacy_ratio_is_not_negative_witness :
  exists ratio,
    _calculate_privacy_ratio Samples.portfolio = ok ratio /\
    PyFloat.nonneg ratio = true.
Proof.
  destruct (privacy_ratio_is_not_negative Samples.portfolio) as (ratio & H1 & H2 & _).
  - repeat constructor.
  - repeat constructor.
  - exists ratio. split; assumption.
Defined.

(** ** The agent: balances and portfolio *)

Section AgentBalances.

Import ZcashAgent.

Implicit Types (self : ZcashAgent.t).

(** The keys of the registry are its symbols. *)
Lemma ASSET_KEYS_registered (token : string) :
  token ∈ ASSET_KEYS <-> is_Some (ASSET_MAP !! token).
Proof.
  split.
  - unfold ASSET_KEYS. intros H.
    repeat (apply elem_of_cons in H as [-> | H]; [vm_compute; eauto|]).
    now apply elem_of_nil in H.
  - intros [a Ha]. unfold ASSET_KEYS.
    destruct (registered_cases _ _ Ha) as [-> | [-> | ->]]; set_solver.
Qed.

Lemma NoDup_ASSET_KEYS : NoDup ASSET_KEYS.
Proof.
  unfold ASSET_KEYS.
  repeat (apply NoDup_cons; split;
          [rewrite ?elem_of_cons, elem_of_nil; intuition discriminate|]).
  apply NoDup_nil_2.
Qed.

Lemma get_balance_registered self (token : string) (a : Asset) :
  ASSET_MAP !! token = Some a ->
  get_balance self token =
    ok match balance_query self token with
       | inl _ => PyFloat.zero
       | inr balance => balance
       end.
Proof.
  intros Ha. unfold get_balance. rewrite Ha. destruct (balance_query self token); reflexivity.
Qed.

Lemma collect_balances_registry self :
  collect_balances self ASSET_KEYS =
    map (fun token =>
           (token, match balance_query self token with
                   | inl _ => PyFloat.zero
                   | inr balance => balance
                   end))
        ASSET_KEYS.
Proof.
  unfold collect_balances, ASSET_KEYS. cbn [fold_left map].
  rewrite (get_balance_registered self "USDC" _ eq_refl).
  rewrite (get_balance_registered self "NEAR" _ eq_refl).
  rewrite (get_balance_registered self "ZEC" _ eq_refl).
  reflexivity.
Qed.

End AgentBalances.

(** X16. [get_balance] raises for a symbol outside the registry, and for
    nothing else: on a registered symbol it returns a float whatever the
    account answers. When the query of the account raises, returns
    nothing, or returns no result, the balance is [0.0], as for an account
    that holds nothing. *)
Theorem get_balance_swallows_failures (self : ZcashAgent.t) (token : string) :
  (ASSET_MAP !! token = None ->
   ZcashAgent.get_balance self token = raise (ZcashAgent.unsupported_token token)) /\
  (forall a, ASSET_MAP !! token = Some a ->
     (exists balance, ZcashAgent.get_balance self token = ok balance) /\
     (token = "NEAR" ->
      (exists e, ZcashAgent.state (ZcashAgent.account self) = raise e) \/
      ZcashAgent.state (ZcashAgent.account self) = ok None \/
      (exists d, ZcashAgent.state (ZcashAgent.account self) = ok (Some d) /\
                 d !! "amount" = None) ->
      ZcashAgent.get_balance self token = ok PyFloat.zero) /\
     (token <> "NEAR" ->
      let answer :=
        ZcashAgent.view_function (ZcashAgent.account self) (token_id a) "ft_balance_of"
          {[ "account_id" := account_id (ZcashAgent.signing (ZcashAgent.account self)) ]} in
      (exists e, answer = raise e) \/
      answer = ok None \/
      (exists d, answer = ok (Some d) /\ (d !! "result" = None \/ d !! "result" = Some "")) ->
      ZcashAgent.get_balance self token = ok PyFloat.zero)).
Proof.
  split.
  - intros H. unfold ZcashAgent.get_balance. rewrite H. reflexivity.
  - intros a Ha. rewrite (get_balance_registered self token a Ha).
    split; [eauto|]. unfold ZcashAgent.balance_query. split.
    + intros -> H. change (String.eqb "NEAR" "NEAR") with true. cbv iota.
      destruct H as [[e He]|[He|(d & He & Hd)]]; rewrite He;
        cbv beta iota delta [ok raise]; try reflexivity.
      unfold ZcashAgent.caught, getitem, rbind. rewrite Hd. reflexivity.
    + intros Hne H. apply String.eqb_neq in Hne. rewrite Hne.
      unfold getitem. rewrite Ha. cbv beta iota delta [ok raise]. cbv zeta in H.
      destruct H as [[e He]|[He|(d & He & [Hd|Hd])]]; rewrite He;
        cbv beta iota delta [ok raise]; try reflexivity;
        match goal with
        | |- context [Some d ≫= ?f] => change (Some d ≫= f) with (d !! "result")
        end;
        rewrite Hd; reflexivity.
Qed.

Lemma get_balance_swallows_failures_witness :
  ZcashAgent.get_balance (ZcashAgent.init AgentSamples.offline) "NEAR" = ok PyFloat.zero /\
  ZcashAgent.get_balance (ZcashAgent.init AgentSamples.offline) "ZEC" = ok PyFloat.zero.
Proof.
  pose (a := {| token_id := "wrap.near"; omft := None; decimals := 24; shielded := false |}).
  pose (z := {| token_id := "zcash.factory.bridge.near"; omft := Some "zcash-token.omft.near";
                decimals := 8; shielded := true |}).
  split.
  - refine (proj1 (proj2 (proj2 (get_balance_swallows_failures
                                   (ZcashAgent.init AgentSamples.offline) "NEAR")
                            a _)) eq_refl _).
    + vm_compute. reflexivity.
    + left. eexists. reflexivity.
  - refine (proj2 (proj2 (proj2 (get_balance_swallows_failures
                                   (ZcashAgent.init AgentSamples.offline) "ZEC")
                            z _)) _ _).
    + vm_compute. reflexivity.
    + discriminate.
    + left. eexists. reflexivity.
Defined.

(** X17. [get_portfolio] lists one balance per symbol of the registry, in the
    order of the registry; each is the balance that [get_balance] returns
    for the symbol, so the fallback of its loop is never taken; the
    portfolio is stored in the agent and nothing else of the agent
    changes. *)
Theorem get_portfolio_lists_the_registry (self : ZcashAgent.t) :
  let '(self', p) := ZcashAgent.get_portfolio self in
  map fst p = ["USDC"; "NEAR"; "ZEC"] /\
  (forall token, token ∈ map fst p <-> is_Some (ASSET_MAP !! token)) /\
  (forall token, token ∈ map fst p ->
     ZcashAgent.get_balance self token = ok (dict_get token PyFloat.zero p)) /\
  ZcashAgent.portfolio self' = p /\
  ZcashAgent.account self' = ZcashAgent.account self /\
  ZcashAgent.privacy_preferences self' = ZcashAgent.privacy_preferences self.
Proof.
  unfold ZcashAgent.get_portfolio. rewrite collect_balances_registry.
  cbn [map fst ASSET_KEYS ZcashAgent.with_portfolio ZcashAgent.portfolio
       ZcashAgent.account ZcashAgent.privacy_preferences].
  split; [reflexivity|]. split; [exact ASSET_KEYS_registered|].
  split; [|auto]. intros token H.
  repeat (apply elem_of_cons in H as [-> | H];
          [match goal with
           | |- ZcashAgent.get_balance self ?k = _ =>
               rewrite (get_balance_registered self k _ eq_refl); reflexivity
           end|]).
  now apply elem_of_nil in H.
Qed.

(** X18. The analysis of the agent never raises: it analyses the portfolio of
    the three registered symbols that [get_portfolio] returns and stores,
    and when the total value is greater than zero its distribution has a
    share for each of the three, in the order of the registry. *)
Theorem agent_analysis_never_raises (self : ZcashAgent.t) :
  exists a,
    snd (ZcashAgent.analyze_portfolio self) = ok a /\
    analysis_portfolio a = snd (ZcashAgent.get_portfolio self) /\
    ZcashAgent.portfolio (fst (ZcashAgent.analyze_portfolio self)) = analysis_portfolio a /\
    map fst (analysis_portfolio a) = ["USDC"; "NEAR"; "ZEC"] /\
    (PyFloat.gtb (total_value_near a) PyFloat.zero = true ->
     map fst (distributions a) = ["USDC"; "NEAR"; "ZEC"]).
Proof.
  unfold ZcashAgent.analyze_portfolio, ZcashAgent.get_portfolio.
  rewrite collect_balances_registry. cbn [fst snd].
  set (p := map _ ASSET_KEYS).
  assert (Hk : map fst p = ["USDC"; "NEAR"; "ZEC"]) by reflexivity.
  destruct (analyze_portfolio_returns p) as (a & Ha & _ & Hp).
  exists a. rewrite Ha, Hp. repeat split; auto.
  intros Hgt. unfold analyze_portfolio in Ha.
  rewrite mul_int_small in Ha by lia. cbn [rbind ok] in Ha.
  set (total := PyFloat.add _ _) in Ha.
  destruct (_calculate_privacy_ratio_returns p) as [ratio Hr]. rewrite Hr in Ha.
  destruct (PyFloat.gtb total PyFloat.zero) eqn:E.
  - pose proof (gtb_zero_not_zero _ E) as Ht.
    destruct (distribute_appends total p Ht []) as (shares & Hd & Hs).
    { cbn [map app]. rewrite Hk. exact NoDup_ASSET_KEYS. }
    rewrite Hd in Ha. cbn [rbind ok app] in Ha. apply ok_inj in Ha. subst a.
    cbn [distributions]. rewrite <- Hk.
    clear -Hs. induction Hs as [|kv d l l' [H1 _] _ IH]; [reflexivity|].
    cbn [map]. now rewrite H1, IH.
  - cbn [rbind ok] in Ha. apply ok_inj in Ha. subst a.
    cbn [total_value_near] in Hgt. congruence.
Qed.

(** ** The agent: preferences and quote requests *)

Section AgentPreferences.

Import ZcashAgent.

Implicit Types (self : ZcashAgent.t) (prefs preferences : gmap string PyVal).

Lemma update_preferences_lookup (keys : list string) preferences :
  forall prefs (key : string),
    update_preferences keys preferences prefs !! key =
      if bool_decide (key ∈ keys)
      then match preferences !! key with
           | Some v => Some v
           | None => prefs !! key
           end
      else prefs !! key.
Proof.
  unfold update_preferences.
  induction keys as [|k keys IH]; intros prefs key; cbn [fold_left].
  - rewrite bool_decide_eq_false_2 by apply not_elem_of_nil. reflexivity.
  - rewrite IH. destruct (decide (key = k)) as [->|Hne].
    + rewrite (bool_decide_eq_true_2 (k ∈ k :: keys)) by left.
      destruct (preferences !! k) as [v|] eqn:Ek.
      * rewrite lookup_insert_eq. now destruct (bool_decide _).
      * now destruct (bool_decide _).
    + assert (Hiff : key ∈ k :: keys <-> key ∈ keys).
      { rewrite elem_of_cons. tauto. }
      rewrite (bool_decide_ext _ _ Hiff).
      destruct (preferences !! k) as [v|]; [|reflexivity].
      rewrite lookup_insert_ne by congruence. reflexivity.
Qed.

Lemma update_preferences_dom (keys : list string) preferences prefs :
  (forall k, k ∈ keys -> is_Some (prefs !! k)) ->
  dom (update_preferences keys preferences prefs) = dom prefs.
Proof.
  intros Hk. apply set_eq. intros key. rewrite !elem_of_dom, update_preferences_lookup.
  destruct (bool_decide (key ∈ keys)) eqn:E; [|reflexivity].
  apply bool_decide_eq_true_1 in E.
  destruct (preferences !! key) as [v|]; [|reflexivity].
  split; [intros _; now apply Hk | eauto].
Qed.

Lemma initial_preferences_dom : dom initial_preferences = list_to_set valid_keys.
Proof. unfold initial_preferences, valid_keys. rewrite !dom_insert_L, dom_empty_L. set_solver. Qed.

(** The preference dict of an agent keeps its four keys. *)
Lemma run_agent_calls_dom (calls : list AgentCall) self :
  dom (privacy_preferences self) = list_to_set valid_keys ->
  dom (privacy_preferences (run_agent_calls calls self)) = list_to_set valid_keys.
Proof.
  revert self. induction calls as [|c calls IH]; intros self H; [exact H|].
  unfold run_agent_calls in *. cbn [fold_left]. apply IH.
  destruct c as [preferences| |]; cbn [apply_agent_call]; [|exact H|exact H].
  unfold set_privacy_preferences. cbn [privacy_preferences with_preferences].
  rewrite update_preferences_dom; [exact H|].
  intros k Hk. apply elem_of_dom. rewrite H. now apply elem_of_list_to_set.
Qed.

End AgentPreferences.

(** X19. [set_privacy_preferences] takes from its argument the values of the
    four valid keys that the argument holds and nothing else: a key that
    is not valid is never stored, a valid key that the argument lacks
    keeps its value. The order in which the set of valid keys is walked
    does not matter, and the account and the portfolio stay as they are. *)
Theorem set_privacy_preferences_takes_valid_keys
  (self : ZcashAgent.t) (preferences : gmap string ZcashAgent.PyVal) :
  (forall key,
     ZcashAgent.privacy_preferences (ZcashAgent.set_privacy_preferences self preferences)
       !! key =
       if bool_decide (key ∈ ZcashAgent.valid_keys)
       then match preferences !! key with
            | Some v => Some v
            | None => ZcashAgent.privacy_preferences self !! key
            end
       else ZcashAgent.privacy_preferences self !! key) /\
  (forall keys, keys ≡ₚ ZcashAgent.valid_keys ->
     ZcashAgent.update_preferences keys preferences (ZcashAgent.privacy_preferences self) =
       ZcashAgent.privacy_preferences (ZcashAgent.set_privacy_preferences self preferences)) /\
  ZcashAgent.account (ZcashAgent.set_privacy_preferences self preferences) =
    ZcashAgent.account self /\
  ZcashAgent.portfolio (ZcashAgent.set_privacy_preferences self preferences) =
    ZcashAgent.portfolio self.
Proof.
  split; [|split; [|split; reflexivity]].
  - intros key. apply update_preferences_lookup.
  - intros keys Hp. apply map_eq. intros key.
    unfold ZcashAgent.set_privacy_preferences.
    cbn [ZcashAgent.privacy_preferences ZcashAgent.with_preferences].
    rewrite !update_preferences_lookup.
    assert (Hiff : key ∈ keys <-> key ∈ ZcashAgent.valid_keys) by now rewrite Hp.
    now rewrite (bool_decide_ext _ _ Hiff).
Qed.

(** X20. An agent always has a default privacy level. After [__init__] and any
    calls of [set_privacy_preferences], [get_portfolio] and
    [analyze_portfolio], the preference dict holds its four keys and no
    other, so reading the default level never raises; after [__init__]
    alone the default level is "shielded". *)
Theorem agent_keeps_a_default_level
  (account : ZcashAgent.NearAccount) (calls : list AgentCall) :
  dom (ZcashAgent.privacy_preferences (run_agent_calls calls (ZcashAgent.init account))) =
    list_to_set ZcashAgent.valid_keys /\
  (exists level,
     ZcashAgent.effective_level (run_agent_calls calls (ZcashAgent.init account)) None =
       ok level) /\
  ZcashAgent.effective_level (ZcashAgent.init account) None = ok "shielded".
Proof.
  pose proof (run_agent_calls_dom calls (ZcashAgent.init account) initial_preferences_dom) as H.
  split; [exact H|]. split; [|reflexivity].
  unfold ZcashAgent.effective_level, getitem.
  assert (Hd : "default_level" ∈ dom (ZcashAgent.privacy_preferences
                                        (run_agent_calls calls (ZcashAgent.init account)))).
  { rewrite H. unfold ZcashAgent.valid_keys. set_solver. }
  apply elem_of_dom in Hd as [v ->]. eauto.
Qed.

Section AgentSwaps.

Context (lib : Libs) (relay : Relay) (amb : Ambient).

Implicit Types (self : ZcashAgent.t).

(** A float that is not at most zero is positive, or a NaN. *)
Lemma not_leb_zero_cases (x : float) :
  PyFloat.leb x PyFloat.zero = false ->
  PyFloat.nonneg x = true \/ PyFloat.is_nan x = true.
Proof. destruct x as [[]|[]| |[] m e]; simpl; auto; discriminate. Qed.

(** A NaN has no on-chain amount. *)
Lemma to_decimals_nan (x : float) (d : N) :
  PyFloat.is_nan x = true -> exists e, to_decimals x d = raise e.
Proof.
  destruct x; try discriminate. intros _.
  unfold to_decimals, PyFloat.mul_int.
  destruct (PyFloat.of_int (10 ^ Z.of_N d)) as [e|y]; [eauto|].
  cbn [rbind ok]. destruct y; cbn; eauto.
Qed.

(** The request that the orchestrator builds, serialized. *)
Lemma build_request_serialized (token_in : string) (amount_in : float) (token_out : string)
  (r : IntentRequest) :
  build_request token_in amount_in token_out = ok r ->
  exists a id_in id_out units,
    ASSET_MAP !! token_in = Some a /\ get_asset_id token_in = ok id_in /\
    get_asset_id token_out = ok id_out /\ to_decimals amount_in (decimals a) = ok units /\
    serialize r =
      ok {| assets_in := id_in;
            assets_out := id_out;
            amounts_in := units;
            amounts_out := None;
            deadline_type := "relative";
            deadline_ms := 120000;
            slippage := None |}.
Proof.
  unfold build_request. intros H.
  pose proof (set_asset_in_cases IntentRequest_new token_in amount_in) as C1.
  destruct (ASSET_MAP !! token_in) as [a|] eqn:E1; [|rewrite C1 in H; discriminate H].
  destruct C1 as (id_in & I1 & C1). rewrite C1 in H.
  destruct (to_decimals amount_in (decimals a)) as [e|units] eqn:U1; [discriminate H|].
  cbn [rbind ok] in H.
  match type of H with
  | context [set_asset_out ?r1 token_out None] =>
      pose proof (set_asset_out_cases r1 token_out None) as C2
  end.
  destruct (ASSET_MAP !! token_out) as [a'|] eqn:E2; [|rewrite C2 in H; discriminate H].
  destruct C2 as (id_out & I2 & C2). rewrite C2 in H. cbn [rbind ok] in H.
  apply ok_inj in H. subst r. exists a, id_in, id_out, units.
  repeat (split; [reflexivity || assumption|]).
  unfold serialize, getitem. cbn [request with_request min_deadline_ms IntentRequest_new
                                  IntentRequest_init default].
  rewrite !(lookup_insert_ne _ "assetOut") by discriminate.
  rewrite ?lookup_insert_eq.
  rewrite !(lookup_insert_ne _ "amountIn" "assetIn") by discriminate.
  rewrite lookup_insert_eq. cbn [rbind ok].
  rewrite !(lookup_insert_ne _ _ "amountIn") by discriminate.
  rewrite lookup_insert_eq. cbn [rbind ok].
  rewrite !(lookup_insert_ne _ _ "slippage") by discriminate.
  rewrite !(lookup_insert_ne _ _ "amountOut") by discriminate.
  rewrite !lookup_empty. reflexivity.
Qed.

(** Every path through [swap_to_zec] and [swap_from_zec]: the two
    checks, the level, and the swap, whose errors pass through. *)
Lemma swap_to_zec_cases self (token_in : string) (amount_in : float)
  (privacy_level : option string) (log : list Event) :
  ZcashAgent.swap_to_zec lib relay amb self token_in amount_in privacy_level log =
    if PyFloat.leb amount_in PyFloat.zero then (raise ZcashAgent.bad_swap_amount, log)
    else match ASSET_MAP !! token_in with
         | None => (raise (ZcashAgent.unsupported_input_token token_in), log)
         | Some _ =>
             match ZcashAgent.effective_level self privacy_level with
             | inl e => (raise e, log)
             | inr level =>
                 intent_swap_zec lib relay amb
                   (ZcashAgent.signing (ZcashAgent.account self))
                   token_in amount_in "ZEC" level log
             end
         end.
Proof.
  unfold ZcashAgent.swap_to_zec.
  destruct (PyFloat.leb amount_in PyFloat.zero); [reflexivity|].
  destruct (ASSET_MAP !! token_in); [|reflexivity].
  unfold try_except, mbind, lift, mraise.
  destruct (ZcashAgent.effective_level self privacy_level) as [e|level]; [reflexivity|].
  destruct (intent_swap_zec _ _ _ _ _ _ _ _ _) as [[e|v] log']; reflexivity.
Qed.

Lemma swap_from_zec_cases self (token_out : string) (amount_in : float)
  (privacy_level : option string) (log : list Event) :
  ZcashAgent.swap_from_zec lib relay amb self token_out amount_in privacy_level log =
    if PyFloat.leb amount_in PyFloat.zero then (raise ZcashAgent.bad_swap_amount, log)
    else match ASSET_MAP !! token_out with
         | None => (raise (ZcashAgent.unsupported_output_token token_out), log)
         | Some _ =>
             match ZcashAgent.effective_level self privacy_level with
             | inl e => (raise e, log)
             | inr level =>
                 intent_swap_zec lib relay amb
                   (ZcashAgent.signing (ZcashAgent.account self))
                   "ZEC" amount_in token_out level log
             end
         end.
Proof.
  unfold ZcashAgent.swap_from_zec.
  destruct (PyFloat.leb amount_in PyFloat.zero); [reflexivity|].
  destruct (ASSET_MAP !! token_out); [|reflexivity].
  unfold try_except, mbind, lift, mraise.
  destruct (ZcashAgent.effective_level self privacy_level) as [e|level]; [reflexivity|].
  destruct (intent_swap_zec _ _ _ _ _ _ _ _ _) as [[e|v] log']; reflexivity.
Qed.

(** The quote request of a swap whose amount is not at most zero. *)
Lemma swap_request_of_positive_amount (account : Account)
  (token_in : string) (amount_in : float) (token_out level : string)
  (params : SerializedRequest) :
  PyFloat.leb amount_in PyFloat.zero = false ->
  EvPost (intents_getQuotes params) ∈
    snd (intent_swap_zec lib relay amb account token_in amount_in token_out level []) ->
  exists a n,
    ASSET_MAP !! token_in = Some a /\
    get_asset_id token_in = ok (assets_in params) /\
    get_asset_id token_out = ok (assets_out params) /\
    to_decimals amount_in (decimals a) = ok (amounts_in params) /\
    amounts_in params = PyFloat.str n /\ 0 <= n /\
    amounts_out params = None /\ deadline_ms params = 120000.
Proof.
  intros Hpos Hin.
  destruct (intent_swap_zec_run lib relay amb account token_in amount_in token_out level [])
    as (outcome & evs & E & R).
  rewrite E in Hin. cbn [snd app] in Hin.
  assert (Hreq : exists request, build_request token_in amount_in token_out = ok request /\
                                 serialize request = ok params).
  { destruct R; repeat (apply elem_of_cons in Hin as [Hin|Hin]; [try discriminate Hin|]);
      try (now apply elem_of_nil in Hin); injection Hin as ->; eauto. }
  destruct Hreq as (request & Hb & Hs).
  destruct (build_request_serialized _ _ _ _ Hb) as (a & id_in & id_out & units & A & I1 & I2 & U & S).
  rewrite Hs in S. apply ok_inj in S. subst params.
  cbn [assets_in assets_out amounts_in amounts_out deadline_ms].
  destruct (not_leb_zero_cases _ Hpos) as [Hn|Hn].
  - destruct (to_decimals_nonneg _ _ _ Hn U) as (n & Hn0 & ->).
    exists a, n. auto 10.
  - destruct (to_decimals_nan amount_in (decimals a) Hn) as [e He].
    rewrite He in U. discriminate U.
Qed.

End AgentSwaps.

(** X21. The quote requests of the agent. A request that [swap_to_zec] posts
    asks for ZEC against a registered symbol, and one that [swap_from_zec]
    posts offers ZEC for a registered symbol; in both, the amount was
    greater than zero, the input amount of the request is the numeral of a
    non-negative integer of on-chain units (it is 0 for an amount below
    one unit), and no output amount is set. *)
Theorem agent_quote_requests
  (lib : Libs) (relay : Relay) (amb : Ambient) (self : ZcashAgent.t)
  (token : string) (amount_in : float) (privacy_level : option string)
  (params : SerializedRequest) :
  (EvPost (intents_getQuotes params) ∈
     snd (ZcashAgent.swap_to_zec lib relay amb self token amount_in privacy_level []) ->
   PyFloat.gtb amount_in PyFloat.zero = true /\
   assets_out params = "nep141:zcash.factory.bridge.near" /\
   exists a n,
     ASSET_MAP !! token = Some a /\ get_asset_id token = ok (assets_in params) /\
     to_decimals amount_in (decimals a) = ok (amounts_in params) /\
     amounts_in params = PyFloat.str n /\ 0 <= n /\ amounts_out params = None) /\
  (EvPost (intents_getQuotes params) ∈
     snd (ZcashAgent.swap_from_zec lib relay amb self token amount_in privacy_level []) ->
   PyFloat.gtb amount_in PyFloat.zero = true /\
   assets_in params = "nep141:zcash.factory.bridge.near" /\
   is_Some (ASSET_MAP !! token) /\ get_asset_id token = ok (assets_out params) /\
   exists n,
     to_decimals amount_in 8 = ok (amounts_in params) /\
     amounts_in params = PyFloat.str n /\ 0 <= n /\ amounts_out params = None).
Proof.
  assert (Hgt : forall x : float,
            PyFloat.leb x PyFloat.zero = false -> PyFloat.nonneg x = true ->
            PyFloat.gtb x PyFloat.zero = true).
  { intros x. destruct x as [[]|[]| |[] m e]; simpl; auto; discriminate. }
  split.
  - rewrite swap_to_zec_cases.
    destruct (PyFloat.leb amount_in PyFloat.zero) eqn:Hpos;
      [intros H; now apply elem_of_nil in H|].
    destruct (ASSET_MAP !! token) as [a0|] eqn:Ha; [|intros H; now apply elem_of_nil in H].
    destruct (ZcashAgent.effective_level self privacy_level) as [e|level];
      [intros H; now apply elem_of_nil in H|].
    intros Hin.
    destruct (swap_request_of_positive_amount lib relay amb _ _ _ _ _ _ Hpos Hin)
      as (a & n & A & I1 & I2 & U & S & Hn & O & _).
    vm_compute in I2. apply ok_inj in I2.
    split; [|split; [now symmetry|]].
    + destruct (not_leb_zero_cases _ Hpos) as [Hx|Hx]; [now apply Hgt|].
      destruct (to_decimals_nan amount_in (decimals a) Hx) as [e He].
      rewrite He in U. discriminate U.
    + exists a, n. rewrite Ha in A. auto 10.
  - rewrite swap_from_zec_cases.
    destruct (PyFloat.leb amount_in PyFloat.zero) eqn:Hpos;
      [intros H; now apply elem_of_nil in H|].
    destruct (ASSET_MAP !! token) as [a0|] eqn:Ha; [|intros H; now apply elem_of_nil in H].
    destruct (ZcashAgent.effective_level self privacy_level) as [e|level];
      [intros H; now apply elem_of_nil in H|].
    intros Hin.
    destruct (swap_request_of_positive_amount lib relay amb _ _ _ _ _ _ Hpos Hin)
      as (a & n & A & I1 & I2 & U & S & Hn & O & _).
    vm_compute in A. injection A as <-. cbn [decimals] in U.
    vm_compute in I1. apply ok_inj in I1.
    split; [|split; [now symmetry|]].
    + destruct (not_leb_zero_cases _ Hpos) as [Hx|Hx]; [now apply Hgt|].
      destruct (to_decimals_nan amount_in 8 Hx) as [e He].
      rewrite He in U. discriminate U.
    + split; [eauto|]. split; [exact I2|]. exists n. auto 10.
Qed.

Lemma agent_quote_requests_witness :
  exists params,
    EvPost (intents_getQuotes params) ∈
      snd (ZcashAgent.swap_to_zec ScenarioA.lib ScenarioA.relay ScenarioA.amb
             (ZcashAgent.init AgentSamples.funded) "NEAR" ScenarioA.half None []) /\
    assets_out params = "nep141:zcash.factory.bridge.near" /\
    PyFloat.gtb ScenarioA.half PyFloat.zero = true.
Proof.
  assert (E : exists params e2 e3,
            snd (ZcashAgent.swap_to_zec ScenarioA.lib ScenarioA.relay ScenarioA.amb
                   (ZcashAgent.init AgentSamples.funded) "NEAR" ScenarioA.half None []) =
              [EvPost (intents_getQuotes params); e2; e3])
    by (eexists _, _, _; vm_compute; reflexivity).
  destruct E as (params & e2 & e3 & E). exists params.
  assert (Hin : EvPost (intents_getQuotes params) ∈
                  snd (ZcashAgent.swap_to_zec ScenarioA.lib ScenarioA.relay ScenarioA.amb
                         (ZcashAgent.init AgentSamples.funded) "NEAR" ScenarioA.half None []))
    by (rewrite E; left).
  split; [exact Hin|].
  destruct (proj1 (agent_quote_requests ScenarioA.lib ScenarioA.relay ScenarioA.amb
                     (ZcashAgent.init AgentSamples.funded) "NEAR" ScenarioA.half None params)
              Hin) as (Hgt & Hout & _).
  split; [exact Hout | exact Hgt].
Defined.

(** ** The agent: shielding; the order of quotes *)

(** X22. The swaps of the agent shield at the level in force: the level given
    to the call or, without one, the default level of the preferences. The
    commitment that [swap_to_zec] or [swap_from_zec] publishes carries
    shield parameters, with the memo "Swap X to Y" and no viewing key,
    exactly when that level is "shielded". So a new agent shields its
    swaps, and an agent whose default level was set to another text does
    not. *)
Theorem agent_swaps_shield_at_the_level_in_force
  (lib : Libs) (relay : Relay) (amb : Ambient) (self : ZcashAgent.t)
  (token : string) (amount_in : float) (privacy_level : option string) :
  (forall c,
     EvPost (intents_publishIntent c) ∈
       snd (ZcashAgent.swap_to_zec lib relay amb self token amount_in privacy_level []) ->
     exists level,
       ZcashAgent.effective_level self privacy_level = ok level /\
       shield_params c = shield_params_at level token "ZEC") /\
  (forall c,
     EvPost (intents_publishIntent c) ∈
       snd (ZcashAgent.swap_from_zec lib relay amb self token amount_in privacy_level []) ->
     exists level,
       ZcashAgent.effective_level self privacy_level = ok level /\
       shield_params c = shield_params_at level "ZEC" token) /\
  (forall level, ZcashAgent.effective_level self (Some level) = ok level) /\
  ZcashAgent.effective_level (ZcashAgent.init (ZcashAgent.account self)) None =
    ok "shielded" /\
  (forall preferences level,
     preferences !! "default_level" = Some (ZcashAgent.PyStr level) ->
     ZcashAgent.effective_level (ZcashAgent.set_privacy_preferences self preferences) None =
       ok level).
Proof.
  split; [|split; [|split; [|split]]].
  - intros c. rewrite swap_to_zec_cases.
    destruct (PyFloat.leb amount_in PyFloat.zero); [intros H; now apply elem_of_nil in H|].
    destruct (ASSET_MAP !! token); [|intros H; now apply elem_of_nil in H].
    destruct (ZcashAgent.effective_level self privacy_level) as [e|level];
      [intros H; now apply elem_of_nil in H|].
    intros Hin. apply swap_published_commitment in Hin as [q ->].
    exists level. split; [reflexivity|]. apply shield_params_of_swap_with_ZEC. now right.
  - intros c. rewrite swap_from_zec_cases.
    destruct (PyFloat.leb amount_in PyFloat.zero); [intros H; now apply elem_of_nil in H|].
    destruct (ASSET_MAP !! token); [|intros H; now apply elem_of_nil in H].
    destruct (ZcashAgent.effective_level self privacy_level) as [e|level];
      [intros H; now apply elem_of_nil in H|].
    intros Hin. apply swap_published_commitment in Hin as [q ->].
    exists level. split; [reflexivity|]. apply shield_params_of_swap_with_ZEC. now left.
  - reflexivity.
  - reflexivity.
  - intros preferences level Hp.
    unfold ZcashAgent.effective_level, getitem, ZcashAgent.set_privacy_preferences.
    cbn [ZcashAgent.privacy_preferences ZcashAgent.with_preferences].
    rewrite update_preferences_lookup, Hp.
    rewrite bool_decide_eq_true_2 by (unfold ZcashAgent.valid_keys; left).
    reflexivity.
Qed.

Lemma agent_swaps_shield_at_the_level_in_force_witness :
  exists c,
    EvPost (intents_publishIntent c) ∈
      snd (ZcashAgent.swap_to_zec ScenarioA.lib ScenarioA.relay ScenarioA.amb
             (ZcashAgent.init AgentSamples.funded) "NEAR" ScenarioA.half None []) /\
    shield_params c =
      Some {| sp_shielded := true; sp_memo := Some "Swap NEAR to ZEC";
              sp_viewing_key := None |}.
Proof.
  assert (E : exists c e1 e2,
            snd (ZcashAgent.swap_to_zec ScenarioA.lib ScenarioA.relay ScenarioA.amb
                   (ZcashAgent.init AgentSamples.funded) "NEAR" ScenarioA.half None []) =
              [e1; e2; EvPost (intents_publishIntent c)])
    by (eexists _, _, _; vm_compute; reflexivity).
  destruct E as (c & e1 & e2 & E). exists c.
  assert (Hin : EvPost (intents_publishIntent c) ∈
                  snd (ZcashAgent.swap_to_zec ScenarioA.lib ScenarioA.relay ScenarioA.amb
                         (ZcashAgent.init AgentSamples.funded) "NEAR" ScenarioA.half None []))
    by (rewrite E; repeat constructor).
  split; [exact Hin|].
  destruct (proj1 (agent_swaps_shield_at_the_level_in_force ScenarioA.lib ScenarioA.relay
                     ScenarioA.amb (ZcashAgent.init AgentSamples.funded) "NEAR"
                     ScenarioA.half None) c Hin) as (level & Hl & Hs).
  vm_compute in Hl. apply ok_inj in Hl. subst level. exact Hs.
Defined.

Section OrderOfQuotes.

(** [x <= y] and [y <= x] give [x == y]. *)
Lemma leb_antisym (x y : float) :
  PyFloat.leb x y = true -> PyFloat.leb y x = true -> PyFloat.eqb x y = true.
Proof.
  unfold PyFloat.leb, PyFloat.eqb, SFleb, SFeqb.
  destruct x as [sx|[]| |[] mx ex]; destruct y as [sy|[]| |[] my ey]; simpl; try easy.
  - rewrite (Z.compare_antisym ex ey).
    destruct (ex ?= ey) eqn:E; simpl; try easy.
    rewrite !Pos.compare_cont_spec; simpl. rewrite (Pos.compare_antisym mx my).
    destruct (mx ?= my)%positive; simpl; easy.
  - rewrite (Z.compare_antisym ex ey).
    destruct (ex ?= ey) eqn:E; simpl; try easy.
    rewrite !Pos.compare_cont_spec; simpl. rewrite (Pos.compare_antisym mx my).
    destruct (mx ?= my)%positive; simpl; easy.
Qed.

End OrderOfQuotes.

(** X23. The amount that the selector settles on does not depend on the order
    of the quotes: on two lists of the same quotes with numeric amounts,
    the selected quotes offer equal amounts as floats. Which of several
    quotes of that amount is returned does depend on the order: it is the
    first. *)
Theorem best_amount_is_order_independent
  (options options' : list (gmap string string)) (best best' : gmap string string)
  (kb kb' : float) :
  options ≡ₚ options' ->
  (forall x, x ∈ options -> exists k, amount_out_key x = ok k) ->
  select_best_option options = ok best -> amount_out_key best = ok kb ->
  select_best_option options' = ok best' -> amount_out_key best' = ok kb' ->
  PyFloat.eqb kb kb' = true.
Proof.
  intros Hp Hall Hs Hk Hs' Hk'.
  assert (Hall' : forall x, x ∈ options' -> exists k, amount_out_key x = ok k).
  { intros x Hx. apply Hall. now rewrite Hp. }
  assert (Hne : options <> []) by (intros ->; discriminate Hs).
  assert (Hne' : options' <> []) by (intros ->; discriminate Hs').
  destruct (select_best_option_float_maximal options Hne Hall)
    as (pre & b & k & post & R & E & K & Pall & _).
  destruct (select_best_option_float_maximal options' Hne' Hall')
    as (pre' & b' & k' & post' & R' & E' & K' & Pall' & _).
  rewrite Hs in R. apply ok_inj in R. subst b. rewrite Hk in K. apply ok_inj in K. subst k.
  rewrite Hs' in R'. apply ok_inj in R'. subst b'.
  rewrite Hk' in K'. apply ok_inj in K'. subst k'.
  assert (Hb : best ∈ options') by (rewrite <- Hp, E; apply elem_of_app; right; left).
  assert (Hb' : best' ∈ options) by (rewrite Hp, E'; apply elem_of_app; right; left).
  apply leb_antisym; eauto.
Qed.

Lemma best_amount_is_order_independent_witness :
  exists (kb kb' : float),
    amount_out_key ScenarioA.quote_15 = ok kb /\
    select_best_option [ScenarioA.quote_15; ScenarioA.quote_12] = ok ScenarioA.quote_15 /\
    amount_out_key ScenarioA.quote_15 = ok kb' /\
    PyFloat.eqb kb kb' = true.
Proof.
  pose (k := PyFloat.nearest 15000000).
  assert (Hk : amount_out_key ScenarioA.quote_15 = ok k) by (vm_compute; reflexivity).
  assert (H1 : select_best_option [ScenarioA.quote_12; ScenarioA.quote_15] =
               ok ScenarioA.quote_15) by (vm_compute; reflexivity).
  assert (H2 : select_best_option [ScenarioA.quote_15; ScenarioA.quote_12] =
               ok ScenarioA.quote_15) by (vm_compute; reflexivity).
  exists k, k. split; [exact Hk|]. split; [exact H2|]. split; [exact Hk|].
  apply (best_amount_is_order_independent
           [ScenarioA.quote_12; ScenarioA.quote_15] [ScenarioA.quote_15; ScenarioA.quote_12]
           ScenarioA.quote_15 ScenarioA.quote_15 k k); auto.
  - apply Permutation_swap.
  - intros x Hx. apply elem_of_cons in Hx as [->|Hx].
    + eexists. vm_compute. reflexivity.
    + apply list_elem_of_singleton in Hx as ->. eexists. exact Hk.
Defined.

(** ** The published diff; the order of the setters *)

Section PublishedDiff.


End PublishedDiff.



Section SetterOrder.

Lemma with_request_eq (self : IntentRequest) (r r' : gmap string string) :
  r = r' -> with_request self r = with_request self r'.
Proof. now intros ->. Qed.

End SetterOrder.

(** X25. The two setters commute: they write different fields, so the request
    that two calls leave does not depend on which setter ran first, also
    when a call raises. And the last call of a setter wins: once it has
    returned, nothing of an earlier call of the same setter is left. *)
Theorem setters_commute
  (self : IntentRequest) (token_in : string) (amount_in : float)
  (token_out : string) (amount_out : option float) :
  fst (set_asset_out (fst (set_asset_in self token_in amount_in)) token_out amount_out) =
    fst (set_asset_in (fst (set_asset_out self token_out amount_out)) token_in amount_in) /\
  (forall token amount r,
     set_asset_in (fst (set_asset_in self token amount)) token_in amount_in = (r, ok tt) ->
     set_asset_in self token_in amount_in = (r, ok tt)).
Proof.
  split.
  - pose proof (set_asset_in_cases self token_in amount_in) as C1.
    pose proof (set_asset_out_cases self token_out amount_out) as C2.
    pose proof (fun r => set_asset_out_cases r token_out amount_out) as C3.
    pose proof (fun r => set_asset_in_cases r token_in amount_in) as C4.
    destruct (ASSET_MAP !! token_in) as [a|]; destruct (ASSET_MAP !! token_out) as [a'|].
    + destruct C1 as (id & I & C1). destruct C2 as (id' & I' & C2).
      rewrite C1, C2.
      destruct (to_decimals amount_in (decimals a)) as [e|units] eqn:U;
        (destruct amount_out as [x|];
         [destruct (to_decimals x (decimals a')) as [e'|units'] eqn:U'|]);
        cbn [fst];
        match goal with
        | |- fst (set_asset_out ?r _ _) = fst (set_asset_in ?r' _ _) =>
            destruct (C3 r) as (? & I3 & ->); destruct (C4 r') as (? & I4 & ->)
        end;
        rewrite ?U, ?U'; cbn [fst with_request request min_deadline_ms];
        rewrite I in I4; rewrite I' in I3; apply ok_inj in I3, I4; subst;
        f_equal; apply map_eq; intros k;
        repeat (rewrite lookup_insert; destruct (decide _); try congruence);
        reflexivity.
    + destruct C1 as (id & I & C1). rewrite C1, C2. cbn [fst].
      destruct (to_decimals amount_in (decimals a)) as [e|units] eqn:U; cbn [fst];
        match goal with
        | |- fst (set_asset_out ?r _ _) = _ => rewrite (C3 r)
        end; rewrite C1, ?U; reflexivity.
    + destruct C2 as (id' & I' & C2). rewrite C1, C2. cbn [fst].
      destruct amount_out as [x|];
        [destruct (to_decimals x (decimals a')) as [e'|units'] eqn:U'|]; cbn [fst];
        match goal with
        | |- _ = fst (set_asset_in ?r _ _) => rewrite (C4 r)
        end; rewrite C2, ?U'; reflexivity.
    + rewrite C1, C2. cbn [fst]. rewrite (C3 self), (C4 self). reflexivity.
  - intros token amount r H.
    pose proof (set_asset_in_cases self token_in amount_in) as C1.
    pose proof (set_asset_in_cases (fst (set_asset_in self token amount)) token_in amount_in)
      as C2.
    destruct (ASSET_MAP !! token_in) as [a|]; [|rewrite C2 in H; discriminate H].
    destruct C1 as (id & I & C1). destruct C2 as (id' & I' & C2).
    rewrite I in I'. apply ok_inj in I'. subst id'.
    rewrite C2 in H. rewrite C1.
    destruct (to_decimals amount_in (decimals a)) as [e|units]; [discriminate H|].
    injection H as <-. f_equal.
    pose proof (set_asset_in_cases self token amount) as C0.
    destruct (ASSET_MAP !! token) as [a0|].
    + destruct C0 as (id0 & _ & ->).
      destruct (to_decimals amount (decimals a0)) as [e|units0];
        cbn [fst with_request request min_deadline_ms]; f_equal; apply map_eq; intros k;
        repeat (rewrite lookup_insert; destruct (decide _); try congruence);
        reflexivity.
    + rewrite C0. reflexivity.
Qed.

(** ** The agent: whole holdings; an account out of reach *)

Section Holdings.

Lemma str_not_empty (n : Z) : PyFloat.str n <> "".
Proof.
  intros E. pose proof (parse_integer_str n) as H. rewrite E in H. discriminate H.
Qed.

End Holdings.

(** X26. The balance of whole holdings is exact. When the token contract of a
    registered symbol other than NEAR reports [k * 10 ^ decimals] units,
    for a whole number [k] of tokens with [k * 10 ^ decimals] below
    [2 ^ 53], [get_balance] returns exactly [k]. *)
Theorem get_balance_of_whole_holdings
  (self : ZcashAgent.t) (token : string) (a : Asset) (k : Z) (d : gmap string string) :
  ASSET_MAP !! token = Some a -> token <> "NEAR" ->
  ZcashAgent.view_function (ZcashAgent.account self) (token_id a) "ft_balance_of"
    {[ "account_id" := account_id (ZcashAgent.signing (ZcashAgent.account self)) ]} =
    ok (Some d) ->
  d !! "result" = Some (PyFloat.str (k * 10 ^ Z.of_N (decimals a))) ->
  1 <= k -> k * 10 ^ Z.of_N (decimals a) < 2 ^ 53 ->
  ZcashAgent.get_balance self token = ok (PyFloat.nearest k).
Proof.
  intros Ha Hne Hv Hd Hk Hlt. rewrite (get_balance_registered self token a Ha).
  unfold ZcashAgent.balance_query. apply String.eqb_neq in Hne. rewrite Hne.
  unfold getitem. rewrite Ha. cbv beta iota delta [ok raise]. rewrite Hv.
  cbv beta iota delta [ok raise].
  change (Some d ≫= (fun d => d !! "result")) with (d !! "result"). rewrite Hd.
  destruct (String.eqb_spec (PyFloat.str (k * 10 ^ Z.of_N (decimals a))) "") as [E|_];
    [now apply str_not_empty in E|].
  rewrite (from_decimals_whole _ _ Hk Hlt). reflexivity.
Qed.

Lemma get_balance_of_whole_holdings_witness :
  ZcashAgent.get_balance (ZcashAgent.init AgentSamples.funded) "ZEC" = ok (PyFloat.nearest 3).
Proof.
  apply (get_balance_of_whole_holdings (ZcashAgent.init AgentSamples.funded) "ZEC"
           {| token_id := "zcash.factory.bridge.near"; omft := Some "zcash-token.omft.near";
              decimals := 8; shielded := true |}
           3 {[ "result" := "300000000" ]}).
  - vm_compute. reflexivity.
  - discriminate.
  - reflexivity.
  - vm_compute. reflexivity.
  - lia.
  - reflexivity.
Defined.

(** X27. The analysis of an account that cannot be reached. When every query
    of the account raises, the analysis does not fail: it reports the three
    registered symbols with a balance of [0.0], a total value of [0.0], an
    empty distribution and a privacy ratio of [0.0], as for an account
    that holds nothing. *)
Theorem analysis_of_unreachable_account (self : ZcashAgent.t) :
  (exists e, ZcashAgent.state (ZcashAgent.account self) = raise e) ->
  (forall contract method args, exists e,
     ZcashAgent.view_function (ZcashAgent.account self) contract method args = raise e) ->
  snd (ZcashAgent.analyze_portfolio self) =
    ok {| analysis_portfolio :=
            [("USDC", PyFloat.zero); ("NEAR", PyFloat.zero); ("ZEC", PyFloat.zero)];
          total_value_near := PyFloat.zero;
          distributions := [];
          privacy_ratio := PyFloat.zero |}.
Proof.
  intros [e He] Hv.
  unfold ZcashAgent.analyze_portfolio, ZcashAgent.get_portfolio.
  rewrite collect_balances_registry. cbn [snd ASSET_KEYS map].
  assert (Hq : forall token, token ∈ ASSET_KEYS ->
                 exists c, ZcashAgent.balance_query self token = inl c).
  { intros token Ht. unfold ZcashAgent.balance_query.
    destruct (String.eqb token "NEAR"); [rewrite He; eauto|].
    apply ASSET_KEYS_registered in Ht as [a Ha]. unfold getitem. rewrite Ha.
    cbv beta iota delta [ok raise].
    destruct (Hv (token_id a) "ft_balance_of"
                {[ "account_id" := account_id (ZcashAgent.signing (ZcashAgent.account self)) ]})
      as [e' ->].
    eauto. }
  destruct (Hq "USDC") as [c1 ->]; [unfold ASSET_KEYS; set_solver|].
  destruct (Hq "NEAR") as [c2 ->]; [unfold ASSET_KEYS; set_solver|].
  destruct (Hq "ZEC") as [c3 ->]; [unfold ASSET_KEYS; set_solver|].
  vm_compute. reflexivity.
Qed.

Lemma analysis_of_unreachable_account_witness :
  exists a,
    snd (ZcashAgent.analyze_portfolio (ZcashAgent.init AgentSamples.offline)) = ok a /\
    distributions a = [] /\ privacy_ratio a = PyFloat.zero.
Proof.
  eexists. split.
  - apply (analysis_of_unreachable_account (ZcashAgent.init AgentSamples.offline)).
    + eexists. reflexivity.
    + intros contract method args. eexists. reflexivity.
  - split; reflexivity.
Defined.
